(** * Conference networking bot: services, poll engine and dialog engine

    A shallow embedding of the JavaScript sources

    - [src/lib/realtime.js]            (module [Realtime])
    - [src/services/slide.service.js]  (module [SlideService])
    - [src/services/matching.service.js] (module [MatchingService])
    - [src/services/profile.service.js]  (module [ProfileService])
    - [src/telegram/bot.js]            (module [Bot])

    and of the vote operation of the poll engine as the specification
    describes it (module [PollEngine]), together with the properties the
    specification states about them.

    Conventions.
    - A JavaScript [string] is a Rocq [string] holding its UTF-8 bytes.
      White space is that of ECMAScript; the case mapping of the engine is
      a parameter ([JsString.Engine]), so what is proved holds for every
      [toLowerCase].
    - An [async] function that may [throw] is a function into [Result]
      paired with the state it leaves behind: whatever was written before
      the [throw] stays written.
    - A Mongo collection is the list of its documents in insertion order.
      A loaded document remembers the slot it was read from; [save] writes
      it back to that slot, and a new document is appended.
    - Storage and network failures are outside the model: a query always
      answers. *)

From Stdlib Require Import ZArith NArith Ascii String List Bool Lia.
From stdpp Require Import gmap strings list pretty.

Local Open Scope string_scope.
Local Open Scope list_scope.
Local Open Scope nat_scope.

(** ** JavaScript values and exceptions *)

Inductive Error :=
  | Err (message : string)            (* [new Error(message)] *)
  | ReferenceError (identifier : string)  (* reading an undeclared identifier *)
  | TypeError (message : string).

Inductive Result (A : Type) :=
  | Ok (a : A)
  | Throw (e : Error).
Arguments Ok {A} a.
Arguments Throw {A} e.

#[global] Instance Error_eq_dec : EqDecision Error.
Proof. solve_decision. Defined.

Inductive JsVal :=
  | JUndefined
  | JNull
  | JString (s : string).

#[global] Instance JsVal_eq_dec : EqDecision JsVal.
Proof. solve_decision. Defined.

(** [is_string_or_null v]: [v] inhabits the type [string | null]. *)
Definition is_string_or_null (v : JsVal) : bool :=
  match v with
  | JString _ | JNull => true
  | JUndefined => false
  end.

(** ** String primitives *)

Module JsString.

(** What the JavaScript engine brings along and the sources do not hold:
    the case mapping of Unicode. [toLowerCase s] is [s.toLowerCase()]. *)
Class Engine := { toLowerCase : string -> string }.

Definition byte (c : ascii) : N := N_of_ascii c.

(** The white space of ECMAScript, removed by [trim] and matched by [\s]:
    U+0009..U+000D, U+0020, U+00A0, U+1680, U+2000..U+200A, U+2028, U+2029,
    U+202F, U+205F, U+3000 and U+FEFF. [ws_len s] is the number of UTF-8
    bytes of the white space character [s] begins with, and [0] when it
    begins with none. *)
Definition ws_len (s : string) : nat :=
  match s with
  | String a s1 =>
      let x := byte a in
      if ((9 <=? x) && (x <=? 13) || (x =? 32))%N then 1
      else
        match s1 with
        | String b s2 =>
            let y := byte b in
            if ((x =? 194) && (y =? 160))%N then 2
            else
              match s2 with
              | String c _ =>
                  let z := byte c in
                  if ((x =? 225) && (y =? 154) && (z =? 128)
                      || (x =? 226) && (y =? 128) &&
                         ((128 <=? z) && (z <=? 138) ||
                          (z =? 168) || (z =? 169) || (z =? 175))
                      || (x =? 226) && (y =? 129) && (z =? 159)
                      || (x =? 227) && (y =? 128) && (z =? 128)
                      || (x =? 239) && (y =? 187) && (z =? 191))%N
                  then 3 else 0
              | EmptyString => 0
              end
        | EmptyString => 0
        end
  | EmptyString => 0
  end.

(** The string of the given bytes. *)
Definition of_bytes (l : list N) : string :=
  fold_right (fun n s => String (ascii_of_N n) s) EmptyString l.

(** [s] without its first [n] bytes. *)
Fixpoint skip (n : nat) (s : string) : string :=
  match n, s with
  | S k, String _ s' => skip k s'
  | _, _ => s
  end.

(** [trimStart_go k s]: [s] without its first [k] bytes and without the
    white space that follows them. *)
Fixpoint trimStart_go (k : nat) (s : string) : string :=
  match s with
  | EmptyString => EmptyString
  | String _ s' =>
      match k with
      | S k' => trimStart_go k' s'
      | O =>
          match ws_len s with
          | O => s
          | S k' => trimStart_go k' s'
          end
      end
  end.

Definition trimStart (s : string) : string := trimStart_go 0 s.

(** [s] is white space from end to end. *)
Definition blank (s : string) : bool := bool_decide (trimStart s = EmptyString).

(** The string is cut where nothing but white space follows. *)
Fixpoint trimEnd (s : string) : string :=
  match s with
  | EmptyString => EmptyString
  | String c s' => if blank s then EmptyString else String c (trimEnd s')
  end.

Definition trim (s : string) : string := trimEnd (trimStart s).

Fixpoint startsWith (s p : string) : bool :=
  match p, s with
  | EmptyString, _ => true
  | String a p', String b s' => if decide (a = b) then startsWith s' p' else false
  | String _ _, EmptyString => false
  end.

(** [s.includes(t)] *)
Fixpoint includes (s t : string) : bool :=
  startsWith s t ||
  match s with
  | EmptyString => false
  | String _ s' => includes s' t
  end.

(** [s.split(sep)] for a one-character separator. *)
Fixpoint split (sep : ascii) (s : string) : list string :=
  match s with
  | EmptyString => [EmptyString]
  | String c s' =>
      if decide (c = sep) then EmptyString :: split sep s'
      else match split sep s' with
           | w :: ws => String c w :: ws
           | [] => [String c EmptyString]
           end
  end.

(** [splitWs_go in_run k s]: the pieces of [s] after its first [k] bytes,
    which belong to a white space character; [in_run] says that the
    separator of the current run of white space is already counted. *)
Fixpoint splitWs_go (in_run : bool) (k : nat) (s : string) : list string :=
  match s with
  | EmptyString => [EmptyString]
  | String c s' =>
      match k with
      | S k' => splitWs_go in_run k' s'
      | O =>
          match ws_len s with
          | O =>
              match splitWs_go false 0 s' with
              | w :: ws => String c w :: ws
              | [] => [String c EmptyString]
              end
          | S k' =>
              if in_run then splitWs_go true k' s'
              else EmptyString :: splitWs_go true k' s'
          end
      end
  end.

(** [s.split(/\s+/)]: runs of white space separate the pieces. *)
Definition splitWs (s : string) : list string := splitWs_go false 0 s.

(** [a.join(sep)] *)
Fixpoint join (sep : string) (l : list string) : string :=
  match l with
  | [] => EmptyString
  | [w] => w
  | w :: ws => w +:+ sep +:+ join sep ws
  end.

(** [Boolean(s)]: the empty string is the only falsy string. *)
Definition truthy (s : string) : bool :=
  match s with EmptyString => false | _ => true end.

(** [/^\d+$/.test(s)] *)
Definition is_digit (c : ascii) : bool :=
  let n := nat_of_ascii c in ((48 <=? n) && (n <=? 57))%nat.

Fixpoint all_digits (s : string) : bool :=
  match s with
  | EmptyString => true
  | String c s' => is_digit c && all_digits s'
  end.

Definition test_digits (s : string) : bool := truthy s && all_digits s.

End JsString.

(** ** Stateful computations that may throw *)

Definition M (S A : Type) : Type := S -> Result A * S.

Definition ret {S A} (a : A) : M S A := fun s => (Ok a, s).

Definition throw {S A} (e : Error) : M S A := fun s => (Throw e, s).

Definition bind {S A B} (c : M S A) (k : A -> M S B) : M S B :=
  fun s =>
    match c s with
    | (Ok a, s') => k a s'
    | (Throw e, s') => (Throw e, s')
    end.

(** [try { body } catch (err) { handler }] *)
Definition try_catch {S A} (body : M S A) (handler : Error -> M S A) : M S A :=
  fun s =>
    match body s with
    | (Ok a, s') => (Ok a, s')
    | (Throw e, s') => handler e s'
    end.

Definition get {S} : M S S := fun s => (Ok s, s).
Definition modify {S} (f : S -> S) : M S unit := fun s => (Ok tt, f s).

(** A value already computed, or the exception it raised. *)
Definition lift {S A} (r : Result A) : M S A := fun s => (r, s).

Declare Scope js_scope.
Delimit Scope js_scope with js.
Notation "'let*' x ':=' c 'in' k" := (bind c (fun x => k))
  (at level 10, x name, c at level 200, k at level 200) : js_scope.

(** ** Documents *)

Definition ObjectId : Type := N.

(** [id.toString()]: an injective rendering of the identifier. *)
Definition ObjectId_toString (id : ObjectId) : string := pretty id.

Inductive GlobalRole := main_admin | conference_admin | user.

Inductive Access := public | private.

(** [src/models/user.js] *)
Module User.
Record t := mk {
  telegramId : string;
  username : option string;
  firstName : option string;
  lastName : option string;
  globalRole : GlobalRole;
}.
End User.

(** [src/models/conference.js]: the fields the schema declares. The schema
    option [timestamps] makes Mongoose keep two more, [createdAt] and
    [updatedAt], which no service or handler reads; they are not part of
    the record, so nothing here speaks about them. *)
Module Conference.
Record t := mk {
  _id : ObjectId;
  title : string;
  description : option string;
  conferenceCode : string;
  access : Access;
  startsAt : option Z;
  endsAt : option Z;
  isActive : bool;
  isEnded : bool;
  admins : list ObjectId;
  currentSlideUrl : option string;
  currentSlideTitle : option string;
}.

(** [c.currentSlideUrl = u; c.currentSlideTitle = t] *)
Definition with_slide (c : t) (u t' : option string) : t :=
  mk (_id c) (title c) (description c) (conferenceCode c) (access c)
     (startsAt c) (endsAt c) (isActive c) (isEnded c) (admins c) u t'.
End Conference.

(** Modelled from the spec: [models/userProfile.js] is not among the sources.
    Section 3 gives a profile its account, its conference, the three lists,
    the role tags and the onboarding flag; the names are those the services
    read and write. A key never written is [None]. *)
Module UserProfile.
Record t := mk {
  _id : ObjectId;
  telegramId : string;
  conference : ObjectId;
  isActive : bool;
  onboardingCompleted : bool;
  firstName : option string;
  lastName : option string;
  interests : option (list string);
  offerings : option (list string);
  lookingFor : option (list string);
  roles : option (list string);
}.
End UserProfile.

(** One message handed to the socket server: [io.to(room).emit(event, payload)].
    The payload is the object literal, key by key. *)
Record Emission := mkEmission {
  room : string;
  event : string;
  payload : list (string * JsVal);
}.

#[global] Instance Emission_eq_dec : EqDecision Emission.
Proof. solve_decision. Defined.

(** What the services read and write: the two collections and the module
    variable [ioInstance] of [realtime.js]. A socket server is represented by
    the messages it has been asked to broadcast, oldest first. *)
Record World := mkWorld {
  conferences : list Conference.t;
  profiles : list UserProfile.t;
  ioInstance : option (list Emission);
}.

Definition set_conferences (cs : list Conference.t) (w : World) : World :=
  mkWorld cs (profiles w) (ioInstance w).
Definition set_profiles (ps : list UserProfile.t) (w : World) : World :=
  mkWorld (conferences w) ps (ioInstance w).
Definition set_ioInstance (io : option (list Emission)) (w : World) : World :=
  mkWorld (conferences w) (profiles w) io.

(** ** Queries *)

(** [Model.findOne(filter)]: the first matching document and its slot. *)
Fixpoint findOne_from {A} (P : A -> bool) (i : nat) (l : list A) : option (nat * A) :=
  match l with
  | [] => None
  | x :: l' => if P x then Some (i, x) else findOne_from P (S i) l'
  end.

Definition findOne {A} (P : A -> bool) (l : list A) : option (nat * A) :=
  findOne_from P 0 l.

(** [cursor.limit(n)]: Mongo reads [limit(0)] as no limit at all. *)
Definition limit {A} (n : nat) (l : list A) : list A :=
  match n with
  | O => l
  | S _ => take n l
  end.

(** [Conference.findOne({ conferenceCode })] *)
Definition Conference_findOne (code : string) : M World (option (nat * Conference.t)) :=
  fun w => (Ok (findOne (fun c => bool_decide (Conference.conferenceCode c = code))
                        (conferences w)), w).

(** [conference.save()] for a document read from slot [slot]. *)
Definition Conference_save (slot : nat) (c : Conference.t) : M World unit :=
  modify (fun w => set_conferences (<[slot := c]> (conferences w)) w).

(** [UserProfile.find(filter)] *)
Definition UserProfile_find (P : UserProfile.t -> bool) : M World (list UserProfile.t) :=
  fun w => (Ok (List.filter P (profiles w)), w).

(** ** [src/lib/realtime.js] *)

Module Realtime.

(** [setIO(io)] *)
Definition setIO (io : list Emission) : M World unit :=
  modify (set_ioInstance (Some io)).

(** [emitToConference(conferenceId, event, payload)]. The identifier may be
    [undefined] ([None]), on which [toString] raises a [TypeError]. A server
    that has been set is taken to accept every message: an exception from
    inside [io.to(room).emit] is not represented. *)
Definition emitToConference (conferenceId : option ObjectId) (event : string)
    (payload : list (string * JsVal)) : M World unit :=
  fun w =>
    match ioInstance w with
    | None => (Ok tt, w)
    | Some sent =>
        match conferenceId with
        | None =>
            (Throw (TypeError "Cannot read properties of undefined (reading 'toString')"), w)
        | Some id =>
            let room := "conference-" +:+ ObjectId_toString id in
            (Ok tt, set_ioInstance (Some (sent ++ [mkEmission room event payload])) w)
        end
    end.

End Realtime.

(** ** [src/services/slide.service.js] *)

(** The object given to [validate(..., slideSchema)] and the one it returns. *)
Record SlideInput := mkSlideInput {
  si_url : option string;
  si_title : string;
  si_conferenceCode : string;
}.

Record SlideData := mkSlideData {
  sd_url : string;
  sd_title : string;
  sd_conferenceCode : string;
}.

(** [o || ''] *)
Definition or_empty (o : option string) : string :=
  match o with
  | Some s => s
  | None => ""
  end.

(** Reading a field of a document into a payload. *)
Definition of_field (o : option string) : JsVal :=
  match o with
  | Some s => JString s
  | None => JUndefined
  end.

Module SlideService.
Section WithCollaborators.

(** [userIsMainAdmin] of [conference.service.js] and Joi's verdict on
    [slideSchema] are taken as given. *)
Variable userIsMainAdmin : User.t -> bool.
Variable validate_slide : SlideInput -> Result SlideData.

Local Open Scope js_scope.

Definition assertConferenceAdmin (user : User.t) (conference : Conference.t)
    : M World unit :=
  if userIsMainAdmin user then ret tt
  else
    let* profiles := UserProfile_find (fun p =>
        bool_decide (UserProfile.telegramId p = User.telegramId user) &&
        bool_decide (UserProfile.conference p = Conference._id conference)) in
    let profileIdsStr := map (fun p => ObjectId_toString (UserProfile._id p)) profiles in
    let isConferenceAdmin :=
      (0 <? length profileIdsStr)%nat &&
      existsb (fun id => bool_decide (ObjectId_toString id ∈ profileIdsStr))
              (Conference.admins conference) in
    if negb isConferenceAdmin then throw (Err "ACCESS_DENIED")
    else ret tt.

Definition setSlide (moderatorUser : User.t) (conferenceCode : string)
    (url title : option string) : M World Conference.t :=
  let* validated := lift (validate_slide (mkSlideInput url (or_empty title) conferenceCode)) in
  let validatedUrl := sd_url validated in
  let validatedTitle := sd_title validated in
  let validatedCode := sd_conferenceCode validated in
  let* found := Conference_findOne validatedCode in
  match found with
  | None => throw (Err "CONFERENCE_NOT_FOUND")
  | Some (slot, conference) =>
      let* _ := assertConferenceAdmin moderatorUser conference in
      let conference :=
        Conference.with_slide conference (Some validatedUrl)
                              (Some (or_empty (Some validatedTitle))) in
      let* _ := Conference_save slot conference in
      let* _ := Realtime.emitToConference (Some (Conference._id conference)) "slide-updated"
        [("url", of_field (Conference.currentSlideUrl conference));
         ("title", of_field (Conference.currentSlideTitle conference))] in
      ret conference
  end.

Definition clearSlide (moderatorUser : User.t) (conferenceCode : string)
    : M World Conference.t :=
  let* found := Conference_findOne conferenceCode in
  match found with
  | None => throw (Err "CONFERENCE_NOT_FOUND")
  | Some (slot, conference) =>
      let* _ := assertConferenceAdmin moderatorUser conference in
      let conference := Conference.with_slide conference None None in
      let* _ := Conference_save slot conference in
      let* _ := Realtime.emitToConference (Some (Conference._id conference)) "slide-updated"
        [("url", JNull); ("title", JNull)] in
      ret conference
  end.

End WithCollaborators.
End SlideService.

(** ** [src/services/matching.service.js] *)

Module MatchingService.
Section WithEngine.

Context {engine : JsString.Engine}.

Local Open Scope js_scope.

(** [if (role)]: [null], [undefined] and [''] add no filter. *)
Definition role_given (role : option string) : option string :=
  match role with
  | Some r => if JsString.truthy r then Some r else None
  | None => None
  end.

(** [{ roles: role }] on an array field: the array contains [role]. *)
Definition has_role (role : string) (p : UserProfile.t) : bool :=
  bool_decide (role ∈ default [] (UserProfile.roles p)).

Definition query (conference : Conference.t) (role : option string)
    (p : UserProfile.t) : bool :=
  bool_decide (UserProfile.conference p = Conference._id conference) &&
  UserProfile.isActive p &&
  UserProfile.onboardingCompleted p &&
  match role_given role with
  | Some r => has_role r p
  | None => true
  end.

(** [text && text.trim()] *)
Definition text_given (text : option string) : option string :=
  match text with
  | Some t => if JsString.truthy t && JsString.truthy (JsString.trim t)
              then Some (JsString.toLowerCase (JsString.trim t)) else None
  | None => None
  end.

Definition fields (p : UserProfile.t) : list string :=
  [] ++ default [] (UserProfile.interests p)
     ++ default [] (UserProfile.offerings p)
     ++ default [] (UserProfile.lookingFor p).

Definition text_matches (t : string) (p : UserProfile.t) : bool :=
  existsb (fun val => JsString.includes (JsString.toLowerCase val) t) (fields p).

(** [searchProfiles({ conferenceCode, role, text, limit = 20 })] *)
Definition searchProfiles (conferenceCode : string) (role text : option string)
    (limit_arg : option nat) : M World (Conference.t * list UserProfile.t) :=
  let limit_ := default 20 limit_arg in
  let* found := Conference_findOne conferenceCode in
  match found with
  | None => throw (Err "CONFERENCE_NOT_FOUND")
  | Some (_, conference) =>
      let* matching := UserProfile_find (query conference role) in
      let profiles := limit limit_ matching in
      match text_given text with
      | Some t =>
          let filtered := List.filter (text_matches t) profiles in
          ret (conference, filtered)
      | None => ret (conference, profiles)
      end
  end.

End WithEngine.
End MatchingService.

(** ** [src/services/profile.service.js] *)

(** The profile fields [userProfileSchema] knows; an absent key is [None]. *)
Record ProfileData := mkProfileData {
  pd_firstName : option string;
  pd_lastName : option string;
  pd_interests : option (list string);
  pd_offerings : option (list string);
  pd_lookingFor : option (list string);
  pd_roles : option (list string);
}.

Definition empty_data : ProfileData := mkProfileData None None None None None None.

Module ProfileService.
Section WithValidation.

(** Joi's verdict on [userProfileSchema]; unknown keys are stripped, so the
    result has no key outside [ProfileData]. *)
Variable validate_profile : ProfileData -> Result ProfileData.

Local Open Scope js_scope.

(** [source.key] when the key is present, the old value otherwise. *)
Definition assigned {A} (new old : option A) : option A :=
  match new with
  | Some v => Some v
  | None => old
  end.

(** [Object.assign(profile, validated)] *)
Definition Object_assign (profile : UserProfile.t) (validated : ProfileData)
    : UserProfile.t :=
  UserProfile.mk
    (UserProfile._id profile)
    (UserProfile.telegramId profile)
    (UserProfile.conference profile)
    (UserProfile.isActive profile)
    (UserProfile.onboardingCompleted profile)
    (assigned (pd_firstName validated) (UserProfile.firstName profile))
    (assigned (pd_lastName validated) (UserProfile.lastName profile))
    (assigned (pd_interests validated) (UserProfile.interests profile))
    (assigned (pd_offerings validated) (UserProfile.offerings profile))
    (assigned (pd_lookingFor validated) (UserProfile.lookingFor profile))
    (assigned (pd_roles validated) (UserProfile.roles profile)).

(** [profile.onboardingCompleted = true] *)
Definition complete (profile : UserProfile.t) : UserProfile.t :=
  UserProfile.mk
    (UserProfile._id profile) (UserProfile.telegramId profile)
    (UserProfile.conference profile) (UserProfile.isActive profile) true
    (UserProfile.firstName profile) (UserProfile.lastName profile)
    (UserProfile.interests profile) (UserProfile.offerings profile)
    (UserProfile.lookingFor profile) (UserProfile.roles profile).

(** The identifier given to a new document: one no profile carries. *)
Definition newObjectId (ps : list UserProfile.t) : ObjectId :=
  N.succ (fold_right N.max 0%N (map UserProfile._id ps)).

(** [new UserProfile({ telegramId, conference, isActive: true })] *)
Definition new_UserProfile (id : ObjectId) (telegramId : string)
    (conferenceId : ObjectId) : UserProfile.t :=
  UserProfile.mk id telegramId conferenceId true false
                 None None (Some []) (Some []) (Some []) (Some []).

(** [profile.save()]: back to its slot, or appended when it is new. *)
Definition UserProfile_save (slot : option nat) (p : UserProfile.t) : M World unit :=
  modify (fun w =>
    match slot with
    | Some i => set_profiles (<[i := p]> (profiles w)) w
    | None => set_profiles (profiles w ++ [p]) w
    end).

Definition by_keys (telegramId : string) (conferenceId : ObjectId)
    (p : UserProfile.t) : bool :=
  bool_decide (UserProfile.telegramId p = telegramId) &&
  bool_decide (UserProfile.conference p = conferenceId).

(** [upsertProfileForConference({ telegramId, conferenceId, data })] *)
Definition upsertProfileForConference (telegramId : string)
    (conferenceId : option ObjectId) (data : ProfileData) : M World UserProfile.t :=
  match conferenceId with
  | None => throw (Err "MISSING_KEYS")
  | Some conferenceId =>
      if negb (JsString.truthy telegramId) then throw (Err "MISSING_KEYS")
      else
        let* validated := lift (validate_profile data) in
        let* w := get in
        let found := findOne (by_keys telegramId conferenceId) (profiles w) in
        let slot := fst <$> found in
        let profile :=
          match found with
          | Some (_, profile) => profile
          | None => new_UserProfile (newObjectId (profiles w)) telegramId conferenceId
          end in
        let profile := Object_assign profile validated in
        let profile := complete profile in
        let* _ := UserProfile_save slot profile in
        ret profile
  end.

End WithValidation.
End ProfileService.

(** ** Poll engine *)

(** Modelled from the spec: [models/poll.js] is not among the sources.
    Section 3: a poll belongs to one conference and has a question text, an
    ordered list of options (stable numeric id, text, set of voter identities)
    and an active flag; the names are those [bot.js] reads. *)
Module Poll.
Record Option_ := mkOption {
  id : Z;
  text : string;
  voters : gset Z;
}.

Record t := mk {
  _id : string;
  conference : ObjectId;
  question : string;
  options : list Option_;
  isActive : bool;
}.

Definition with_options (p : t) (os : list Option_) : t :=
  mk (_id p) (conference p) (question p) os (isActive p).
End Poll.

Module PollEngine.

Local Open Scope js_scope.

(** The persisted polls, by identifier. *)
Definition Polls : Type := gmap string Poll.t.

(** Modelled from the spec: "already voted anywhere in this poll". *)
Definition has_voted (voter : Z) (p : Poll.t) : bool :=
  existsb (fun o => bool_decide (voter ∈ Poll.voters o)) (Poll.options p).

Definition has_option (optionId : Z) (p : Poll.t) : bool :=
  existsb (fun o => bool_decide (Poll.id o = optionId)) (Poll.options p).

(** Modelled from the spec: "record vote". The voter joins the voter set of
    the chosen option, the first one that carries the identifier. *)
Fixpoint add_voter (voter optionId : Z) (os : list Poll.Option_) : list Poll.Option_ :=
  match os with
  | [] => []
  | o :: os' =>
      if bool_decide (Poll.id o = optionId)
      then Poll.mkOption (Poll.id o) (Poll.text o) ({[voter]} ∪ Poll.voters o) :: os'
      else o :: add_voter voter optionId os'
  end.

Definition record_vote (voter optionId : Z) (p : Poll.t) : Poll.t :=
  Poll.with_options p (add_voter voter optionId (Poll.options p)).

(** Modelled from the spec: [voteInPoll] of [services/poll.service.js],
    which is not among the sources. Section 4.5: a vote on a missing or
    inactive poll is rejected ([POLL_NOT_FOUND]); the check "already voted
    anywhere in this poll" and the mutation "record vote" are one atomic
    step that fails with [ALREADY_VOTED] when the voter is present in some
    voter set; a vote naming no option of the poll is rejected. The
    option identifier arrives through [parseInt], so it may be [NaN]
    ([None]), which names no option. *)
Definition voteInPoll (voter : Z) (pollId : string) (optionId : option Z)
    : M Polls Poll.t :=
  fun polls =>
    match polls !! pollId with
    | None => (Throw (Err "POLL_NOT_FOUND"), polls)
    | Some p =>
        if negb (Poll.isActive p) then (Throw (Err "POLL_NOT_FOUND"), polls)
        else if has_voted voter p then (Throw (Err "ALREADY_VOTED"), polls)
        else
          match optionId with
          | Some o =>
              if has_option o p then
                let p' := record_vote voter o p in
                (Ok p', <[pollId := p']> polls)
              else (Throw (Err "INVALID_OPTION"), polls)
          | None => (Throw (Err "INVALID_OPTION"), polls)
          end
    end.

(** The tally of an option: [opt.voters.length]. *)
Definition tally (o : Poll.Option_) : nat := size (Poll.voters o).

Definition tallies (p : Poll.t) : list nat := map tally (Poll.options p).

(** The number of options whose voter set holds [voter]. *)
Definition voted_options (voter : Z) (p : Poll.t) : nat :=
  length (List.filter (fun o => bool_decide (voter ∈ Poll.voters o)) (Poll.options p)).

End PollEngine.

(** ** [src/telegram/bot.js] *)

(** [ctx.from] *)
Record From := mkFrom {
  from_id : Z;
  from_username : option string;
  from_first_name : option string;
}.

(** A question as the handlers read it: [question.text], [question.answer]. *)
Record Question := mkQuestion {
  q_text : string;
  q_answer : option string;
}.

(** The value of [userState]: the flow, its step and the partial input. *)
Record FlowState := mkFlowState {
  flow : string;
  step : option string;
  conferenceCode : option string;
  question : option string;
  title : option string;
  pollId : option string;
  questionId : option string;
  targetSpeaker : option string;
}.

(** [{ flow, step, conferenceCode }], the other keys absent. *)
Definition flow_state (f : string) (st code : option string) : FlowState :=
  mkFlowState f st code None None None None None.

(** The value of [onboardingState]. *)
Record Onboarding := mkOnboarding {
  ob_step : Z;
  ob_data : ProfileData;
}.

(** The keyboards of [menus.js], named by the call that builds them. *)
Inductive Markup :=
  | NoMarkup
  | MainMenu (from : From)                       (* [await getMainMenu(ctx.from)] *)
  | UserMenu                                     (* [getUserMenu()] *)
  | SpeakerMenu                                  (* [getSpeakerMenu()] *)
  | ConferenceAdminMenu                          (* [getConferenceAdminMenu()] *)
  | ReplyKeyboard                                (* [getReplyKeyboard()] *)
  | ConferenceSelectionMenu (cs : list Conference.t) (prefix : string)
  | InlineButton (label callback_data : string). (* one inline button *)

(** The texts sent to the user, named by what they say. *)
Inductive Msg :=
  | MsgCancelled                 (* bot.js 1579: the current action is cancelled *)
  | MsgChooseFromMenu            (* 1593: pick an action from the menu or use /start *)
  | MsgEnterName                 (* 1608 *)
  | MsgOnboardingStep (n : Z)    (* 1625, 1648, 1672, 1696: "step n of 5" *)
  | MsgEnterConferenceCode       (* 1707 *)
  | MsgProfileCompleted (conferenceTitle : string)         (* 1724 *)
  | MsgOnboardingReset           (* 1732 *)
  | MsgError                     (* 1735 *)
  | MsgValidationError (details : string)                  (* 1738 *)
  | MsgConferenceNotFoundRetry   (* 1740 *)
  | MsgInvalidFormat             (* 1742 *)
  | MsgJoined (conferenceTitle code : string)              (* 1758 *)
  | MsgJoinFailed                (* 1764 *)
  | MsgJoinNotFound              (* 1766 *)
  | MsgNoParticipants            (* 1800 *)
  | MsgFound (ps : list UserProfile.t)                     (* 1809 *)
  | MsgSearchError               (* 1812 *)
  | MsgQuestionSent (targeted : bool) (conferenceTitle : string)  (* 1828 *)
  | MsgQuestionFailed            (* 1834 *)
  | MsgQuestionInvalid (details : string)                  (* 1836 *)
  | MsgAnswerSaved (questionText : string) (answer : option string) (* 1854 *)
  | MsgAnswerFailed              (* 1860 *)
  | MsgNotSpeaker                (* 1862 *)
  | MsgQuestionNotForYou         (* 1864 *)
  | MsgEnterDescription          (* 1876 *)
  | MsgGenericErrorCancelHint    (* 1883, 1927 *)
  | MsgConferenceUpdated (conferenceTitle : string)        (* 1902 *)
  | MsgConferenceUpdateFailed    (* 1908 *)
  | MsgEnterOptions              (* 1920 *)
  | MsgNeedTwoOptions            (* 1937 *)
  | MsgPollCreated (pollQuestion : string) (options : list string)  (* 1949 *)
  | MsgPollCreateFailed          (* 1955 *)
  | MsgPollNotFound              (* 1971 *)
  | MsgPollUpdated               (* 1981 *)
  | MsgPollUpdateFailed          (* 1987 *)
  | MsgAccessDenied              (* 1997 *)
  | MsgBadTelegramId             (* 2004 *)
  | MsgAdminAssigned (telegramId : string)                 (* 2015 *)
  | MsgAssignFailed (reason : string)                      (* 2021-2029 *)
  | MsgSlideUpdated              (* 2049 *)
  | MsgSlideFailed               (* 2055 *)
  | MsgConferenceCreated (conferenceTitle code : string)   (* 2069 *)
  | MsgConferenceCreateFailed    (* 2075 *)
  | MsgUnhandled                 (* 2082: the request could not be handled, state reset *)
  | MsgFlowPrompt (flow : string) (* the first prompt of a flow *)
  | MsgJoinFirst                 (* "join a conference first" *)
  | MsgNoConferences             (* "you have no conferences" *)
  | MsgVoteCounted (pollQuestion : string) (optionText : option string)
                   (votes : option nat)                    (* 352 *)
  | MsgAlreadyVoted              (* 359 *)
  | MsgVoteFailed                (* 357 *)
  | MsgNoAvailableConferences    (* 1067: "no conferences yet, use the join button" *)
  | MsgMyConferences (cs : list Conference.t).  (* 1081: title, code and start of each *)

(** What a handler hands to the chat transport. *)
Inductive Sent :=
  | AnswerCbQuery                               (* [ctx.answerCbQuery()] *)
  | Reply (m : Msg) (k : Markup)                (* [ctx.reply(text, extra)] *)
  | EditMessageText (m : Msg) (k : Markup).     (* [ctx.editMessageText(text, extra)] *)

(** [err.message] *)
Definition message (e : Error) : string :=
  match e with
  | Err m => m
  | ReferenceError x => x +:+ " is not defined"
  | TypeError m => m
  end.

(** [parseInt(s, 10)]; [None] is [NaN]. Leading white space is skipped,
    then an optional sign and the longest run of digits are read. The result
    is the integer the digits denote: the rounding to a double, which sets
    in beyond 2^53, is not represented. *)
Module ParseInt.
Definition digit (c : ascii) : option Z :=
  if JsString.is_digit c then Some (Z.of_nat (nat_of_ascii c) - 48)%Z else None.

Fixpoint digits (acc : option Z) (s : string) : option Z :=
  match s with
  | String c s' =>
      match digit c with
      | Some d => digits (Some (10 * default 0%Z acc + d)%Z) s'
      | None => acc
      end
  | EmptyString => acc
  end.

Definition parseInt (s : string) : option Z :=
  match JsString.trimStart s with
  | String "-" s' => Z.opp <$> digits None s'
  | String "+" s' => digits None s'
  | s' => digits None s'
  end.
End ParseInt.

Module Bot.

(** The two session maps, the domain state [W] behind the services, what
    was sent to the chat and what [console.error] printed. *)
Record State (W : Type) := mkState {
  world : W;
  userState : gmap Z FlowState;
  onboardingState : gmap Z Onboarding;
  outbox : list Sent;
  console : list (string * Error);
}.
Arguments mkState {W}.
Arguments world {W}.
Arguments userState {W}.
Arguments onboardingState {W}.
Arguments outbox {W}.
Arguments console {W}.

Section Handlers.

Context {W : Type}.
Context {engine : JsString.Engine}.

Local Open Scope js_scope.

(** *** Plumbing *)

Definition on_world {A} (c : M W A) : M (State W) A :=
  fun s =>
    let '(r, w') := c (world s) in
    (r, mkState w' (userState s) (onboardingState s) (outbox s) (console s)).

Definition send (x : Sent) : M (State W) unit :=
  modify (fun s => mkState (world s) (userState s) (onboardingState s)
                           (outbox s ++ [x]) (console s)).

Definition console_error (tag : string) (e : Error) : M (State W) unit :=
  modify (fun s => mkState (world s) (userState s) (onboardingState s)
                           (outbox s) (console s ++ [(tag, e)])).

(** [userState.set(id, v)], [userState.delete(id)], and the same for
    [onboardingState]. *)
Definition userState_set (id : Z) (v : FlowState) : M (State W) unit :=
  modify (fun s => mkState (world s) (<[id := v]> (userState s)) (onboardingState s)
                           (outbox s) (console s)).

Definition userState_delete (id : Z) : M (State W) unit :=
  modify (fun s => mkState (world s) (delete id (userState s)) (onboardingState s)
                           (outbox s) (console s)).

Definition onboardingState_set (id : Z) (v : Onboarding) : M (State W) unit :=
  modify (fun s => mkState (world s) (userState s) (<[id := v]> (onboardingState s))
                           (outbox s) (console s)).

Definition onboardingState_delete (id : Z) : M (State W) unit :=
  modify (fun s => mkState (world s) (userState s) (delete id (onboardingState s))
                           (outbox s) (console s)).

(** [clearUserState(telegramId)] *)
Definition clearUserState (telegramId : Z) : M (State W) unit :=
  let* _ := userState_delete telegramId in
  onboardingState_delete telegramId.

Definition reply (m : Msg) (k : Markup) : M (State W) unit := send (Reply m k).

Definition editMessageText (m : Msg) (k : Markup) : M (State W) unit :=
  send (EditMessageText m k).

(** A template literal prints an absent value as [undefined]. *)
Definition interpolate (o : option string) : string := default "undefined" o.

(** [s.replace(pat, '')]: the first occurrence of [pat] is removed. *)
Fixpoint remove_first (pat s : string) : string :=
  if JsString.startsWith s pat && JsString.truthy pat
  then String.substring (String.length pat) (String.length s - String.length pat) s
  else match s with
       | String c s' => String c (remove_first pat s')
       | EmptyString => EmptyString
       end.

(** [text.split(',').map((s) => s.trim()).filter(Boolean)] *)
Definition comma_list (text : string) : list string :=
  List.filter JsString.truthy (map JsString.trim (JsString.split "," text)).

(** The list typed at an optional onboarding step; ["-"] and the empty
    text give no entry. *)
Definition optional_list (text : string) : list string :=
  if negb (bool_decide (JsString.trim text = "-")) &&
     negb (bool_decide (JsString.trim text = ""))
  then comma_list text else [].

(** [text.split(' ').filter(Boolean)] *)
Definition words (text : string) : list string :=
  List.filter JsString.truthy (JsString.split " " text).

(** The test at the top of the text dispatch. *)
Definition is_cancel (text : string) : bool :=
  bool_decide (JsString.toLowerCase text = "отмена") ||
  bool_decide (JsString.toLowerCase text = "cancel") ||
  bool_decide (JsString.toLowerCase text = "/cancel").

(** *** The collaborators of the handlers

    The services of [conference.service.js], [question.service.js] and
    [poll.service.js], the three services modelled above and Joi's verdict
    on [userProfileSchema], seen from the handlers: what they are given and
    what they answer or throw. [ensureUserFromTelegram] and
    [listConferencesForUser] have no error of their own. *)
Variable validate_profile : ProfileData -> Result ProfileData.
Variable ensureUserFromTelegram : From -> W -> User.t * W.
Variable userIsMainAdmin : User.t -> bool.
Variable listConferencesForUser : User.t -> W -> list Conference.t.
Variable joinConference : From -> string -> M W (Conference.t * UserProfile.t).
Variable upsertProfileForConference :
  string -> option ObjectId -> ProfileData -> M W UserProfile.t.
Variable searchProfiles :
  option string -> option string -> option string -> option nat ->
  M W (Conference.t * list UserProfile.t).
Variable askQuestion : From -> option string -> string -> option string -> M W Conference.t.
Variable answerQuestion : User.t -> option string -> option string -> string -> M W Question.
Variable updateConference :
  option string -> User.t -> option string -> option string -> M W Conference.t.
Variable createPoll : User.t -> option string -> option string -> list string -> M W Poll.t.
Variable Poll_findById : option string -> W -> option Poll.t.
Variable Conference_findById : ObjectId -> W -> option Conference.t.
Variable updatePoll : User.t -> option string -> option string -> M W Poll.t.
Variable assignConferenceAdmin : User.t -> option string -> string -> M W unit.
Variable setSlide : User.t -> option string -> option string -> option string -> M W Conference.t.
Variable createConference : User.t -> string -> string -> M W Conference.t.
Variable voteInPoll : From -> string -> option Z -> M W Poll.t.

Definition ensureUser (from : From) : M (State W) User.t :=
  on_world (fun w => let '(u, w') := ensureUserFromTelegram from w in (Ok u, w')).

Definition listConferences (u : User.t) : M (State W) (list Conference.t) :=
  on_world (fun w => (Ok (listConferencesForUser u w), w)).

(** *** [bot.on('text')]: the onboarding steps (1603-1748) *)

Definition with_names (d : ProfileData) (firstName lastName : string) : ProfileData :=
  mkProfileData (Some firstName) (Some lastName) (pd_interests d) (pd_offerings d)
                (pd_lookingFor d) (pd_roles d).
Definition with_interests (d : ProfileData) (l : list string) : ProfileData :=
  mkProfileData (pd_firstName d) (pd_lastName d) (Some l) (pd_offerings d)
                (pd_lookingFor d) (pd_roles d).
Definition with_offerings (d : ProfileData) (l : list string) : ProfileData :=
  mkProfileData (pd_firstName d) (pd_lastName d) (pd_interests d) (Some l)
                (pd_lookingFor d) (pd_roles d).
Definition with_lookingFor (d : ProfileData) (l : list string) : ProfileData :=
  mkProfileData (pd_firstName d) (pd_lastName d) (pd_interests d) (pd_offerings d)
                (Some l) (pd_roles d).

Definition onboarding_try (from : From) (text : string) (onboarding : Onboarding)
    : M (State W) unit :=
  let id := from_id from in
  let data := ob_data onboarding in
  if bool_decide (ob_step onboarding = 1%Z) then
    match JsString.splitWs (JsString.trim text) with
    | [] => reply MsgEnterName NoMarkup
    | firstName :: rest =>
        let lastName := JsString.join " " rest in
        let* _ :=
          if JsString.truthy lastName
          then lift (validate_profile
                       (mkProfileData (Some firstName) (Some lastName) None None None None))
          else lift (validate_profile
                       (mkProfileData (Some firstName) None None None None None)) in
        let* _ := onboardingState_set id (mkOnboarding 2 (with_names data firstName lastName)) in
        reply (MsgOnboardingStep 2) NoMarkup
    end
  else if bool_decide (ob_step onboarding = 2%Z) then
    let interests := optional_list text in
    let* data :=
      if (0 <? length interests)%nat then
        let* _ := lift (validate_profile
                          (mkProfileData None None (Some interests) None None None)) in
        ret (with_interests data interests)
      else ret data in
    let* _ := onboardingState_set id (mkOnboarding 3 data) in
    reply (MsgOnboardingStep 3) NoMarkup
  else if bool_decide (ob_step onboarding = 3%Z) then
    let offerings := optional_list text in
    let* data :=
      if (0 <? length offerings)%nat then
        let* _ := lift (validate_profile
                          (mkProfileData None None None (Some offerings) None None)) in
        ret (with_offerings data offerings)
      else ret data in
    let* _ := onboardingState_set id (mkOnboarding 4 data) in
    reply (MsgOnboardingStep 4) NoMarkup
  else if bool_decide (ob_step onboarding = 4%Z) then
    let lookingFor := optional_list text in
    let* data :=
      if (0 <? length lookingFor)%nat then
        let* _ := lift (validate_profile
                          (mkProfileData None None None None (Some lookingFor) None)) in
        ret (with_lookingFor data lookingFor)
      else ret data in
    let* _ := onboardingState_set id (mkOnboarding 5 data) in
    reply (MsgOnboardingStep 5) NoMarkup
  else if bool_decide (ob_step onboarding = 5%Z) then
    let code := JsString.trim text in
    if negb (JsString.truthy code) then reply MsgEnterConferenceCode NoMarkup
    else
      let* joined := on_world (joinConference from code) in
      let conference := fst joined in
      let* _ := on_world (upsertProfileForConference
                            (pretty (from_id from))
                            (Some (Conference._id conference)) data) in
      let* _ := clearUserState id in
      reply (MsgProfileCompleted (Conference.title conference)) (MainMenu from)
  else
    let* _ := clearUserState id in
    reply MsgOnboardingReset NoMarkup.

Definition onboarding_error (err : Error) : Msg :=
  if JsString.truthy (message err) && JsString.startsWith (message err) "VALIDATION_ERROR:"
  then MsgValidationError (remove_first "VALIDATION_ERROR: " (message err))
  else if bool_decide (message err = "CONFERENCE_NOT_FOUND") then MsgConferenceNotFoundRetry
  else if JsString.truthy (message err) && JsString.includes (message err) "Invalid type"
  then MsgInvalidFormat
  else MsgError.

Definition onboarding_flow (from : From) (text : string) (onboarding : Onboarding)
    : M (State W) unit :=
  try_catch (onboarding_try from text onboarding)
    (fun err =>
       let* _ := console_error "Error in onboarding flow" err in
       reply (onboarding_error err) NoMarkup).

(** *** [bot.on('text')]: the flows kept in [userState] (1750-2078) *)

Definition is_step (state : FlowState) (f st : string) : bool :=
  bool_decide (flow state = f) && bool_decide (step state = Some st).

Definition join_conference_flow (from : From) (text : string) : M (State W) unit :=
  try_catch
    (let* joined := on_world (joinConference from text) in
     let conference := fst joined in
     let* _ := clearUserState (from_id from) in
     reply (MsgJoined (Conference.title conference) (Conference.conferenceCode conference))
           (MainMenu from))
    (fun err =>
       let* _ := console_error "Error in join_conference flow" err in
       reply (if bool_decide (message err = "CONFERENCE_NOT_FOUND")
              then MsgJoinNotFound else MsgJoinFailed) NoMarkup).

Definition known_roles : list string := ["speaker"; "investor"; "participant"; "organizer"].

Definition find_participants_flow (from : From) (text : string) (state : FlowState)
    : M (State W) unit :=
  try_catch
    (let '(role, searchText) :=
       match words text with
       | [] => (None, None)
       | first :: rest =>
           let firstPart := JsString.toLowerCase first in
           if bool_decide (firstPart ∈ known_roles)
           then (Some firstPart, Some (JsString.join " " rest))
           else (None, Some text)
       end in
     let* found := on_world (searchProfiles (conferenceCode state) role searchText (Some 20)) in
     let profiles := snd found in
     let* _ := clearUserState (from_id from) in
     if (length profiles =? 0)%nat then reply MsgNoParticipants (MainMenu from)
     else reply (MsgFound profiles) (MainMenu from))
    (fun err =>
       let* _ := console_error "Error in find_participants flow" err in
       reply MsgSearchError (MainMenu from)).

(** [v || null], and the test [v ? ... : ...], on an optional string. *)
Definition or_null (o : option string) : option string :=
  match o with
  | Some v => if JsString.truthy v then Some v else None
  | None => None
  end.

Definition ask_question_flow (from : From) (text : string) (state : FlowState)
    : M (State W) unit :=
  try_catch
    (let* conference := on_world (askQuestion from (conferenceCode state) text
                                              (or_null (targetSpeaker state))) in
     let* _ := clearUserState (from_id from) in
     reply (MsgQuestionSent (bool_decide (is_Some (or_null (targetSpeaker state))))
                            (Conference.title conference))
           (MainMenu from))
    (fun err =>
       let* _ := console_error "Error in ask_question flow" err in
       reply (if JsString.truthy (message err) &&
                 JsString.startsWith (message err) "VALIDATION_ERROR:"
              then MsgQuestionInvalid (remove_first "VALIDATION_ERROR: " (message err))
              else MsgQuestionFailed) NoMarkup).

Definition answer_question_flow (from : From) (text : string) (state : FlowState)
    : M (State W) unit :=
  try_catch
    (let* user := ensureUser from in
     let* question := on_world (answerQuestion user (conferenceCode state)
                                               (questionId state) text) in
     let* _ := clearUserState (from_id from) in
     reply (MsgAnswerSaved (q_text question) (q_answer question)) (MainMenu from))
    (fun err =>
       let* _ := console_error "Error in answer_question flow" err in
       reply (if bool_decide (message err = "NOT_SPEAKER") then MsgNotSpeaker
              else if bool_decide (message err = "QUESTION_NOT_FOR_YOU")
              then MsgQuestionNotForYou else MsgAnswerFailed) NoMarkup).

(** [{ ...state, title, step: 'enter_description' }] *)
Definition with_title (state : FlowState) (t : option string) : FlowState :=
  mkFlowState (flow state) (Some "enter_description") (conferenceCode state)
              (question state) t (pollId state) (questionId state) (targetSpeaker state).

(** [{ ...state, question: text, step: 'enter_options' }] *)
Definition with_question (state : FlowState) (q : string) : FlowState :=
  mkFlowState (flow state) (Some "enter_options") (conferenceCode state)
              (Some q) (title state) (pollId state) (questionId state) (targetSpeaker state).

(** [text.trim() !== '-' ? text.trim() : null] *)
Definition unless_dash (text : string) : option string :=
  if negb (bool_decide (JsString.trim text = "-")) then Some (JsString.trim text) else None.

Definition edit_conference_title_flow (from : From) (text : string) (state : FlowState)
    : M (State W) unit :=
  try_catch
    (let title := unless_dash text in
     let* _ := userState_set (from_id from) (with_title state title) in
     reply MsgEnterDescription
           (InlineButton "◀️ Отмена" ("admin:conf:" +:+ interpolate (conferenceCode state))))
    (fun err =>
       let* _ := console_error "Error in edit_conference flow" err in
       reply MsgGenericErrorCancelHint NoMarkup).

Definition edit_conference_description_flow (from : From) (text : string)
    (state : FlowState) : M (State W) unit :=
  try_catch
    (let* user := ensureUser from in
     let payload_title := or_null (title state) in
     let payload_description := unless_dash text in
     let* conference := on_world (updateConference (conferenceCode state) user
                                                   payload_title payload_description) in
     let* _ := clearUserState (from_id from) in
     reply (MsgConferenceUpdated (Conference.title conference)) (MainMenu from))
    (fun err =>
       let* _ := console_error "Error in edit_conference flow" err in
       reply MsgConferenceUpdateFailed NoMarkup).

Definition create_poll_question_flow (from : From) (text : string) (state : FlowState)
    : M (State W) unit :=
  try_catch
    (let* _ := userState_set (from_id from) (with_question state text) in
     let cancelCallback :=
       if bool_decide (is_Some (or_null (conferenceCode state)))
       then "admin:polls:" +:+ interpolate (conferenceCode state)
       else "speaker:polls:conf:" +:+ interpolate (conferenceCode state) in
     reply MsgEnterOptions (InlineButton "◀️ Отмена" cancelCallback))
    (fun err =>
       let* _ := console_error "Error in create_poll flow" err in
       reply MsgGenericErrorCancelHint NoMarkup).

Definition create_poll_options_flow (from : From) (text : string) (state : FlowState)
    : M (State W) unit :=
  try_catch
    (let* user := ensureUser from in
     let options := comma_list text in
     if (length options <? 2)%nat then reply MsgNeedTwoOptions NoMarkup
     else
       let* poll := on_world (createPoll user (conferenceCode state) (question state)
                                         options) in
       let* _ := clearUserState (from_id from) in
       reply (MsgPollCreated (Poll.question poll) options) (MainMenu from))
    (fun err =>
       let* _ := console_error "Error in create_poll flow" err in
       reply MsgPollCreateFailed NoMarkup).

(** The body of the [try] of the edit-poll step. [joinState] is declared
    nowhere in [bot.js]: evaluating [joinState.pollId] raises a
    [ReferenceError]. *)
Definition edit_poll_try (from : From) (text : string) (state : FlowState)
    : M (State W) unit :=
  let* user := ensureUser from in
  let payload_question := unless_dash text in
  let* joinState := (throw (ReferenceError "joinState") : M (State W) FlowState) in
  let* s := get in
  match Poll_findById (pollId joinState) (world s) with
  | None => reply MsgPollNotFound NoMarkup
  | Some poll =>
      let conference := Conference_findById (Poll.conference poll) (world s) in
      let* _ := on_world (updatePoll user (pollId joinState) payload_question) in
      let* _ := clearUserState (from_id from) in
      reply MsgPollUpdated (MainMenu from)
  end.

Definition edit_poll_flow (from : From) (text : string) (state : FlowState)
    : M (State W) unit :=
  try_catch (edit_poll_try from text state)
    (fun err =>
       let* _ := console_error "Error in edit_poll flow" err in
       reply MsgPollUpdateFailed NoMarkup).

Definition assign_admin_error (err : Error) : string :=
  if bool_decide (message err = "TARGET_USER_NOT_FOUND") then "TARGET_USER_NOT_FOUND"
  else if bool_decide (message err = "CONFERENCE_NOT_FOUND") then "CONFERENCE_NOT_FOUND"
  else if bool_decide (message err = "ACCESS_DENIED") then "ACCESS_DENIED"
  else "".

Definition assign_admin_flow (from : From) (text : string) (state : FlowState)
    : M (State W) unit :=
  try_catch
    (let* user := ensureUser from in
     if negb (userIsMainAdmin user) then
       let* _ := reply MsgAccessDenied NoMarkup in
       clearUserState (from_id from)
     else
       let telegramId := JsString.trim text in
       if negb (JsString.test_digits telegramId) then reply MsgBadTelegramId NoMarkup
       else
         let* _ := on_world (assignConferenceAdmin user (conferenceCode state) telegramId) in
         let* _ := clearUserState (from_id from) in
         reply (MsgAdminAssigned telegramId)
               (InlineButton "◀️ Назад" ("admin:manage_admins:conf:" +:+
                                     interpolate (conferenceCode state))))
    (fun err =>
       let* _ := console_error "Error in assign_admin flow" err in
       reply (MsgAssignFailed (assign_admin_error err)) NoMarkup).

Definition set_slide_flow (from : From) (text : string) (state : FlowState)
    : M (State W) unit :=
  try_catch
    (let* user := ensureUser from in
     let parts := words text in
     let url := head parts in
     let title := JsString.join " " (tail parts) in
     let* _ := on_world (setSlide user (conferenceCode state) url (Some title)) in
     let* _ := clearUserState (from_id from) in
     reply MsgSlideUpdated
           (InlineButton "◀️ Назад" ("admin:slides:" +:+ interpolate (conferenceCode state))))
    (fun err =>
       let* _ := console_error "Error in set_slide flow" err in
       reply MsgSlideFailed NoMarkup).

Definition create_conference_flow (from : From) (text : string) : M (State W) unit :=
  try_catch
    (let* user := ensureUser from in
     let* conference := on_world (createConference user text "") in
     let* _ := clearUserState (from_id from) in
     reply (MsgConferenceCreated (Conference.title conference)
                                 (Conference.conferenceCode conference))
           (MainMenu from))
    (fun err =>
       let* _ := console_error "Error in create_conference flow" err in
       reply MsgConferenceCreateFailed NoMarkup).

(** The branches on [state], in the order of the source (1750-2086). *)
Definition state_flow (from : From) (text : string) (state : FlowState)
    : M (State W) unit :=
  if bool_decide (flow state = "join_conference") then join_conference_flow from text
  else if is_step state "find_participants" "enter_query"
  then find_participants_flow from text state
  else if is_step state "ask_question" "enter_question"
  then ask_question_flow from text state
  else if is_step state "answer_question" "enter_answer"
  then answer_question_flow from text state
  else if is_step state "edit_conference" "enter_title"
  then edit_conference_title_flow from text state
  else if is_step state "edit_conference" "enter_description"
  then edit_conference_description_flow from text state
  else if is_step state "create_poll" "enter_question"
  then create_poll_question_flow from text state
  else if is_step state "create_poll" "enter_options"
  then create_poll_options_flow from text state
  else if is_step state "edit_poll" "enter_question"
  then edit_poll_flow from text state
  else if is_step state "assign_admin" "enter_telegram_id"
  then assign_admin_flow from text state
  else if is_step state "set_slide" "enter_url"
  then set_slide_flow from text state
  else if is_step state "create_conference" "enter_title"
  then create_conference_flow from text
  else
    let* _ := reply MsgUnhandled (MainMenu from) in
    clearUserState (from_id from).

(** [bot.on('text', ...)] (1568-2087); [message_text] is [ctx.message.text]. *)
Definition on_text (from : From) (message_text : string) : M (State W) unit :=
  if JsString.startsWith message_text "/" then ret tt
  else
    let text := JsString.trim message_text in
    if is_cancel text then
      let* _ := clearUserState (from_id from) in
      reply MsgCancelled (MainMenu from)
    else
      let* s := get in
      let state := userState s !! from_id from in
      let onboarding := onboardingState s !! from_id from in
      match state, onboarding with
      | None, None => reply MsgChooseFromMenu (MainMenu from)
      | None, Some onboarding => onboarding_flow from text onboarding
      | Some state, _ => state_flow from text state
      end.

(** *** The handlers that start a flow

    Every [bot.action] and [bot.hears] handler of [bot.js] that writes
    [userState] or [onboardingState]. The second registrations of
    [admin:conf] and [ask:conf] never run: the first one answers and does
    not pass the update on. *)

Definition cancel_button : Markup := InlineButton "◀️ Отмена" "menu:main".

(** [bot.action('menu:join_conference')] (175) *)
Definition action_menu_join_conference (from : From) : M (State W) unit :=
  let* _ := send AnswerCbQuery in
  let* _ := clearUserState (from_id from) in
  let* _ := userState_set (from_id from) (flow_state "join_conference" None None) in
  editMessageText (MsgFlowPrompt "join_conference") cancel_button.

(** [bot.action('menu:onboarding')] (185) *)
Definition action_menu_onboarding (from : From) : M (State W) unit :=
  let* _ := send AnswerCbQuery in
  let* _ := clearUserState (from_id from) in
  let* _ := onboardingState_set (from_id from) (mkOnboarding 1 empty_data) in
  editMessageText (MsgFlowPrompt "onboarding") cancel_button.

(** [bot.action('menu:find_participants')] (195) *)
Definition action_menu_find_participants (from : From) : M (State W) unit :=
  let* _ := send AnswerCbQuery in
  let* _ := clearUserState (from_id from) in
  let* user := ensureUser from in
  let* conferences := listConferences user in
  if (length conferences =? 0)%nat then editMessageText MsgJoinFirst UserMenu
  else
    let* _ := userState_set (from_id from)
                (flow_state "find_participants" (Some "select_conference") None) in
    editMessageText (MsgFlowPrompt "find_participants")
                    (ConferenceSelectionMenu conferences "find:conf").

(** The continuation of a flow by the choice of a conference:
    [bot.action(/^find:conf:(.+)$/)] (215) and the first
    [bot.action(/^ask:conf:(.+)$/)] (253). *)
Definition continue_with_conference (f st back : string) (from : From) (code : string)
    : M (State W) unit :=
  let* _ := send AnswerCbQuery in
  let* s := get in
  let currentState := userState s !! from_id from in
  let* _ :=
    match currentState with
    | Some cur =>
        if bool_decide (flow cur = f)
        then userState_set (from_id from) (flow_state f (Some st) (Some code))
        else
          let* _ := clearUserState (from_id from) in
          userState_set (from_id from) (flow_state f (Some st) (Some code))
    | None =>
        let* _ := clearUserState (from_id from) in
        userState_set (from_id from) (flow_state f (Some st) (Some code))
    end in
  reply (MsgFlowPrompt f) (InlineButton "◀️ Назад" back).

Definition action_find_conf : From -> string -> M (State W) unit :=
  continue_with_conference "find_participants" "enter_query" "menu:find_participants".

Definition action_ask_conf : From -> string -> M (State W) unit :=
  continue_with_conference "ask_question" "enter_question" "menu:ask_question".

(** [bot.action('menu:ask_question')] (233) *)
Definition action_menu_ask_question (from : From) : M (State W) unit :=
  let* _ := send AnswerCbQuery in
  let* _ := clearUserState (from_id from) in
  let* user := ensureUser from in
  let* conferences := listConferences user in
  if (length conferences =? 0)%nat then editMessageText MsgJoinFirst UserMenu
  else
    let* _ := userState_set (from_id from)
                (flow_state "ask_question" (Some "select_conference") None) in
    editMessageText (MsgFlowPrompt "ask_question")
                    (ConferenceSelectionMenu conferences "ask:conf").

(** [bot.action('menu:polls')] (271) *)
Definition action_menu_polls (from : From) : M (State W) unit :=
  let* _ := send AnswerCbQuery in
  let* _ := clearUserState (from_id from) in
  let* user := ensureUser from in
  let* conferences := listConferences user in
  if (length conferences =? 0)%nat then editMessageText MsgJoinFirst UserMenu
  else
    let* _ := userState_set (from_id from)
                (flow_state "polls" (Some "select_conference") None) in
    editMessageText (MsgFlowPrompt "polls")
                    (ConferenceSelectionMenu conferences "polls:conf").

(** [bot.action(/^admin:create_poll:(.+)$/)] (530) and
    [bot.action(/^speaker:create_poll:(.+)$/)] (1513), which differ in the
    target of the cancel button. *)
Definition action_create_poll (back : string) (from : From) (code : string)
    : M (State W) unit :=
  let* _ := send AnswerCbQuery in
  let* _ := clearUserState (from_id from) in
  let* _ := userState_set (from_id from)
              (flow_state "create_poll" (Some "enter_question") (Some code)) in
  reply (MsgFlowPrompt "create_poll") (InlineButton "◀️ Отмена" (back +:+ code)).

Definition action_admin_create_poll := action_create_poll "admin:polls:".
Definition action_speaker_create_poll := action_create_poll "speaker:polls:conf:".

(** [bot.action(/^poll:edit:(.+)$/)] (542) *)
Definition action_poll_edit (from : From) (pollId : string) : M (State W) unit :=
  let* _ := send AnswerCbQuery in
  let* _ := clearUserState (from_id from) in
  let* _ := userState_set (from_id from)
              (mkFlowState "edit_poll" (Some "enter_question") None None None
                           (Some pollId) None None) in
  reply (MsgFlowPrompt "edit_poll") (InlineButton "◀️ Отмена" "menu:conference_admin").

(** [bot.action('menu:admin_moderate_questions')] (627) *)
Definition action_menu_admin_moderate_questions (from : From) : M (State W) unit :=
  let* _ := send AnswerCbQuery in
  let* _ := clearUserState (from_id from) in
  let* user := ensureUser from in
  let* conferences := listConferences user in
  if (length conferences =? 0)%nat then editMessageText MsgNoConferences ConferenceAdminMenu
  else
    let* _ := userState_set (from_id from)
                (flow_state "moderate_questions" (Some "select_conference") None) in
    editMessageText (MsgFlowPrompt "moderate_questions")
                    (ConferenceSelectionMenu conferences "moderate:conf").

(** [bot.action(/^admin:set_slide:(.+)$/)] (778) *)
Definition action_admin_set_slide (from : From) (code : string) : M (State W) unit :=
  let* _ := send AnswerCbQuery in
  let* _ := clearUserState (from_id from) in
  let* _ := userState_set (from_id from)
              (flow_state "set_slide" (Some "enter_url") (Some code)) in
  reply (MsgFlowPrompt "set_slide") (InlineButton "◀️ Отмена" ("admin:slides:" +:+ code)).

(** [bot.action('menu:admin_create_conference')] (846) *)
Definition action_menu_admin_create_conference (from : From) : M (State W) unit :=
  let* _ := send AnswerCbQuery in
  let* _ := clearUserState (from_id from) in
  let* _ := userState_set (from_id from)
              (flow_state "create_conference" (Some "enter_title") None) in
  reply (MsgFlowPrompt "create_conference") (InlineButton "◀️ Отмена" "menu:main_admin").

(** [bot.action(/^admin:assign_admin:(.+)$/)] (941) *)
Definition action_admin_assign_admin (from : From) (code : string) : M (State W) unit :=
  let* _ := send AnswerCbQuery in
  let* _ := clearUserState (from_id from) in
  let* _ := userState_set (from_id from)
              (flow_state "assign_admin" (Some "enter_telegram_id") (Some code)) in
  reply (MsgFlowPrompt "assign_admin")
        (InlineButton "◀️ Отмена" ("admin:manage_admins:conf:" +:+ code)).

(** [bot.action(/^admin:edit_conf:(.+)$/)] (1151) *)
Definition action_admin_edit_conf (from : From) (code : string) : M (State W) unit :=
  let* _ := send AnswerCbQuery in
  let* _ := clearUserState (from_id from) in
  let* _ := userState_set (from_id from)
              (flow_state "edit_conference" (Some "enter_title") (Some code)) in
  reply (MsgFlowPrompt "edit_conference") (InlineButton "◀️ Отмена" ("admin:conf:" +:+ code)).

(** [bot.action('menu:admin_participants')] (1248) *)
Definition action_menu_admin_participants (from : From) : M (State W) unit :=
  let* _ := send AnswerCbQuery in
  let* user := ensureUser from in
  let* conferences := listConferences user in
  if (length conferences =? 0)%nat then editMessageText MsgNoConferences ConferenceAdminMenu
  else
    let* _ := userState_set (from_id from)
                (flow_state "manage_participants" (Some "select_conference") None) in
    editMessageText (MsgFlowPrompt "manage_participants")
                    (ConferenceSelectionMenu conferences "participants:conf").

(** [bot.action('menu:speaker_questions')] (1392) *)
Definition action_menu_speaker_questions (from : From) : M (State W) unit :=
  let* _ := send AnswerCbQuery in
  let* _ := clearUserState (from_id from) in
  let* user := ensureUser from in
  let* conferences := listConferences user in
  if (length conferences =? 0)%nat then editMessageText MsgNoConferences SpeakerMenu
  else
    let* _ := userState_set (from_id from)
                (flow_state "speaker_questions" (Some "select_conference") None) in
    editMessageText (MsgFlowPrompt "speaker_questions")
                    (ConferenceSelectionMenu conferences "speaker:questions:conf").

(** [bot.action(/^speaker:answer:(.+):(.+)$/)] (1436) *)
Definition action_speaker_answer (from : From) (code questionId : string)
    : M (State W) unit :=
  let* _ := send AnswerCbQuery in
  let* _ := clearUserState (from_id from) in
  let* _ := userState_set (from_id from)
              (mkFlowState "answer_question" (Some "enter_answer") (Some code) None None
                           None (Some questionId) None) in
  reply (MsgFlowPrompt "answer_question")
        (InlineButton "◀️ Отмена" ("speaker:questions:conf:" +:+ code)).

(** [bot.action('menu:speaker_polls')] (1450) *)
Definition action_menu_speaker_polls (from : From) : M (State W) unit :=
  let* _ := send AnswerCbQuery in
  let* _ := clearUserState (from_id from) in
  let* user := ensureUser from in
  let* conferences := listConferences user in
  if (length conferences =? 0)%nat then editMessageText MsgNoConferences SpeakerMenu
  else
    let* _ := userState_set (from_id from)
                (flow_state "speaker_polls" (Some "select_conference") None) in
    editMessageText (MsgFlowPrompt "speaker_polls")
                    (ConferenceSelectionMenu conferences "speaker:polls:conf").

(** [bot.action(/^ask:speaker:(.+):(.+)$/)] (1554) *)
Definition action_ask_speaker (from : From) (code targetId : string) : M (State W) unit :=
  let* _ := send AnswerCbQuery in
  let* _ := clearUserState (from_id from) in
  let targetSpeaker := if bool_decide (targetId = "all") then None else Some targetId in
  let* _ := userState_set (from_id from)
              (mkFlowState "ask_question" (Some "enter_question") (Some code) None None
                           None None targetSpeaker) in
  editMessageText (MsgFlowPrompt "ask_question") (InlineButton "◀️ Назад" "menu:ask_question").

(** [bot.hears('📋 Мои конференции')] (1060) *)
Definition hears_my_conferences (from : From) : M (State W) unit :=
  try_catch
    (let* user := ensureUser from in
     let* conferences := listConferences user in
     if (length conferences =? 0)%nat then reply MsgNoAvailableConferences ReplyKeyboard
     else
       reply (MsgMyConferences
                (List.filter (fun c => JsString.truthy (Conference.conferenceCode c))
                             conferences))
             ReplyKeyboard)
    (fun err =>
       let* _ := console_error "Error in reply keyboard: Мои конференции" err in
       reply MsgError ReplyKeyboard).

(** [bot.hears('➕ Присоединиться')] (1086) *)
Definition hears_join (from : From) : M (State W) unit :=
  let* _ := clearUserState (from_id from) in
  let* _ := userState_set (from_id from) (flow_state "join_conference" None None) in
  reply (MsgFlowPrompt "join_conference") cancel_button.

(** [bot.hears('👤 Профиль')] (1095) *)
Definition hears_profile (from : From) : M (State W) unit :=
  let* _ := clearUserState (from_id from) in
  let* _ := onboardingState_set (from_id from) (mkOnboarding 1 empty_data) in
  reply (MsgFlowPrompt "onboarding") cancel_button.

(** [bot.hears('🔍 Найти участников')] (1104) *)
Definition hears_find_participants (from : From) : M (State W) unit :=
  let* user := ensureUser from in
  let* conferences := listConferences user in
  if (length conferences =? 0)%nat then reply MsgJoinFirst ReplyKeyboard
  else
    let* _ := userState_set (from_id from)
                (flow_state "find_participants" (Some "select_conference") None) in
    reply (MsgFlowPrompt "find_participants")
          (ConferenceSelectionMenu conferences "find:conf").

(** [bot.hears('❓ Задать вопрос')] (1119) *)
Definition hears_ask_question (from : From) : M (State W) unit :=
  let* user := ensureUser from in
  let* conferences := listConferences user in
  if (length conferences =? 0)%nat then reply MsgJoinFirst ReplyKeyboard
  else
    let* _ := userState_set (from_id from)
                (flow_state "ask_question" (Some "select_conference") None) in
    reply (MsgFlowPrompt "ask_question")
          (ConferenceSelectionMenu conferences "ask:conf").

(** [bot.hears('📊 Опросы')] (1134) *)
Definition hears_polls (from : From) : M (State W) unit :=
  let* user := ensureUser from in
  let* conferences := listConferences user in
  if (length conferences =? 0)%nat then reply MsgJoinFirst ReplyKeyboard
  else
    let* _ := userState_set (from_id from)
                (flow_state "polls" (Some "select_conference") None) in
    reply (MsgFlowPrompt "polls")
          (ConferenceSelectionMenu conferences "polls:conf").

(** *** A text message on its way through the handlers

    The six labels of the reply keyboard. A [bot.hears] handler takes the
    message whose text is its label, letter for letter, and does not pass
    it on; the six are registered (1060-1147) before [bot.on('text')]
    (1568), which gets every other text. The commands [/start] and
    [/cancel], which begin with a slash, have handlers of their own (89,
    115) and are not followed here. *)
Definition keyboard_labels : list string :=
  ["📋 Мои конференции"; "➕ Присоединиться"; "👤 Профиль";
   "🔍 Найти участников"; "❓ Задать вопрос"; "📊 Опросы"].

Definition is_label (message_text : string) : bool :=
  bool_decide (message_text ∈ keyboard_labels).

Definition on_message (from : From) (message_text : string) : M (State W) unit :=
  if bool_decide (message_text = "📋 Мои конференции") then hears_my_conferences from
  else if bool_decide (message_text = "➕ Присоединиться") then hears_join from
  else if bool_decide (message_text = "👤 Профиль") then hears_profile from
  else if bool_decide (message_text = "🔍 Найти участников") then hears_find_participants from
  else if bool_decide (message_text = "❓ Задать вопрос") then hears_ask_question from
  else if bool_decide (message_text = "📊 Опросы") then hears_polls from
  else on_text from message_text.

(** *** [bot.action(/^vote:poll:(.+):(.+)$/)] (340-363) *)

Definition action_vote_poll (from : From) (pollId optionId : string) : M (State W) unit :=
  let* _ := send AnswerCbQuery in
  try_catch
    (let* poll := on_world (voteInPoll from pollId (ParseInt.parseInt optionId)) in
     let selectedOption :=
       List.find (fun opt => bool_decide (Some (Poll.id opt) = ParseInt.parseInt optionId))
                 (Poll.options poll) in
     editMessageText
       (MsgVoteCounted (Poll.question poll) (Poll.text <$> selectedOption)
                       ((fun o => size (Poll.voters o)) <$> selectedOption))
       UserMenu)
    (fun err =>
       let* _ := console_error "Error in vote:poll" err in
       editMessageText
         (if bool_decide (message err = "ALREADY_VOTED") ||
             bool_decide (message err = "VOTE_FAILED")
          then MsgAlreadyVoted else MsgVoteFailed)
         UserMenu).

End Handlers.
End Bot.

(** ** Sample data for the examples *)

Module Sample.

Definition lower_ascii (c : ascii) : ascii :=
  let n := nat_of_ascii c in
  if ((65 <=? n) && (n <=? 90))%nat then ascii_of_nat (n + 32) else c.

(** A lowering that knows the Latin letters A-Z and the Cyrillic block
    U+0400..U+042F (two UTF-8 bytes, lead byte 0xD0) and keeps every other
    character: the part of [toLowerCase] the examples need. *)
Fixpoint toLowerCase (s : string) : string :=
  match s with
  | EmptyString => EmptyString
  | String c s' =>
      match s' with
      | String d s'' =>
          let n := nat_of_ascii c in
          let m := nat_of_ascii d in
          if ((n =? 208) && (128 <=? m) && (m <=? 143))%nat then
            String (ascii_of_nat 209) (String (ascii_of_nat (m + 16)) (toLowerCase s''))
          else if ((n =? 208) && (144 <=? m) && (m <=? 159))%nat then
            String c (String (ascii_of_nat (m + 32)) (toLowerCase s''))
          else if ((n =? 208) && (160 <=? m) && (m <=? 175))%nat then
            String (ascii_of_nat 209) (String (ascii_of_nat (m - 32)) (toLowerCase s''))
          else if (192 <=? n)%nat then
            String c (String d (toLowerCase s''))
          else String (lower_ascii c) (toLowerCase s')
      | EmptyString => String (lower_ascii c) EmptyString
      end
  end.

Definition engine : JsString.Engine := {| JsString.toLowerCase := toLowerCase |}.
#[local] Existing Instance engine.

(** A main admin is an account whose global role says so. *)
Definition userIsMainAdmin (u : User.t) : bool :=
  match User.globalRole u with
  | main_admin => true
  | _ => false
  end.

(** A validator that accepts what Joi accepts on the sample inputs: an
    http(s) address and a non-empty conference code. *)
Definition validate_slide (i : SlideInput) : Result SlideData :=
  match si_url i with
  | Some u =>
      if (JsString.startsWith u "http://" || JsString.startsWith u "https://") &&
         JsString.truthy (JsString.trim (si_conferenceCode i))
      then Ok (mkSlideData u (JsString.trim (si_title i))
                           (JsString.trim (si_conferenceCode i)))
      else Throw (Err "VALIDATION_ERROR: invalid slide")
  | None => Throw (Err "VALIDATION_ERROR: url is required")
  end.

Definition validate_profile (d : ProfileData) : Result ProfileData := Ok d.

Definition devcon : Conference.t :=
  Conference.mk 1%N "DevCon" None "abc123" public None None true false [11%N] None None.

Definition profile (id : ObjectId) (telegramId : string) (interests : list string)
    : UserProfile.t :=
  UserProfile.mk id telegramId 1%N true true (Some "Ann") None (Some interests)
                 (Some []) (Some []) (Some ["participant"]).

Definition alice : User.t := User.mk "100" None (Some "Alice") None user.
Definition bob : User.t := User.mk "200" None (Some "Bob") None user.
Definition root : User.t := User.mk "1" None (Some "Root") None main_admin.

(** Alice's profile 11 administers DevCon; Bob's profile 12 does not. *)
Definition world (io : option (list Emission)) : World :=
  mkWorld [devcon]
          [profile 11%N "100" ["AI"]; profile 12%N "200" ["Web3"];
           profile 13%N "300" ["ai safety"]]
          io.

Definition lunch : Poll.t :=
  Poll.mk "p1" 1%N "Lunch or dinner?"
          [Poll.mkOption 0 "Lunch" ∅; Poll.mkOption 1 "Dinner" ∅] true.

Definition polls : gmap string Poll.t := {[ "p1" := lunch ]}.

Definition x : From := mkFrom 42 None (Some "X").

(** Stand-ins for two services of [conference.service.js], over a world
    that is just the list of conferences: every sender is Alice, and she
    sees every conference. *)
Definition ensureUserFromTelegram (from : From) (w : list Conference.t)
    : User.t * list Conference.t := (alice, w).

Definition listConferencesForUser (u : User.t) (w : list Conference.t)
    : list Conference.t := w.

(** The text handler over that world, with services that know no
    conference, no question and no poll. *)
Definition on_text : From -> string -> M (Bot.State (list Conference.t)) unit :=
  Bot.on_text validate_profile ensureUserFromTelegram userIsMainAdmin
    (fun _ _ => throw (Err "CONFERENCE_NOT_FOUND"))
    (fun _ _ _ => throw (Err "MISSING_KEYS"))
    (fun _ _ _ _ => throw (Err "CONFERENCE_NOT_FOUND"))
    (fun _ _ _ _ => throw (Err "CONFERENCE_NOT_FOUND"))
    (fun _ _ _ _ => throw (Err "NOT_SPEAKER"))
    (fun _ _ _ _ => throw (Err "CONFERENCE_NOT_FOUND"))
    (fun _ _ _ _ => throw (Err "CONFERENCE_NOT_FOUND"))
    (fun _ _ => None)
    (fun _ _ => None)
    (fun _ _ _ => throw (Err "POLL_NOT_FOUND"))
    (fun _ _ _ => throw (Err "ACCESS_DENIED"))
    (fun _ _ _ _ => throw (Err "CONFERENCE_NOT_FOUND"))
    (fun _ _ _ => throw (Err "ACCESS_DENIED")).

(** A text message over that world: the reply keyboard first, then the
    text handler. *)
Definition on_message : From -> string -> M (Bot.State (list Conference.t)) unit :=
  Bot.on_message validate_profile ensureUserFromTelegram userIsMainAdmin
    listConferencesForUser
    (fun _ _ => throw (Err "CONFERENCE_NOT_FOUND"))
    (fun _ _ _ => throw (Err "MISSING_KEYS"))
    (fun _ _ _ _ => throw (Err "CONFERENCE_NOT_FOUND"))
    (fun _ _ _ _ => throw (Err "CONFERENCE_NOT_FOUND"))
    (fun _ _ _ _ => throw (Err "NOT_SPEAKER"))
    (fun _ _ _ _ => throw (Err "CONFERENCE_NOT_FOUND"))
    (fun _ _ _ _ => throw (Err "CONFERENCE_NOT_FOUND"))
    (fun _ _ => None)
    (fun _ _ => None)
    (fun _ _ _ => throw (Err "POLL_NOT_FOUND"))
    (fun _ _ _ => throw (Err "ACCESS_DENIED"))
    (fun _ _ _ _ => throw (Err "CONFERENCE_NOT_FOUND"))
    (fun _ _ _ => throw (Err "ACCESS_DENIED")).

(** X in the middle of the poll editor and, underneath, of onboarding. *)
Definition editing : Bot.State (list Conference.t) :=
  Bot.mkState [devcon]
    {[ 42%Z := mkFlowState "edit_poll" (Some "enter_question") None None None
                           (Some "p1") None None ]}
    {[ 42%Z := mkOnboarding 3 empty_data ]} [] [].

Definition idle : Bot.State (list Conference.t) := Bot.mkState [devcon] ∅ ∅ [] [].

End Sample.

(** ** The statements of the specification, in its own words *)

(** Section 4.1: the acting user is a main admin, or some profile of that
    user for the conference has its id in the conference's admins. *)
Definition may_moderate (userIsMainAdmin : User.t -> bool) (user : User.t)
    (conference : Conference.t) (w : World) : bool :=
  userIsMainAdmin user ||
  existsb (fun p =>
             bool_decide (UserProfile.telegramId p = User.telegramId user) &&
             bool_decide (UserProfile.conference p = Conference._id conference) &&
             bool_decide (UserProfile._id p ∈ Conference.admins conference))
          (profiles w).

(** The messages a step handed to the socket server: those the server holds
    afterwards beyond the ones it held before. Without a server there is
    nothing to hold them. *)
Definition published (w w' : World) : list Emission :=
  match ioInstance w, ioInstance w' with
  | Some before, Some after => drop (length before) after
  | None, Some after => after
  | _, None => []
  end.

(** Section 6: [slide-updated {url: string|null, title: string|null}] on the
    channel of the conference. *)
Definition slide_updated (id : ObjectId) (url title : JsVal) : Emission :=
  mkEmission ("conference-" +:+ ObjectId_toString id) "slide-updated"
             [("url", url); ("title", title)].

Definition has_slide_shape (e : Emission) : bool :=
  match payload e with
  | [(k1, v1); (k2, v2)] =>
      bool_decide (k1 = "url") && bool_decide (k2 = "title") &&
      is_string_or_null v1 && is_string_or_null v2
  | _ => false
  end.

(** The world after the socket server, if there is one, took [e]. *)
Definition broadcast (e : Emission) (w : World) : World :=
  match ioInstance w with
  | Some sent => set_ioInstance (Some (sent ++ [e])) w
  | None => w
  end.

(** The world after the document in [slot] was replaced by [c]. *)
Definition persisted (slot : nat) (c : Conference.t) (w : World) : World :=
  set_conferences (<[slot := c]> (conferences w)) w.

Definition by_code (code : string) (c : Conference.t) : bool :=
  bool_decide (Conference.conferenceCode c = code).

(** C5 as the specification words it: every successful [setSlide]
    publishes exactly one [slide-updated] event. *)
Definition slide_event_on_every_success : Prop :=
  forall (userIsMainAdmin : User.t -> bool) (validate_slide : SlideInput -> Result SlideData)
         user code url title w c w',
    SlideService.setSlide userIsMainAdmin validate_slide user code url title w = (Ok c, w') ->
    published w w' =
    [slide_updated (Conference._id c) (of_field (Conference.currentSlideUrl c))
                   (of_field (Conference.currentSlideTitle c))].

(** The calls into the services that act on the world: what
    [slide.service.js], [matching.service.js] and [profile.service.js]
    export. *)
Inductive ServiceCall :=
| CallSetSlide (moderatorUser : User.t) (conferenceCode : string) (url title : option string)
| CallClearSlide (moderatorUser : User.t) (conferenceCode : string)
| CallSearchProfiles (conferenceCode : string) (role text : option string)
                     (limit_arg : option nat)
| CallUpsertProfile (telegramId : string) (conferenceId : option ObjectId)
                    (data : ProfileData).

Definition returned {A} (r : Result A * World) : bool * World :=
  (match fst r with Ok _ => true | Throw _ => false end, snd r).

(** Whether the call returned rather than threw, and the world it left. *)
Definition run_call {engine : JsString.Engine} (userIsMainAdmin : User.t -> bool)
    (validate_slide : SlideInput -> Result SlideData)
    (validate_profile : ProfileData -> Result ProfileData)
    (call : ServiceCall) (w : World) : bool * World :=
  match call with
  | CallSetSlide u code url title =>
      returned (SlideService.setSlide userIsMainAdmin validate_slide u code url title w)
  | CallClearSlide u code =>
      returned (SlideService.clearSlide userIsMainAdmin u code w)
  | CallSearchProfiles code role text lim =>
      returned (MatchingService.searchProfiles code role text lim w)
  | CallUpsertProfile telegramId conferenceId data =>
      returned (ProfileService.upsertProfileForConference validate_profile
                  telegramId conferenceId data w)
  end.

Definition changes_slide (call : ServiceCall) : bool :=
  match call with
  | CallSetSlide _ _ _ _ | CallClearSlide _ _ => true
  | _ => false
  end.

(** The number of profiles of a (telegramId, conference) pair. *)
Definition profiles_of_pair (telegramId : string) (conferenceId : ObjectId) (w : World) : nat :=
  length (List.filter (ProfileService.by_keys telegramId conferenceId) (profiles w)).

(** C10 as the specification words it: [searchProfiles] returns at most
    [limit] profiles. *)
Definition search_returns_at_most_limit : Prop :=
  forall (engine : JsString.Engine) code role text lim w conf ps w',
    MatchingService.searchProfiles code role text lim w = (Ok (conf, ps), w') ->
    length ps <= default 20 lim.

(** The [vote:poll] action on top of the poll engine: the domain state
    behind the handler is the collection of polls, the voter is
    [ctx.from.id]. *)
Definition vote_poll (from : From) (pollId optionId : string)
    : M (Bot.State PollEngine.Polls) unit :=
  Bot.action_vote_poll (fun from => PollEngine.voteInPoll (from_id from))
                       from pollId optionId.

(** A sequence of vote attempts of one voter on one poll, one press of a
    button after the other. *)
Fixpoint vote_attempts (from : From) (pollId : string) (optionIds : list string)
    (s : Bot.State PollEngine.Polls) : Bot.State PollEngine.Polls :=
  match optionIds with
  | [] => s
  | o :: os => vote_attempts from pollId os (snd (vote_poll from pollId o s))
  end.

(** The state after one more reply went out. *)
Definition replied {W} (m : Msg) (k : Markup) (s : Bot.State W) : Bot.State W :=
  Bot.mkState (Bot.world s) (Bot.userState s) (Bot.onboardingState s)
              (Bot.outbox s ++ [Reply m k]) (Bot.console s).


(** The state after the sessions of [id] were dropped. *)
Definition cleared {W} (id : Z) (s : Bot.State W) : Bot.State W :=
  Bot.mkState (Bot.world s) (delete id (Bot.userState s))
              (delete id (Bot.onboardingState s)) (Bot.outbox s) (Bot.console s).

(** The number of sessions an identity holds. *)
Definition sessions {W} (id : Z) (s : Bot.State W) : nat :=
  match Bot.userState s !! id with Some _ => 1 | None => 0 end +
  match Bot.onboardingState s !! id with Some _ => 1 | None => 0 end.

(** Flow A, then flow B: the profile button, then the question button, for
    a sender who can see one conference. *)
Definition profile_then_question : Bot.State (list Conference.t) :=
  let s1 := snd (Bot.hears_profile Sample.x Sample.idle) in
  snd (Bot.hears_ask_question Sample.ensureUserFromTelegram Sample.listConferencesForUser
                              Sample.x s1).

(** DevCon showing a slide, and the world after the main admin set it. *)
Definition devcon_with_slide : Conference.t :=
  Conference.with_slide Sample.devcon (Some "https://example.com/slide.png") (Some "Intro").

Definition world_with_slide (io : option (list Emission)) : World :=
  broadcast (slide_updated 1%N (JString "https://example.com/slide.png") (JString "Intro"))
            (persisted 0 devcon_with_slide (Sample.world io)).

(** ** [lib/validation.js] ([src/unnamed/part_001]): the helper [validate] *)

(** [schema.validate(data, { abortEarly: false, stripUnknown: true })], as
    Joi answers it: [error] with the messages of its details, or no error,
    and the cleaned [value]. *)
Record JoiResult (A : Type) := mkJoiResult {
  joi_error : option (list string);
  joi_value : A;
}.
Arguments mkJoiResult {A}.
Arguments joi_error {A}.
Arguments joi_value {A}.

(** [validate(data, schema)] (lines 166-180). The thrown error also
    carries [details], which no caller reads. *)
Definition validate {A B} (schema : A -> JoiResult B) (data : A) : Result B :=
  let r := schema data in
  match joi_error r with
  | Some details =>
      let messages := JsString.join "; " details in
      Throw (Err ("VALIDATION_ERROR: " +:+ messages))
  | None => Ok (joi_value r)
  end.

(** How the sessions of [id] may differ between two states of the bot: not
    at all; both dropped; the [userState] entry rewritten within its flow
    and conference; or the onboarding entry moved one step on. *)
Definition session_step {W} (id : Z) (s s' : Bot.State W) : Prop :=
  (Bot.userState s' = Bot.userState s /\ Bot.onboardingState s' = Bot.onboardingState s) \/
  (Bot.userState s' = delete id (Bot.userState s) /\
   Bot.onboardingState s' = delete id (Bot.onboardingState s)) \/
  (exists st st',
     Bot.userState s !! id = Some st /\
     Bot.userState s' = <[id := st']> (Bot.userState s) /\
     Bot.onboardingState s' = Bot.onboardingState s /\
     flow st' = flow st /\ conferenceCode st' = conferenceCode st /\
     pollId st' = pollId st /\ questionId st' = questionId st /\
     targetSpeaker st' = targetSpeaker st) \/
  (exists ob ob',
     Bot.userState s !! id = None /\
     Bot.onboardingState s !! id = Some ob /\
     Bot.userState s' = Bot.userState s /\
     Bot.onboardingState s' = <[id := ob']> (Bot.onboardingState s) /\
     (1 <= ob_step ob <= 4)%Z /\
     ob_step ob' = (ob_step ob + 1)%Z).

(** The object an optional onboarding step validates, and the stored data
    after it: step 2 is about interests, 3 about offerings, 4 about what the
    sender looks for. *)
Definition onboarding_key (n : Z) (l : list string) : ProfileData :=
  if bool_decide (n = 2%Z) then mkProfileData None None (Some l) None None None
  else if bool_decide (n = 3%Z) then mkProfileData None None None (Some l) None None
  else mkProfileData None None None None (Some l) None.

Definition onboarding_put (n : Z) (d : ProfileData) (l : list string) : ProfileData :=
  if bool_decide (n = 2%Z) then Bot.with_interests d l
  else if bool_decide (n = 3%Z) then Bot.with_offerings d l
  else Bot.with_lookingFor d l.

(** X alone in a flow, and X alone at a step of onboarding. *)
Definition sample_in_flow (st : FlowState) : Bot.State (list Conference.t) :=
  Bot.mkState [Sample.devcon] {[ 42%Z := st ]} ∅ [] [].

Definition sample_onboarding (n : Z) (d : ProfileData) : Bot.State (list Conference.t) :=
  Bot.mkState [Sample.devcon] ∅ {[ 42%Z := mkOnboarding n d ]} [] [].

(** ** [src/telegram/bot.js]: commands, root menus and confirmations *)

(** [getUserRoles(ctx.from)] of [menus.js], as [bot.start] reads it. *)
Record Roles := mkRoles {
  isMainAdmin : bool;
  isConferenceAdmin : bool;
  conferenceAdminFor : list string;
  hasSpeakerRole : bool;
}.

Module Menu.

(** The texts of these handlers, named by what they say. *)
Inductive Text :=
  | TxtWelcome (mainAdmin conferenceAdmin speaker : bool)  (* bot.js 96-108 *)
  | TxtUseButtons                 (* 111 *)
  | TxtCancelled                  (* 117: the current action is cancelled *)
  | TxtMainMenu                   (* 126 *)
  | TxtSpeakerMenu                (* 369 *)
  | TxtConferenceAdminMenu        (* 377 *)
  | TxtMainAdminMenu              (* 843 *)
  | TxtSlideCleared               (* 797 *)
  | TxtError                      (* 802 *)
  | TxtConferenceEnded (conferenceTitle : string)   (* 827 *)
  | TxtEndFailed                  (* 832 *)
  | TxtNotConfirmed               (* 835, 1224: "cancelled" *)
  | TxtConferenceDeleted (code : string)            (* 1216 *)
  | TxtDeleteFailed.              (* 1221 *)

Inductive Keyboard :=
  | KbMain (from : From)          (* [await getMainMenu(ctx.from)] *)
  | KbReply                       (* [getReplyKeyboard()] *)
  | KbSpeaker                     (* [getSpeakerMenu()] *)
  | KbConferenceAdmin             (* [getConferenceAdminMenu()] *)
  | KbMainAdmin                   (* [getMainAdminMenu()] *)
  | KbBack (callback_data : string).  (* one inline button back *)

Inductive Shown :=
  | Answered                                  (* [ctx.answerCbQuery()] *)
  | Replied (t : Text) (k : Keyboard)         (* [ctx.reply] *)
  | Edited (t : Text) (k : Keyboard).         (* [ctx.editMessageText] *)

(** The state of the bot and, beside it, what these handlers showed. *)
Record State (W : Type) := mkState {
  bot : Bot.State W;
  shown : list Shown;
}.
Arguments mkState {W}.
Arguments bot {W}.
Arguments shown {W}.

Section Handlers.

Context {W : Type}.

Local Open Scope js_scope.

Definition on_bot {A} (c : M (Bot.State W) A) : M (State W) A :=
  fun s =>
    let '(r, b') := c (bot s) in
    (r, mkState b' (shown s)).

Definition show (x : Shown) : M (State W) unit :=
  modify (fun s => mkState (bot s) (shown s ++ [x])).

Variable ensureUserFromTelegram : From -> W -> User.t * W.
Variable getUserRoles : From -> W -> Roles.
Variable endConference : string -> User.t -> M W Conference.t.
Variable deleteConference : string -> User.t -> M W unit.
Variable clearSlide : User.t -> string -> M W Conference.t.

Definition ensureUser (from : From) : M (State W) User.t :=
  on_bot (Bot.ensureUser ensureUserFromTelegram from).

(** [bot.start] (89-112) *)
Definition start (from : From) : M (State W) unit :=
  let* _ := on_bot (Bot.clearUserState (from_id from)) in
  let* user := ensureUser from in
  let* s := get in
  let roles := getUserRoles from (Bot.world (bot s)) in
  let* _ := show (Replied
                    (TxtWelcome (isMainAdmin roles)
                                (isConferenceAdmin roles ||
                                 (0 <? length (conferenceAdminFor roles)))
                                (hasSpeakerRole roles))
                    (KbMain from)) in
  show (Replied TxtUseButtons KbReply).

(** [bot.command('cancel')] (115-118) *)
Definition command_cancel (from : From) : M (State W) unit :=
  let* _ := on_bot (Bot.clearUserState (from_id from)) in
  show (Replied TxtCancelled (KbMain from)).

(** [bot.action('menu:main')] (123-128) *)
Definition action_menu_main (from : From) : M (State W) unit :=
  let* _ := show Answered in
  let* _ := on_bot (Bot.clearUserState (from_id from)) in
  show (Edited TxtMainMenu (KbMain from)).

(** [bot.action('menu:speaker')] (366-370) *)
Definition action_menu_speaker (from : From) : M (State W) unit :=
  let* _ := show Answered in
  let* _ := on_bot (Bot.clearUserState (from_id from)) in
  show (Edited TxtSpeakerMenu KbSpeaker).

(** [bot.action('menu:conference_admin')] (374-378) *)
Definition action_menu_conference_admin (from : From) : M (State W) unit :=
  let* _ := show Answered in
  let* _ := on_bot (Bot.clearUserState (from_id from)) in
  show (Edited TxtConferenceAdminMenu KbConferenceAdmin).

(** [bot.action('menu:main_admin')] (840-844) *)
Definition action_menu_main_admin (from : From) : M (State W) unit :=
  let* _ := show Answered in
  let* _ := on_bot (Bot.clearUserState (from_id from)) in
  show (Edited TxtMainAdminMenu KbMainAdmin).

(** [bot.action(/^admin:clear_slide:(.+)$/)] (790-804) *)
Definition action_admin_clear_slide (from : From) (conferenceCode : string)
    : M (State W) unit :=
  let* _ := show Answered in
  try_catch
    (let* user := ensureUser from in
     let* _ := on_bot (Bot.on_world (clearSlide user conferenceCode)) in
     show (Edited TxtSlideCleared (KbBack ("admin:slides:" +:+ conferenceCode))))
    (fun err =>
       let* _ := on_bot (Bot.console_error "Error in admin:clear_slide" err) in
       show (Edited TxtError KbConferenceAdmin)).

(** [fullMatch.split(':')], then [parts[0]] and
    [parts.slice(1).join(':')]. *)
Definition confirmation (fullMatch : string) : option string * string :=
  let parts := JsString.split ":" fullMatch in
  (head parts, JsString.join ":" (tail parts)).

(** [bot.action(/^admin:end_conf:(.+)$/)] (815-837); [fullMatch] is
    [ctx.match[1]]. *)
Definition action_admin_end_conf (from : From) (fullMatch : string) : M (State W) unit :=
  let* _ := show Answered in
  let '(action, conferenceCode) := confirmation fullMatch in
  if bool_decide (action = Some "yes") then
    try_catch
      (let* user := ensureUser from in
       let* conference := on_bot (Bot.on_world (endConference conferenceCode user)) in
       show (Edited (TxtConferenceEnded (Conference.title conference)) KbConferenceAdmin))
      (fun err =>
         let* _ := on_bot (Bot.console_error "Error in admin:end_conf" err) in
         show (Edited TxtEndFailed KbConferenceAdmin))
  else show (Edited TxtNotConfirmed KbConferenceAdmin).

(** [bot.action(/^admin:delete_conf_confirm:(.+)$/)] (1204-1226) *)
Definition action_admin_delete_conf_confirm (from : From) (fullMatch : string)
    : M (State W) unit :=
  let* _ := show Answered in
  let '(action, conferenceCode) := confirmation fullMatch in
  if bool_decide (action = Some "yes") then
    try_catch
      (let* user := ensureUser from in
       let* _ := on_bot (Bot.on_world (deleteConference conferenceCode user)) in
       show (Edited (TxtConferenceDeleted conferenceCode) KbConferenceAdmin))
      (fun err =>
         let* _ := on_bot (Bot.console_error "Error in admin:delete_conf_confirm" err) in
         show (Edited TxtDeleteFailed KbConferenceAdmin))
  else show (Edited TxtNotConfirmed KbConferenceAdmin).

End Handlers.
End Menu.

Section SampleWorld.

#[local] Existing Instance Sample.engine.

(** Stand-ins over the full world: every sender is the main admin Root, and
    a conference is joined by its code. *)
Definition sample_ensure (from : From) (w : World) : User.t * World := (Sample.root, w).

Definition sample_join (from : From) (code : string)
    : M World (Conference.t * UserProfile.t) :=
  fun w =>
    match findOne (by_code code) (conferences w) with
    | Some (_, c) => (Ok (c, Sample.profile 11%N "100" ["AI"]), w)
    | None => (Throw (Err "CONFERENCE_NOT_FOUND"), w)
    end.

Definition sample_search (code role text : option string) (lim : option nat)
    : M World (Conference.t * list UserProfile.t) :=
  match code with
  | Some c => MatchingService.searchProfiles c role text lim
  | None => throw (Err "CONFERENCE_NOT_FOUND")
  end.

Definition sample_slides (u : User.t) (code url title : option string)
    : M World Conference.t :=
  match code with
  | Some c => SlideService.setSlide Sample.userIsMainAdmin Sample.validate_slide u c url title
  | None => throw (Err "CONFERENCE_NOT_FOUND")
  end.

(** The text handler with the profile, the matching and the slide service
    behind it; the other services know no conference. *)
Definition sample_dialog : From -> string -> M (Bot.State World) unit :=
  Bot.on_text Sample.validate_profile sample_ensure Sample.userIsMainAdmin sample_join
    (ProfileService.upsertProfileForConference Sample.validate_profile)
    sample_search
    (fun _ _ _ _ => throw (Err "CONFERENCE_NOT_FOUND"))
    (fun _ _ _ _ => throw (Err "NOT_SPEAKER"))
    (fun _ _ _ _ => throw (Err "CONFERENCE_NOT_FOUND"))
    (fun _ _ _ _ => throw (Err "CONFERENCE_NOT_FOUND"))
    (fun _ _ => None)
    (fun _ _ => None)
    (fun _ _ _ => throw (Err "POLL_NOT_FOUND"))
    (fun _ _ _ => throw (Err "ACCESS_DENIED"))
    sample_slides
    (fun _ _ _ => throw (Err "ACCESS_DENIED")).

(** Every account sees every conference of the world. *)
Definition sample_listing (u : User.t) (w : World) : list Conference.t := conferences w.

(** A text message over the same services: the reply keyboard first, then
    the text handler. *)
Definition sample_message : From -> string -> M (Bot.State World) unit :=
  Bot.on_message Sample.validate_profile sample_ensure Sample.userIsMainAdmin
    sample_listing sample_join
    (ProfileService.upsertProfileForConference Sample.validate_profile)
    sample_search
    (fun _ _ _ _ => throw (Err "CONFERENCE_NOT_FOUND"))
    (fun _ _ _ _ => throw (Err "NOT_SPEAKER"))
    (fun _ _ _ _ => throw (Err "CONFERENCE_NOT_FOUND"))
    (fun _ _ _ _ => throw (Err "CONFERENCE_NOT_FOUND"))
    (fun _ _ => None)
    (fun _ _ => None)
    (fun _ _ _ => throw (Err "POLL_NOT_FOUND"))
    (fun _ _ _ => throw (Err "ACCESS_DENIED"))
    sample_slides
    (fun _ _ _ => throw (Err "ACCESS_DENIED")).

(** X over the sample world, in a flow or in onboarding. *)
Definition sample_session (st : FlowState) : Bot.State World :=
  Bot.mkState (Sample.world (Some [])) {[ 42%Z := st ]} ∅ [] [].

Definition sample_last_step (d : ProfileData) : Bot.State World :=
  Bot.mkState (Sample.world (Some [])) ∅ {[ 42%Z := mkOnboarding 5 d ]} [] [].

Definition ivan : ProfileData :=
  mkProfileData (Some "Ivan") (Some "Ivanov") (Some ["AI"]) None None None.

End SampleWorld.

(** A button hands a step over to the text handler: pressing it does not
    fail and calls no service, it leaves the sender with the session [st]
    and without onboarding, and the next text message that is neither a
    label of the reply keyboard, a command nor a cancellation is read by
    [step]. *)
Definition hands_over {W} {engine : JsString.Engine}
    (on_message : From -> string -> M (Bot.State W) unit)
    (from : From) (button : M (Bot.State W) unit) (st : FlowState)
    (step : From -> string -> FlowState -> M (Bot.State W) unit) : Prop :=
  forall s, exists s1,
    button s = (Ok tt, s1) /\
    Bot.userState s1 !! from_id from = Some st /\
    Bot.onboardingState s1 !! from_id from = None /\
    Bot.world s1 = Bot.world s /\
    forall t,
      Bot.is_label t = false ->
      JsString.startsWith t "/" = false ->
      Bot.is_cancel (JsString.trim t) = false ->
      on_message from t s1 = step from (JsString.trim t) st s1.


(** * Properties *)

(** ** Helper lemmas on the primitives *)

Lemma findOne_from_Some {A} (P : A -> bool) l k i x :
  findOne_from P k l = Some (i, x) ->
  k <= i /\ l !! (i - k) = Some x /\ P x = true.
Proof.
  revert k. induction l as [|y l IH]; intros k H; simpl in H; [done|].
  destruct (P y) eqn:Hy.
  - injection H as <- <-. by rewrite Nat.sub_diag.
  - apply IH in H as (Hle & Hl & HP).
    split; [lia|]. split; [|done].
    replace (i - k) with (S (i - S k)) by lia. done.
Qed.

Lemma findOne_Some {A} (P : A -> bool) l i x :
  findOne P l = Some (i, x) -> l !! i = Some x /\ P x = true.
Proof.
  intros H. apply findOne_from_Some in H as (_ & Hl & HP).
  by rewrite Nat.sub_0_r in Hl.
Qed.

Lemma findOne_from_None {A} (P : A -> bool) l k :
  findOne_from P k l = None -> List.filter P l = [].
Proof.
  revert k. induction l as [|y l IH]; intros k H; simpl in *; [done|].
  destruct (P y); [done|]. eauto.
Qed.

Lemma findOne_None {A} (P : A -> bool) l :
  findOne P l = None -> List.filter P l = [].
Proof. apply findOne_from_None. Qed.

Lemma ObjectId_toString_inj a b : ObjectId_toString a = ObjectId_toString b -> a = b.
Proof. unfold ObjectId_toString. apply (inj pretty). Qed.

(** ** Slides: authorization and broadcast *)

Section SlideProperties.

Variable userIsMainAdmin : User.t -> bool.
Variable validate_slide : SlideInput -> Result SlideData.

Local Abbreviation assertConferenceAdmin := (SlideService.assertConferenceAdmin userIsMainAdmin).
Local Abbreviation setSlide := (SlideService.setSlide userIsMainAdmin validate_slide).
Local Abbreviation clearSlide := (SlideService.clearSlide userIsMainAdmin).
Local Abbreviation moderator := (may_moderate userIsMainAdmin).

Lemma may_moderate_iff user conference w :
  moderator user conference w = true <->
  userIsMainAdmin user = true \/
  exists p, p ∈ profiles w /\
            UserProfile.telegramId p = User.telegramId user /\
            UserProfile.conference p = Conference._id conference /\
            UserProfile._id p ∈ Conference.admins conference.
Proof.
  unfold may_moderate. rewrite orb_true_iff, existsb_exists.
  split; intros [H|H]; auto; right.
  - destruct H as (p & Hin & Hp).
    rewrite !andb_true_iff, !bool_decide_eq_true in Hp.
    exists p. rewrite list_elem_of_In. tauto.
  - destruct H as (p & Hin & H1 & H2 & H3).
    exists p. rewrite !andb_true_iff, !bool_decide_eq_true.
    rewrite <- list_elem_of_In. tauto.
Qed.

(** The test of the source, on rendered identifiers, is the test of the
    specification, on identifiers. *)
Lemma isConferenceAdmin_eq user conference w :
  let found := List.filter (fun p =>
      bool_decide (UserProfile.telegramId p = User.telegramId user) &&
      bool_decide (UserProfile.conference p = Conference._id conference)) (profiles w) in
  let profileIdsStr := map (fun p => ObjectId_toString (UserProfile._id p)) found in
  (0 <? length profileIdsStr) &&
  existsb (fun id => bool_decide (ObjectId_toString id ∈ profileIdsStr))
          (Conference.admins conference)
  = existsb (fun p =>
           bool_decide (UserProfile.telegramId p = User.telegramId user) &&
           bool_decide (UserProfile.conference p = Conference._id conference) &&
           bool_decide (UserProfile._id p ∈ Conference.admins conference))
        (profiles w).
Proof.
  intros found ids.
  apply eq_true_iff_eq. rewrite andb_true_iff, !existsb_exists. split.
  - intros (_ & id & Hid & Hmem). rewrite bool_decide_eq_true in Hmem.
    subst ids. apply list_elem_of_fmap in Hmem as (p & Heq & Hp).
    apply ObjectId_toString_inj in Heq. subst id.
    apply list_elem_of_In, filter_In in Hp as (Hp & Hkeys).
    exists p. split; [done|]. rewrite Hkeys. simpl.
    apply bool_decide_eq_true. by apply list_elem_of_In.
  - intros (p & Hp & Hc). rewrite !andb_true_iff in Hc.
    destruct Hc as (Hkeys & Hadm). rewrite bool_decide_eq_true in Hadm.
    assert (Hf : In p found).
    { apply filter_In. split; [done|]. by apply andb_true_iff. }
    split.
    + apply Nat.ltb_lt. subst ids. rewrite length_map.
      destruct found; [done|simpl; lia].
    + exists (UserProfile._id p). split; [by apply list_elem_of_In|].
      apply bool_decide_eq_true. subst ids.
      apply list_elem_of_fmap. exists p. split; [done|]. by apply list_elem_of_In.
Qed.

Lemma assertConferenceAdmin_eq user conference w :
  assertConferenceAdmin user conference w =
  (if moderator user conference w then Ok tt else Throw (Err "ACCESS_DENIED"), w).
Proof.
  unfold SlideService.assertConferenceAdmin, may_moderate.
  destruct (userIsMainAdmin user); [done|]. simpl.
  unfold bind, UserProfile_find.
  rewrite (isConferenceAdmin_eq user conference w).
  by destruct (existsb _ _).
Qed.

Lemma emitToConference_eq id ev pl w :
  Realtime.emitToConference (Some id) ev pl w =
  (Ok tt, broadcast (mkEmission ("conference-" +:+ ObjectId_toString id) ev pl) w).
Proof. unfold Realtime.emitToConference, broadcast. by destruct (ioInstance w). Qed.

(** [setSlide], path by path. *)
Lemma setSlide_eq user code url title w :
  setSlide user code url title w =
  match validate_slide (mkSlideInput url (or_empty title) code) with
  | Throw e => (Throw e, w)
  | Ok v =>
      match findOne (by_code (sd_conferenceCode v)) (conferences w) with
      | None => (Throw (Err "CONFERENCE_NOT_FOUND"), w)
      | Some (slot, conference) =>
          if moderator user conference w then
            let c := Conference.with_slide conference (Some (sd_url v))
                                           (Some (sd_title v)) in
            (Ok c, broadcast (slide_updated (Conference._id c) (JString (sd_url v))
                                            (JString (sd_title v)))
                             (persisted slot c w))
          else (Throw (Err "ACCESS_DENIED"), w)
      end
  end.
Proof.
  unfold SlideService.setSlide, bind at 1, lift.
  destruct (validate_slide _) as [v|e]; [|done].
  unfold bind at 1, Conference_findOne. fold (by_code (sd_conferenceCode v)).
  destruct (findOne _ _) as [[slot conference]|]; [|done].
  unfold bind at 1. rewrite assertConferenceAdmin_eq.
  destruct (moderator user conference w); [|done].
  unfold bind at 1, Conference_save, modify.
  unfold bind, ret. rewrite emitToConference_eq. done.
Qed.

(** [clearSlide], path by path. *)
Lemma clearSlide_eq user code w :
  clearSlide user code w =
  match findOne (by_code code) (conferences w) with
  | None => (Throw (Err "CONFERENCE_NOT_FOUND"), w)
  | Some (slot, conference) =>
      if moderator user conference w then
        let c := Conference.with_slide conference None None in
        (Ok c, broadcast (slide_updated (Conference._id c) JNull JNull)
                         (persisted slot c w))
      else (Throw (Err "ACCESS_DENIED"), w)
  end.
Proof.
  unfold SlideService.clearSlide, bind at 1, Conference_findOne. fold (by_code code).
  destruct (findOne _ _) as [[slot conference]|]; [|done].
  unfold bind at 1. rewrite assertConferenceAdmin_eq.
  destruct (moderator user conference w); [|done].
  unfold bind at 1, Conference_save, modify.
  unfold bind, ret. rewrite emitToConference_eq. done.
Qed.

(** C4. The admin check of [setSlide] and [clearSlide] passes exactly for a
    main admin or a user one of whose profiles for the conference is among
    its admins; otherwise it throws [ACCESS_DENIED], the operation throws
    it too, and the world (slide fields and socket server alike) is left
    as it was. *)
Theorem conference_admin_check user conference w :
  (assertConferenceAdmin user conference w = (Ok tt, w) <->
     userIsMainAdmin user = true \/
     exists p, p ∈ profiles w /\
               UserProfile.telegramId p = User.telegramId user /\
               UserProfile.conference p = Conference._id conference /\
               UserProfile._id p ∈ Conference.admins conference) /\
  (assertConferenceAdmin user conference w <> (Ok tt, w) ->
     assertConferenceAdmin user conference w = (Throw (Err "ACCESS_DENIED"), w) /\
     (forall code url title v slot,
         validate_slide (mkSlideInput url (or_empty title) code) = Ok v ->
         findOne (by_code (sd_conferenceCode v)) (conferences w) = Some (slot, conference) ->
         setSlide user code url title w = (Throw (Err "ACCESS_DENIED"), w)) /\
     (forall code slot,
         findOne (by_code code) (conferences w) = Some (slot, conference) ->
         clearSlide user code w = (Throw (Err "ACCESS_DENIED"), w))).
Proof.
  rewrite assertConferenceAdmin_eq, <- may_moderate_iff.
  destruct (moderator user conference w) eqn:Hm.
  - split; [done|]. intros H. by destruct H.
  - split; [split; [intros [=]|intros [=]]|].
    intros _. split; [done|]. split.
    + intros code url title v slot Hv Hf. by rewrite setSlide_eq, Hv, Hf, Hm.
    + intros code slot Hf. by rewrite clearSlide_eq, Hf, Hm.
Qed.

Lemma published_broadcast e slot c w :
  published w (broadcast e (persisted slot c w)) =
  match ioInstance w with Some _ => [e] | None => [] end.
Proof.
  unfold published, broadcast, persisted. simpl.
  destruct (ioInstance w) as [sent|] eqn:Hio; simpl; rewrite ?Hio; [|done].
  by rewrite drop_app_length.
Qed.

Lemma published_same w : published w w = [].
Proof.
  unfold published. destruct (ioInstance w) as [sent|]; [|done].
  by rewrite drop_all.
Qed.

Lemma persisted_lookup slot (c c0 : Conference.t) w :
  conferences w !! slot = Some c0 ->
  conferences (persisted slot c w) !! slot = Some c.
Proof.
  intros H. unfold persisted. simpl. apply list_lookup_insert_eq.
  by apply lookup_lt_Some in H.
Qed.

Lemma conferences_broadcast e w : conferences (broadcast e w) = conferences w.
Proof. unfold broadcast. by destruct (ioInstance w). Qed.

(** C5, amended. Every successful [setSlide] hands the broadcaster
    exactly one [slide-updated] event for the room of the conference,
    carrying the url and title just persisted, and every successful
    [clearSlide] exactly one carrying two nulls. With a socket server set
    that one event is what is published; with none set nothing is. Both
    payloads have the shape [{url: string|null, title: string|null}]. These
    are the only triggers: a [setSlide] or [clearSlide] that throws leaves
    the world as it was, the admin check alone does too, and every call
    into the services other than a successful [setSlide] or [clearSlide]
    publishes nothing and leaves the socket server as it was. *)
Theorem slide_events_with_server user code url title w :
  (forall c w', setSlide user code url title w = (Ok c, w') ->
     exists slot u t,
       conferences w' !! slot = Some c /\
       Conference.currentSlideUrl c = Some u /\
       Conference.currentSlideTitle c = Some t /\
       w' = broadcast (slide_updated (Conference._id c) (JString u) (JString t))
                      (persisted slot c w) /\
       published w w' =
         match ioInstance w with
         | Some _ => [slide_updated (Conference._id c) (JString u) (JString t)]
         | None => []
         end) /\
  (forall c w', clearSlide user code w = (Ok c, w') ->
     exists slot,
       conferences w' !! slot = Some c /\
       Conference.currentSlideUrl c = None /\
       Conference.currentSlideTitle c = None /\
       w' = broadcast (slide_updated (Conference._id c) JNull JNull) (persisted slot c w) /\
       published w w' =
         match ioInstance w with
         | Some _ => [slide_updated (Conference._id c) JNull JNull]
         | None => []
         end) /\
  (forall r w', setSlide user code url title w = (r, w') \/ clearSlide user code w = (r, w') ->
     forallb has_slide_shape (published w w') = true /\
     (forall e, r = Throw e -> w' = w)) /\
  (forall conference, snd (assertConferenceAdmin user conference w) = w) /\
  (forall (engine : JsString.Engine) validate_profile call,
     let r := run_call userIsMainAdmin validate_slide validate_profile call w in
     changes_slide call && fst r = false ->
     ioInstance (snd r) = ioInstance w /\ published w (snd r) = []).
Proof.
  split; [|split; [|split; [|split]]].
  - intros c w'. rewrite setSlide_eq.
    destruct (validate_slide _) as [v|e]; [|done].
    destruct (findOne _ _) as [[slot conference]|] eqn:Hf; [|done].
    destruct (moderator user conference w); [|done].
    intros [= <- <-]. apply findOne_Some in Hf as [Hl _].
    exists slot, (sd_url v), (sd_title v).
    rewrite conferences_broadcast, published_broadcast.
    split; [by eapply persisted_lookup|]. done.
  - intros c w'. rewrite clearSlide_eq.
    destruct (findOne _ _) as [[slot conference]|] eqn:Hf; [|done].
    destruct (moderator user conference w); [|done].
    intros [= <- <-]. apply findOne_Some in Hf as [Hl _].
    exists slot. rewrite conferences_broadcast, published_broadcast.
    split; [by eapply persisted_lookup|]. done.
  - intros r w' [H|H].
    + rewrite setSlide_eq in H.
      destruct (validate_slide _) as [v|e].
      2:{ injection H as <- <-. rewrite published_same. split; [done|]. done. }
      destruct (findOne _ _) as [[slot conference]|].
      2:{ injection H as <- <-. rewrite published_same. split; [done|]. done. }
      destruct (moderator user conference w).
      2:{ injection H as <- <-. rewrite published_same. split; [done|]. done. }
      injection H as <- <-. rewrite published_broadcast.
      split; [by destruct (ioInstance w)|]. intros e [=].
    + rewrite clearSlide_eq in H.
      destruct (findOne _ _) as [[slot conference]|].
      2:{ injection H as <- <-. rewrite published_same. split; [done|]. done. }
      destruct (moderator user conference w).
      2:{ injection H as <- <-. rewrite published_same. split; [done|]. done. }
      injection H as <- <-. rewrite published_broadcast.
      split; [by destruct (ioInstance w)|]. intros e [=].
  - intros conference. rewrite assertConferenceAdmin_eq. done.
  - intros engine validate_profile call r Hr.
    assert (Hio : ioInstance (snd r) = ioInstance w).
    { subst r. destruct call as [u c0 url0 t0|u c0|c0 role text lim|tid cid data];
        cbn [run_call changes_slide returned fst snd andb] in Hr |- *.
      - rewrite setSlide_eq in Hr |- *.
        destruct (validate_slide _) as [v|e]; [|done].
        destruct (findOne _ _) as [[slot conference]|]; [|done].
        by destruct (moderator u conference w).
      - rewrite clearSlide_eq in Hr |- *.
        destruct (findOne _ _) as [[slot conference]|]; [|done].
        by destruct (moderator u conference w).
      - unfold MatchingService.searchProfiles, bind, Conference_findOne, UserProfile_find,
          throw, ret. cbn [fst snd].
        destruct (findOne _ _) as [[slot conference]|]; [|done].
        by destruct (MatchingService.text_given text).
      - unfold ProfileService.upsertProfileForConference, ProfileService.UserProfile_save,
          bind, lift, get, modify, throw, ret.
        destruct cid as [cid|]; [|done].
        destruct (negb (JsString.truthy tid)); [done|].
        destruct (validate_profile data) as [v|e]; [|done].
        cbn [fst snd]. by destruct (findOne _ _) as [[slot p0]|]. }
    split; [done|]. unfold published. rewrite Hio.
    destruct (ioInstance w) as [sent|]; [|done]. by rewrite drop_all.
Qed.


End SlideProperties.

(** A caller who is neither a main admin nor an admin of the conference is
    turned away by [setSlide], and the world is untouched. *)
Lemma conference_admin_check_witness :
  SlideService.setSlide Sample.userIsMainAdmin Sample.validate_slide Sample.bob
    "abc123" (Some "https://example.com/slide.png") (Some "Intro") (Sample.world None)
  = (Throw (Err "ACCESS_DENIED"), Sample.world None).
Proof.
  destruct (conference_admin_check Sample.userIsMainAdmin Sample.validate_slide
              Sample.bob Sample.devcon (Sample.world None)) as [_ H].
  destruct H as (_ & Hset & _).
  - vm_compute. discriminate.
  - eapply Hset; reflexivity.
Defined.

(** With no socket server set, a main admin sets a slide and not a single
    event leaves: the claim as worded fails. *)
Lemma slide_event_on_every_success_fails : ~ slide_event_on_every_success.
Proof.
  intros H.
  destruct (SlideService.setSlide Sample.userIsMainAdmin Sample.validate_slide Sample.root
              "abc123" (Some "https://example.com/slide.png") (Some "Intro")
              (Sample.world None)) as [[c|e] w'] eqn:Hr.
  - specialize (H _ _ _ _ _ _ _ _ _ Hr).
    rewrite setSlide_eq in Hr. vm_compute in Hr. injection Hr as <- <-.
    discriminate H.
  - rewrite setSlide_eq in Hr. vm_compute in Hr. discriminate Hr.
Qed.

Lemma slide_events_with_server_witness :
  exists c w',
    SlideService.setSlide Sample.userIsMainAdmin Sample.validate_slide Sample.root
      "abc123" (Some "https://example.com/slide.png") (Some "Intro") (Sample.world (Some []))
    = (Ok c, w') /\
    published (Sample.world (Some [])) w' =
    [slide_updated 1%N (JString "https://example.com/slide.png") (JString "Intro")].
Proof.
  destruct (SlideService.setSlide Sample.userIsMainAdmin Sample.validate_slide Sample.root
              "abc123" (Some "https://example.com/slide.png") (Some "Intro")
              (Sample.world (Some []))) as [[c|e] w'] eqn:Hr.
  - exists c, w'. split; [done|].
    destruct (slide_events_with_server Sample.userIsMainAdmin Sample.validate_slide
                Sample.root "abc123" (Some "https://example.com/slide.png") (Some "Intro")
                (Sample.world (Some []))) as (Hset & _).
    destruct (Hset c w' Hr) as (slot & u & t & _ & Hu & Ht & _ & Hp).
    rewrite Hp. rewrite setSlide_eq in Hr. vm_compute in Hr.
    injection Hr as <- <-. simpl in Hu, Ht. injection Hu as <-. injection Ht as <-.
    reflexivity.
  - rewrite setSlide_eq in Hr. vm_compute in Hr. discriminate Hr.
Defined.


(** ** Profiles: one per account and conference *)

Lemma filter_length_insert {A} (P : A -> bool) (l : list A) i x y :
  l !! i = Some x -> P x = P y ->
  length (List.filter P (<[i := y]> l)) = length (List.filter P l).
Proof.
  revert i. induction l as [|z l IH]; intros i Hl HP; [done|].
  destruct i as [|i]; simpl in *.
  - injection Hl as ->. rewrite HP. by destruct (P y).
  - specialize (IH i Hl HP). destruct (P z); simpl; by rewrite IH.
Qed.

Lemma filter_length_app {A} (P : A -> bool) (l k : list A) :
  length (List.filter P (l ++ k)) = length (List.filter P l) + length (List.filter P k).
Proof. by rewrite List.filter_app, length_app. Qed.

Section ProfileProperties.

Variable validate_profile : ProfileData -> Result ProfileData.

Local Abbreviation upsert := (ProfileService.upsertProfileForConference validate_profile).

Lemma by_keys_kept t c p v :
  ProfileService.by_keys t c (ProfileService.complete (ProfileService.Object_assign p v)) =
  ProfileService.by_keys t c p.
Proof. done. Qed.

Lemma by_keys_new t c id v :
  ProfileService.by_keys t c
    (ProfileService.complete
       (ProfileService.Object_assign (ProfileService.new_UserProfile id t c) v)) = true.
Proof.
  unfold ProfileService.by_keys. simpl.
  apply andb_true_iff. split; by apply bool_decide_eq_true.
Qed.

(** [upsertProfileForConference], path by path. *)
Lemma upsert_eq t c data w :
  upsert t (Some c) data w =
  if negb (JsString.truthy t) then (Throw (Err "MISSING_KEYS"), w)
  else
    match validate_profile data with
    | Throw e => (Throw e, w)
    | Ok v =>
        match findOne (ProfileService.by_keys t c) (profiles w) with
        | Some (i, p0) =>
            let p := ProfileService.complete (ProfileService.Object_assign p0 v) in
            (Ok p, set_profiles (<[i := p]> (profiles w)) w)
        | None =>
            let p := ProfileService.complete
                       (ProfileService.Object_assign
                          (ProfileService.new_UserProfile
                             (ProfileService.newObjectId (profiles w)) t c) v) in
            (Ok p, set_profiles (profiles w ++ [p]) w)
        end
    end.
Proof.
  unfold ProfileService.upsertProfileForConference.
  destruct (negb (JsString.truthy t)); [done|].
  unfold bind at 1, lift. destruct (validate_profile data) as [v|e]; [|done].
  unfold bind at 1, get.
  destruct (findOne _ _) as [[i p0]|]; done.
Qed.

(** C7. [upsertProfileForConference] never adds a second profile for a
    (telegramId, conference) pair. When the call succeeds and a profile of
    the pair exists, that profile is rewritten in its slot and the
    collection keeps its length: each of the six fields of the data holds
    the validated value when the validated data has the key and the stored
    value otherwise, the identifier, the keys and the active flag are the
    stored ones and the profile is marked as onboarded. When none exists
    exactly one is appended, active and onboarded, with the validated values
    and an empty list where the validated data has none. A call that throws
    changes nothing. Hence, from a collection without a profile of the pair,
    a successful call followed by any second call leaves exactly one. *)
Theorem upsert_one_profile_per_pair t c data w :
  (forall p w', upsert t (Some c) data w = (Ok p, w') ->
     ProfileService.by_keys t c p = true /\
     p ∈ profiles w' /\
     conferences w' = conferences w /\
     match findOne (ProfileService.by_keys t c) (profiles w) with
     | Some (i, p0) =>
         (exists v, validate_profile data = Ok v /\
            p = ProfileService.complete (ProfileService.Object_assign p0 v) /\
            UserProfile.firstName p = from_option Some (UserProfile.firstName p0)
                                                  (pd_firstName v) /\
            UserProfile.lastName p = from_option Some (UserProfile.lastName p0)
                                                 (pd_lastName v) /\
            UserProfile.interests p = from_option Some (UserProfile.interests p0)
                                                  (pd_interests v) /\
            UserProfile.offerings p = from_option Some (UserProfile.offerings p0)
                                                  (pd_offerings v) /\
            UserProfile.lookingFor p = from_option Some (UserProfile.lookingFor p0)
                                                   (pd_lookingFor v) /\
            UserProfile.roles p = from_option Some (UserProfile.roles p0) (pd_roles v)) /\
         UserProfile._id p = UserProfile._id p0 /\
         UserProfile.isActive p = UserProfile.isActive p0 /\
         UserProfile.onboardingCompleted p = true /\
         profiles w' = <[i := p]> (profiles w) /\
         length (profiles w') = length (profiles w) /\
         profiles_of_pair t c w' = profiles_of_pair t c w
     | None =>
         (exists v, validate_profile data = Ok v /\
            UserProfile.firstName p = pd_firstName v /\
            UserProfile.lastName p = pd_lastName v /\
            UserProfile.interests p = from_option Some (Some []) (pd_interests v) /\
            UserProfile.offerings p = from_option Some (Some []) (pd_offerings v) /\
            UserProfile.lookingFor p = from_option Some (Some []) (pd_lookingFor v) /\
            UserProfile.roles p = from_option Some (Some []) (pd_roles v)) /\
         UserProfile.isActive p = true /\
         UserProfile.onboardingCompleted p = true /\
         profiles w' = profiles w ++ [p] /\
         profiles_of_pair t c w = 0 /\
         profiles_of_pair t c w' = 1
     end) /\
  (forall e w', upsert t (Some c) data w = (Throw e, w') -> w' = w) /\
  (forall p w' data2 r2 w2,
     profiles_of_pair t c w = 0 ->
     upsert t (Some c) data w = (Ok p, w') ->
     upsert t (Some c) data2 w' = (r2, w2) ->
     profiles_of_pair t c w2 = 1).
Proof.
  assert (Hok : forall data w p w', upsert t (Some c) data w = (Ok p, w') ->
     ProfileService.by_keys t c p = true /\
     p ∈ profiles w' /\
     conferences w' = conferences w /\
     match findOne (ProfileService.by_keys t c) (profiles w) with
     | Some (i, p0) =>
         (exists v, validate_profile data = Ok v /\
            p = ProfileService.complete (ProfileService.Object_assign p0 v) /\
            UserProfile.firstName p = from_option Some (UserProfile.firstName p0)
                                                  (pd_firstName v) /\
            UserProfile.lastName p = from_option Some (UserProfile.lastName p0)
                                                 (pd_lastName v) /\
            UserProfile.interests p = from_option Some (UserProfile.interests p0)
                                                  (pd_interests v) /\
            UserProfile.offerings p = from_option Some (UserProfile.offerings p0)
                                                  (pd_offerings v) /\
            UserProfile.lookingFor p = from_option Some (UserProfile.lookingFor p0)
                                                   (pd_lookingFor v) /\
            UserProfile.roles p = from_option Some (UserProfile.roles p0) (pd_roles v)) /\
         UserProfile._id p = UserProfile._id p0 /\
         UserProfile.isActive p = UserProfile.isActive p0 /\
         UserProfile.onboardingCompleted p = true /\
         profiles w' = <[i := p]> (profiles w) /\
         length (profiles w') = length (profiles w) /\
         profiles_of_pair t c w' = profiles_of_pair t c w
     | None =>
         (exists v, validate_profile data = Ok v /\
            UserProfile.firstName p = pd_firstName v /\
            UserProfile.lastName p = pd_lastName v /\
            UserProfile.interests p = from_option Some (Some []) (pd_interests v) /\
            UserProfile.offerings p = from_option Some (Some []) (pd_offerings v) /\
            UserProfile.lookingFor p = from_option Some (Some []) (pd_lookingFor v) /\
            UserProfile.roles p = from_option Some (Some []) (pd_roles v)) /\
         UserProfile.isActive p = true /\
         UserProfile.onboardingCompleted p = true /\
         profiles w' = profiles w ++ [p] /\
         profiles_of_pair t c w = 0 /\
         profiles_of_pair t c w' = 1
     end).
  { clear data w. intros data w p w'. rewrite upsert_eq.
    destruct (negb (JsString.truthy t)); [done|].
    destruct (validate_profile data) as [v|e]; [|done].
    destruct (findOne _ _) as [[i p0]|] eqn:Hf.
    - intros [= <- <-]. apply findOne_Some in Hf as [Hl HP]. simpl.
      rewrite by_keys_kept. split; [done|].
      split. { apply list_elem_of_lookup. exists i. apply list_lookup_insert_eq.
               by apply lookup_lt_Some in Hl. }
      split; [done|].
      split. { exists v. split; [done|]. split; [done|].
               unfold ProfileService.assigned.
               repeat split; by destruct v as [[?|] [?|] [?|] [?|] [?|] [?|]]. }
      split; [done|]. split; [done|]. split; [done|]. split; [done|].
      split; [by rewrite length_insert|].
      unfold profiles_of_pair. simpl.
      apply (filter_length_insert _ _ _ p0); [done|]. by rewrite by_keys_kept.
    - intros [= <- <-]. apply findOne_None in Hf. simpl.
      rewrite by_keys_new. split; [done|].
      split. { apply elem_of_app. right. by apply list_elem_of_singleton. }
      split; [done|].
      split. { exists v. split; [done|]. unfold ProfileService.assigned.
               repeat split; by destruct v as [[?|] [?|] [?|] [?|] [?|] [?|]]. }
      split; [done|]. split; [done|]. split; [done|].
      unfold profiles_of_pair. simpl. rewrite filter_length_app, Hf. simpl.
      rewrite by_keys_new. done. }
  assert (Hthrow : forall data w e w', upsert t (Some c) data w = (Throw e, w') -> w' = w).
  { clear data w. intros data w e w'. rewrite upsert_eq.
    destruct (negb (JsString.truthy t)); [by intros [= _ <-]|].
    destruct (validate_profile data) as [v|e']; [|by intros [= _ <-]].
    by destruct (findOne _ _) as [[i p0]|]. }
  split; [apply Hok|]. split; [apply Hthrow|].
  intros p w' data2 r2 w2 H0 H1 H2.
  apply Hok in H1 as (_ & _ & _ & H1).
  destruct (findOne _ (profiles w)) as [[i p0]|] eqn:Hf.
  { apply findOne_Some in Hf as [Hl HP]. unfold profiles_of_pair in H0.
    apply list_elem_of_lookup_2, list_elem_of_In in Hl.
    assert (Hin : In p0 (List.filter (ProfileService.by_keys t c) (profiles w)))
      by (apply filter_In; done).
    destruct (List.filter _ _); [done|discriminate H0]. }
  destruct H1 as (_ & _ & _ & _ & _ & Hone).
  destruct r2 as [p2|e2].
  - apply Hok in H2 as (_ & _ & _ & H2).
    destruct (findOne _ (profiles w')) as [[i p0]|].
    + destruct H2 as (_ & _ & _ & _ & _ & _ & ->). done.
    + destruct H2 as (_ & _ & _ & _ & Hz & _). congruence.
  - apply Hthrow in H2 as ->. done.
Qed.

End ProfileProperties.

Lemma upsert_one_profile_per_pair_witness :
  let first := ProfileService.upsertProfileForConference Sample.validate_profile
                 "400" (Some 1%N) empty_data (Sample.world None) in
  let second := ProfileService.upsertProfileForConference Sample.validate_profile
                  "400" (Some 1%N) (mkProfileData (Some "Eve") None None None None None)
                  (snd first) in
  profiles_of_pair "400" 1%N (Sample.world None) = 0 /\
  profiles_of_pair "400" 1%N (snd first) = 1 /\
  profiles_of_pair "400" 1%N (snd second) = 1.
Proof.
  cbv zeta.
  destruct (upsert_one_profile_per_pair Sample.validate_profile "400" 1%N empty_data
              (Sample.world None)) as (_ & _ & H).
  split; [reflexivity|]. split; [reflexivity|].
  destruct (ProfileService.upsertProfileForConference Sample.validate_profile
              "400" (Some 1%N) empty_data (Sample.world None)) as [[p|e] w'] eqn:H1.
  - destruct (ProfileService.upsertProfileForConference Sample.validate_profile
                "400" (Some 1%N) (mkProfileData (Some "Eve") None None None None None)
                (snd (Ok p, w'))) as [r2 w2] eqn:H2.
    cbn [snd] in H2 |- *. eapply H; [reflexivity|exact H1|exact H2].
  - vm_compute in H1. discriminate H1.
Defined.

(** ** Search *)

Lemma startsWith_iff s p : JsString.startsWith s p = true <-> exists b, s = p +:+ b.
Proof.
  revert s. induction p as [|a p IH]; intros s.
  - split; [intros _; by exists s|intros _; by destruct s].
  - destruct s as [|b s]; simpl.
    + split; [done|]. intros [x Hx]. discriminate Hx.
    + destruct (decide (a = b)) as [<-|Hne].
      * rewrite IH. split; intros [x Hx]; exists x.
        -- by rewrite Hx.
        -- simpl in Hx. by injection Hx.
      * split; [done|]. intros [x Hx]. simpl in Hx. injection Hx as Hab _. by destruct Hne.
Qed.

(** [includes] finds exactly the substrings. *)
Lemma includes_iff s t : JsString.includes s t = true <-> exists a b, s = a +:+ t +:+ b.
Proof.
  induction s as [|c s IH].
  - change (JsString.includes "" t) with (JsString.startsWith "" t || false).
    rewrite orb_false_r, startsWith_iff. split.
    + intros [b Hb]. by exists "", b.
    + intros (a & b & H). destruct a; [by exists b|discriminate H].
  - change (JsString.includes (String c s) t)
      with (JsString.startsWith (String c s) t || JsString.includes s t).
    rewrite orb_true_iff, startsWith_iff, IH. split.
    + intros [[b Hb]|(a & b & Hab)].
      * by exists "", b.
      * exists (String c a), b. simpl. by rewrite Hab.
    + intros (a & b & H). destruct a as [|c' a].
      * left. by exists b.
      * right. simpl in H. injection H as _ H. by exists a, b.
Qed.

Lemma limit_length {A} n (l : list A) : 0 < n -> length (limit n l) <= n.
Proof.
  intros Hn. destruct n; [lia|]. unfold limit. rewrite length_take. lia.
Qed.

Lemma limit_subset {A} n (l : list A) x : x ∈ limit n l -> x ∈ l.
Proof.
  destruct n; [done|]. unfold limit. intros H.
  apply list_elem_of_lookup in H as [i Hi].
  apply lookup_take_Some in Hi as [Hi _]. by eapply list_elem_of_lookup_2.
Qed.

Lemma includes_refl s : JsString.includes s s = true.
Proof.
  assert (H : JsString.startsWith s s = true).
  { induction s as [|c s IH]; [done|]. simpl. by rewrite decide_True. }
  destruct s; simpl in *; [done|]. by rewrite H.
Qed.

Section MatchingProperties.

Context {engine : JsString.Engine}.

(** [searchProfiles], path by path. *)
Lemma searchProfiles_eq code role text lim w :
  MatchingService.searchProfiles code role text lim w =
  match findOne (by_code code) (conferences w) with
  | None => (Throw (Err "CONFERENCE_NOT_FOUND"), w)
  | Some (_, conference) =>
      let found := limit (default 20 lim)
                         (List.filter (MatchingService.query conference role) (profiles w)) in
      match MatchingService.text_given text with
      | Some t => (Ok (conference, List.filter (MatchingService.text_matches t) found), w)
      | None => (Ok (conference, found), w)
      end
  end.
Proof.
  unfold MatchingService.searchProfiles, bind at 1, Conference_findOne. fold (by_code code).
  destruct (findOne _ _) as [[slot conference]|]; [|done].
  unfold bind, UserProfile_find.
  by destruct (MatchingService.text_given text).
Qed.

Lemma text_given_nonblank tx :
  JsString.trim tx <> "" ->
  MatchingService.text_given (Some tx) = Some (JsString.toLowerCase (JsString.trim tx)).
Proof.
  intros H. unfold MatchingService.text_given.
  assert (H1 : JsString.truthy (JsString.trim tx) = true)
    by (destruct (JsString.trim tx); done).
  assert (H2 : JsString.truthy tx = true) by (destruct tx; [by destruct H|done]).
  by rewrite H1, H2.
Qed.

(** C10, amended. [searchProfiles] answers from the conference the code
    resolves to, leaves the world alone, and returns only profiles of that
    conference that are active, have completed onboarding and, when a role is
    given, carry it. A positive [limit] (20 when absent) bounds the number of
    profiles returned; [limit] 0 is no bound. When the text is not blank,
    every profile returned has an entry among its interests, offerings and
    lookingFor whose lower-case form contains the trimmed lower-case text.
    The limit cuts the query result before the text filter runs, so a search
    can return fewer profiles than the limit allows while more matching
    profiles exist. *)
Theorem searchProfiles_spec code role text lim w :
  (forall conf ps w',
     MatchingService.searchProfiles code role text lim w = (Ok (conf, ps), w') ->
     w' = w /\
     (exists slot, findOne (by_code code) (conferences w) = Some (slot, conf)) /\
     ps = (let found := limit (default 20 lim)
                          (List.filter (MatchingService.query conf role) (profiles w)) in
           match MatchingService.text_given text with
           | Some t => List.filter (MatchingService.text_matches t) found
           | None => found
           end) /\
     (forall p, p ∈ ps ->
        p ∈ profiles w /\
        UserProfile.conference p = Conference._id conf /\
        UserProfile.isActive p = true /\
        UserProfile.onboardingCompleted p = true /\
        (forall r, role = Some r -> r <> "" -> r ∈ default [] (UserProfile.roles p))) /\
     (0 < default 20 lim -> length ps <= default 20 lim) /\
     (forall tx, text = Some tx -> JsString.trim tx <> "" ->
        forall p, p ∈ ps ->
          exists val a b,
            val ∈ MatchingService.fields p /\
            JsString.toLowerCase val =
              a +:+ JsString.toLowerCase (JsString.trim tx) +:+ b)) /\
  (exists w0 conf ps,
     MatchingService.searchProfiles "abc123" None (Some " AI ") (Some 2) w0 = (Ok (conf, ps), w0) /\
     length ps < 2 /\
     length ps <
       length (List.filter (fun p => MatchingService.query conf None p &&
                                     MatchingService.text_matches (JsString.toLowerCase "AI") p)
                           (profiles w0))).
Proof.
  split.
  - intros conf ps w'. rewrite searchProfiles_eq.
    destruct (findOne _ _) as [[slot conference]|] eqn:Hf; [|done].
    set (found := limit _ _).
    assert (Hfound : forall p, p ∈ found ->
        p ∈ profiles w /\
        UserProfile.conference p = Conference._id conference /\
        UserProfile.isActive p = true /\
        UserProfile.onboardingCompleted p = true /\
        (forall r, role = Some r -> r <> "" -> r ∈ default [] (UserProfile.roles p))).
    { intros p Hp. apply limit_subset, list_elem_of_In, filter_In in Hp as [Hin Hq].
      unfold MatchingService.query in Hq. rewrite !andb_true_iff in Hq.
      destruct Hq as (((Hc & Ha) & Ho) & Hr). rewrite bool_decide_eq_true in Hc.
      split; [by apply list_elem_of_In|]. do 3 (split; [done|]).
      intros r -> Hne. unfold MatchingService.role_given in Hr.
      assert (Ht : JsString.truthy r = true) by (destruct r; [by destruct Hne|done]).
      rewrite Ht in Hr. unfold MatchingService.has_role in Hr.
      by apply bool_decide_eq_true in Hr. }
    assert (Hlen : 0 < default 20 lim -> length found <= default 20 lim)
      by apply limit_length.
    destruct (MatchingService.text_given text) as [t|] eqn:Ht.
    + intros [= <- <- <-]. split; [done|]. split; [by exists slot|]. split; [done|].
      split; [|split].
      * intros p Hp. apply Hfound. apply list_elem_of_In, filter_In in Hp as [Hp _].
        by apply list_elem_of_In.
      * intros Hpos. specialize (Hlen Hpos).
        pose proof (List.filter_length_le (MatchingService.text_matches t) found). lia.
      * intros tx -> Hnb p Hp. rewrite (text_given_nonblank tx Hnb) in Ht.
        injection Ht as <-.
        apply list_elem_of_In, filter_In in Hp as [_ Hm].
        unfold MatchingService.text_matches in Hm.
        apply existsb_exists in Hm as (val & Hval & Hinc).
        apply includes_iff in Hinc as (a & b & Hab).
        exists val, a, b. split; [by apply list_elem_of_In|done].
    + intros [= <- <- <-]. split; [done|]. split; [by exists slot|]. split; [done|].
      split; [done|]. split; [done|].
      intros tx -> Hnb. by rewrite (text_given_nonblank tx Hnb) in Ht.
  - exists (mkWorld [Sample.devcon]
                    [Sample.profile 11%N "100" []; Sample.profile 12%N "200" ["AI"];
                     Sample.profile 13%N "300" ["AI"]] None), Sample.devcon.
    exists [Sample.profile 12%N "200" ["AI"]].
    assert (Hm : forall id t,
              MatchingService.text_matches (JsString.toLowerCase "AI")
                                           (Sample.profile id t ["AI"]) = true).
    { intros id t. unfold MatchingService.text_matches. simpl. by rewrite includes_refl. }
    split; [|split].
    + rewrite searchProfiles_eq.
      change (findOne _ _) with (Some (0, Sample.devcon)). cbv zeta.
      change (MatchingService.text_given (Some " AI ")) with (Some (JsString.toLowerCase "AI")).
      simpl. by rewrite Hm.
    + simpl. lia.
    + simpl. rewrite !Hm. simpl. lia.
Qed.

End MatchingProperties.

Section MatchingExamples.

#[local] Existing Instance Sample.engine.

(** With [limit] 0 every matching profile comes back: the bound as worded
    fails. *)
Lemma search_returns_at_most_limit_fails : ~ search_returns_at_most_limit.
Proof.
  intros H.
  specialize (H Sample.engine "abc123" None None (Some 0) (Sample.world None) Sample.devcon
                (profiles (Sample.world None)) (Sample.world None)).
  assert (Hle : 3 <= 0); [|lia].
  apply H. rewrite searchProfiles_eq. reflexivity.
Qed.

Lemma searchProfiles_spec_witness :
  MatchingService.searchProfiles "abc123" (Some "participant") (Some " AI ") (Some 2)
    (Sample.world None)
  = (Ok (Sample.devcon, [Sample.profile 11%N "100" ["AI"]]), Sample.world None) /\
  length [Sample.profile 11%N "100" ["AI"]] <= 2 /\
  exists val a b,
    val ∈ MatchingService.fields (Sample.profile 11%N "100" ["AI"]) /\
    JsString.toLowerCase val = a +:+ "ai" +:+ b.
Proof.
  assert (Hrun : MatchingService.searchProfiles "abc123" (Some "participant") (Some " AI ")
                   (Some 2) (Sample.world None)
                 = (Ok (Sample.devcon, [Sample.profile 11%N "100" ["AI"]]), Sample.world None)).
  { rewrite searchProfiles_eq. reflexivity. }
  destruct (searchProfiles_spec "abc123" (Some "participant") (Some " AI ") (Some 2)
              (Sample.world None)) as [H _].
  destruct (H _ _ _ Hrun) as (_ & _ & _ & _ & Hlen & Htext).
  split; [exact Hrun|]. split.
  - apply Hlen. simpl. lia.
  - apply (Htext " AI "); [reflexivity| |].
    + vm_compute. discriminate.
    + apply list_elem_of_singleton. reflexivity.
Defined.

End MatchingExamples.

(** ** Polls: one vote per voter *)

Lemma has_voted_false_iff voter p :
  PollEngine.has_voted voter p = false <-> PollEngine.voted_options voter p = 0.
Proof.
  unfold PollEngine.has_voted, PollEngine.voted_options.
  induction (Poll.options p) as [|o os IH]; simpl; [done|].
  destruct (bool_decide (voter ∈ Poll.voters o)); simpl; [done|]. apply IH.
Qed.

Lemma add_voter_count voter o os :
  length (List.filter (fun x => bool_decide (voter ∈ Poll.voters x)) os) = 0 ->
  length (List.filter (fun x => bool_decide (voter ∈ Poll.voters x))
                      (PollEngine.add_voter voter o os)) <= 1.
Proof.
  induction os as [|x os IH]; simpl; [lia|].
  destruct (bool_decide (voter ∈ Poll.voters x)) eqn:Hx; simpl; [lia|].
  intros H0. destruct (bool_decide (Poll.id x = o)); simpl.
  - rewrite bool_decide_eq_true_2 by set_solver. simpl. lia.
  - rewrite Hx. by apply IH.
Qed.

Lemma add_voter_records voter o os :
  existsb (fun x => bool_decide (Poll.id x = o)) os = true ->
  existsb (fun x => bool_decide (voter ∈ Poll.voters x))
          (PollEngine.add_voter voter o os) = true.
Proof.
  induction os as [|x os IH]; simpl; [done|].
  destruct (bool_decide (Poll.id x = o)); simpl.
  - intros _. rewrite bool_decide_eq_true_2 by set_solver. done.
  - intros H. rewrite (IH H). apply orb_true_r.
Qed.

(** What a vote attempt leaves behind. *)
Lemma voteInPoll_inv voter pollId o polls r polls' p :
  PollEngine.voteInPoll voter pollId o polls = (r, polls') ->
  polls !! pollId = Some p ->
  PollEngine.voted_options voter p <= 1 ->
  exists p', polls' !! pollId = Some p' /\ PollEngine.voted_options voter p' <= 1.
Proof.
  unfold PollEngine.voteInPoll. intros H Hp Hle. rewrite Hp in H.
  destruct (negb (Poll.isActive p)); [injection H as _ <-; eauto|].
  destruct (PollEngine.has_voted voter p) eqn:Hv; [injection H as _ <-; eauto|].
  destruct o as [o|]; [|injection H as _ <-; eauto].
  destruct (PollEngine.has_option o p); [|injection H as _ <-; eauto].
  injection H as _ <-. eexists. split; [apply lookup_insert_eq|].
  apply has_voted_false_iff in Hv.
  unfold PollEngine.voted_options, PollEngine.record_vote. simpl.
  by apply add_voter_count.
Qed.

(** A counted vote is on record, and the poll it was cast in is active. *)
Lemma voteInPoll_Ok voter pollId o polls p1 polls1 :
  PollEngine.voteInPoll voter pollId o polls = (Ok p1, polls1) ->
  polls1 !! pollId = Some p1 /\ Poll.isActive p1 = true /\
  PollEngine.has_voted voter p1 = true /\
  exists p, polls !! pollId = Some p /\ PollEngine.has_voted voter p = false.
Proof.
  unfold PollEngine.voteInPoll. intros H.
  destruct (polls !! pollId) as [p|] eqn:Hp; [|done].
  destruct (negb (Poll.isActive p)) eqn:Ha; [done|].
  destruct (PollEngine.has_voted voter p) eqn:Hv; [done|].
  destruct o as [o|]; [|done].
  destruct (PollEngine.has_option o p) eqn:Ho; [|done].
  injection H as <- <-. split; [apply lookup_insert_eq|].
  split; [simpl; by destruct (Poll.isActive p)|].
  split; [|by exists p].
  unfold PollEngine.has_voted, PollEngine.record_vote. simpl.
  by apply add_voter_records.
Qed.

(** [vote:poll], path by path. *)
Lemma vote_poll_eq from pollId optionId s :
  vote_poll from pollId optionId s =
  match PollEngine.voteInPoll (from_id from) pollId (ParseInt.parseInt optionId)
                              (Bot.world s) with
  | (Ok poll, polls') =>
      let selectedOption :=
        List.find (fun opt => bool_decide (Some (Poll.id opt) = ParseInt.parseInt optionId))
                  (Poll.options poll) in
      (Ok tt,
       Bot.mkState polls' (Bot.userState s) (Bot.onboardingState s)
         ((Bot.outbox s ++ [AnswerCbQuery]) ++
          [EditMessageText
             (MsgVoteCounted (Poll.question poll) (Poll.text <$> selectedOption)
                             ((fun o => size (Poll.voters o)) <$> selectedOption))
             UserMenu])
         (Bot.console s))
  | (Throw err, polls') =>
      (Ok tt,
       Bot.mkState polls' (Bot.userState s) (Bot.onboardingState s)
         ((Bot.outbox s ++ [AnswerCbQuery]) ++
          [EditMessageText
             (if bool_decide (message err = "ALREADY_VOTED") ||
                 bool_decide (message err = "VOTE_FAILED")
              then MsgAlreadyVoted else MsgVoteFailed)
             UserMenu])
         (Bot.console s ++ [("Error in vote:poll", err)]))
  end.
Proof.
  unfold vote_poll, Bot.action_vote_poll, bind at 1, Bot.send, modify.
  unfold try_catch, bind at 1, Bot.on_world. simpl.
  destruct (PollEngine.voteInPoll _ _ _ _) as [[poll|err] polls']; done.
Qed.

(** C1. Whatever sequence of vote attempts a voter makes on a poll through
    the [vote:poll] action, the voter is in the voter set of at most one
    option of that poll; and after a counted vote every further attempt of
    that voter on that poll, whatever the option, fails with
    [ALREADY_VOTED], is answered so, and leaves the polls, hence every
    tally, as they were. *)
Theorem one_vote_per_voter from pollId :
  (forall optionIds s p,
     Bot.world s !! pollId = Some p ->
     PollEngine.voted_options (from_id from) p <= 1 ->
     exists p', Bot.world (vote_attempts from pollId optionIds s) !! pollId = Some p' /\
                PollEngine.voted_options (from_id from) p' <= 1) /\
  (forall polls o1 p1 polls1,
     PollEngine.voteInPoll (from_id from) pollId o1 polls = (Ok p1, polls1) ->
     forall o2,
       PollEngine.voteInPoll (from_id from) pollId o2 polls1
         = (Throw (Err "ALREADY_VOTED"), polls1) /\
       forall s1 optionId, Bot.world s1 = polls1 ->
         vote_poll from pollId optionId s1 =
         (Ok tt,
          Bot.mkState polls1 (Bot.userState s1) (Bot.onboardingState s1)
            ((Bot.outbox s1 ++ [AnswerCbQuery]) ++ [EditMessageText MsgAlreadyVoted UserMenu])
            (Bot.console s1 ++ [("Error in vote:poll", Err "ALREADY_VOTED")])) /\
         (forall p, Bot.world (snd (vote_poll from pollId optionId s1)) !! pollId = Some p ->
                    PollEngine.tallies p = PollEngine.tallies p1)).
Proof.
  assert (Hagain : forall polls o1 p1 polls1,
     PollEngine.voteInPoll (from_id from) pollId o1 polls = (Ok p1, polls1) ->
     forall o2, PollEngine.voteInPoll (from_id from) pollId o2 polls1
                = (Throw (Err "ALREADY_VOTED"), polls1)).
  { intros polls o1 p1 polls1 H o2.
    apply voteInPoll_Ok in H as (Hp1 & Ha & Hv & _).
    unfold PollEngine.voteInPoll. by rewrite Hp1, Ha, Hv. }
  split.
  - induction optionIds as [|o os IH]; intros s p Hp Hle; simpl; [eauto|].
    pose proof (vote_poll_eq from pollId o s) as Heq.
    destruct (PollEngine.voteInPoll _ _ _ _) as [r polls'] eqn:Hv.
    destruct (voteInPoll_inv _ _ _ _ _ _ _ Hv Hp Hle) as (p' & Hp' & Hle').
    apply (IH _ p'); [|done].
    rewrite Heq. by destruct r.
  - intros polls o1 p1 polls1 H o2. split; [by eapply Hagain|].
    intros s1 optionId Hw.
    pose proof (vote_poll_eq from pollId optionId s1) as Heq.
    rewrite Hw, (Hagain _ _ _ _ H) in Heq. simpl in Heq.
    split; [done|].
    intros p. rewrite Heq. simpl.
    apply voteInPoll_Ok in H as (Hp1 & _). rewrite Hp1. by intros [= <-].
Qed.

(** The scenario of the specification: X votes for lunch, then for dinner. *)
Lemma one_vote_per_voter_witness :
  let first := PollEngine.voteInPoll 42 "p1" (Some 0%Z) Sample.polls in
  let second := PollEngine.voteInPoll 42 "p1" (Some 1%Z) (snd first) in
  second = (Throw (Err "ALREADY_VOTED"), snd first) /\
  (PollEngine.tallies <$> snd second !! "p1") = Some [1; 0].
Proof.
  destruct (one_vote_per_voter Sample.x "p1") as [_ H].
  destruct (PollEngine.voteInPoll 42 "p1" (Some 0%Z) Sample.polls) as [[p1|e] polls1] eqn:H1.
  - destruct (H _ _ _ _ H1 (Some 1%Z)) as [H2 _].
    change (from_id Sample.x) with 42%Z in H2.
    cbv zeta. cbn [snd]. rewrite H2. split; [done|]. cbn [snd].
    vm_compute in H1. injection H1 as <- <-. vm_compute. reflexivity.
  - vm_compute in H1. discriminate H1.
Defined.

(** ** The dialog engine *)

Section BotProperties.

Context {W : Type}.
Context {engine : JsString.Engine}.
Variable validate_profile : ProfileData -> Result ProfileData.
Variable ensureUserFromTelegram : From -> W -> User.t * W.
Variable userIsMainAdmin : User.t -> bool.
Variable listConferencesForUser : User.t -> W -> list Conference.t.
Variable joinConference : From -> string -> M W (Conference.t * UserProfile.t).
Variable upsertProfileForConference :
  string -> option ObjectId -> ProfileData -> M W UserProfile.t.
Variable searchProfiles :
  option string -> option string -> option string -> option nat ->
  M W (Conference.t * list UserProfile.t).
Variable askQuestion : From -> option string -> string -> option string -> M W Conference.t.
Variable answerQuestion : User.t -> option string -> option string -> string -> M W Question.
Variable updateConference :
  option string -> User.t -> option string -> option string -> M W Conference.t.
Variable createPoll : User.t -> option string -> option string -> list string -> M W Poll.t.
Variable Poll_findById : option string -> W -> option Poll.t.
Variable Conference_findById : ObjectId -> W -> option Conference.t.
Variable updatePoll : User.t -> option string -> option string -> M W Poll.t.
Variable assignConferenceAdmin : User.t -> option string -> string -> M W unit.
Variable setSlide : User.t -> option string -> option string -> option string -> M W Conference.t.
Variable createConference : User.t -> string -> string -> M W Conference.t.

Local Abbreviation on_text :=
  (Bot.on_text validate_profile ensureUserFromTelegram userIsMainAdmin joinConference
     upsertProfileForConference searchProfiles askQuestion answerQuestion updateConference
     createPoll Poll_findById Conference_findById updatePoll assignConferenceAdmin setSlide
     createConference).

Local Abbreviation state_flow :=
  (Bot.state_flow ensureUserFromTelegram userIsMainAdmin joinConference searchProfiles
     askQuestion answerQuestion updateConference createPoll Poll_findById
     Conference_findById updatePoll assignConferenceAdmin setSlide createConference).

Local Abbreviation edit_poll_flow :=
  (Bot.edit_poll_flow ensureUserFromTelegram Poll_findById Conference_findById updatePoll).

Local Abbreviation edit_poll_try :=
  (Bot.edit_poll_try ensureUserFromTelegram Poll_findById Conference_findById updatePoll).

Local Abbreviation on_message :=
  (Bot.on_message validate_profile ensureUserFromTelegram userIsMainAdmin
     listConferencesForUser joinConference upsertProfileForConference searchProfiles
     askQuestion answerQuestion updateConference createPoll Poll_findById
     Conference_findById updatePoll assignConferenceAdmin setSlide createConference).

(** A text that is no label of the reply keyboard goes to the text
    handler. *)
Lemma on_message_text from message_text :
  Bot.is_label message_text = false ->
  on_message from message_text = on_text from message_text.
Proof.
  intros Hl. apply bool_decide_eq_false in Hl. unfold Bot.on_message.
  repeat (rewrite bool_decide_false;
          [|intros ->; apply Hl; unfold Bot.keyboard_labels; set_solver]).
  reflexivity.
Qed.

(** The cancel word, whatever the sessions. *)
Lemma on_text_cancel from message_text (s : Bot.State W) :
  JsString.startsWith message_text "/" = false ->
  Bot.is_cancel (JsString.trim message_text) = true ->
  on_text from message_text s =
  (Ok tt, replied MsgCancelled (MainMenu from) (cleared (from_id from) s)).
Proof. intros H1 H2. unfold Bot.on_text. by rewrite H1, H2. Qed.

(** A text that finds no session. *)
Lemma on_text_no_session from message_text (s : Bot.State W) :
  JsString.startsWith message_text "/" = false ->
  Bot.is_cancel (JsString.trim message_text) = false ->
  Bot.userState s !! from_id from = None ->
  Bot.onboardingState s !! from_id from = None ->
  on_text from message_text s = (Ok tt, replied MsgChooseFromMenu (MainMenu from) s).
Proof.
  intros H1 H2 H3 H4. unfold Bot.on_text. rewrite H1, H2.
  unfold bind, get. by rewrite H3, H4.
Qed.

(** C2. A text that is not a command and whose trimmed lower-case form is
    the cancel word, in either language, drops both sessions of the sender
    and does nothing else than confirm: the world, the console and every
    other sender's sessions are as before, whichever flow was active. This
    is what the text handler does with the text, and so what happens to the
    message as a whole, a label of the reply keyboard apart. The next free
    text of the sender finds no flow: unless it is a command, the cancel
    word again or a label of the reply keyboard, it gets the hint to use
    the menu. *)
Theorem cancel_clears_session from message_text (s : Bot.State W) :
  JsString.startsWith message_text "/" = false ->
  JsString.toLowerCase (JsString.trim message_text) = "cancel" \/
  JsString.toLowerCase (JsString.trim message_text) = "отмена" ->
  let s' := replied MsgCancelled (MainMenu from) (cleared (from_id from) s) in
  on_text from message_text s = (Ok tt, s') /\
  (Bot.is_label message_text = false -> on_message from message_text s = (Ok tt, s')) /\
  Bot.userState s' !! from_id from = None /\
  Bot.onboardingState s' !! from_id from = None /\
  (forall other, other <> from_id from ->
     Bot.userState s' !! other = Bot.userState s !! other /\
     Bot.onboardingState s' !! other = Bot.onboardingState s !! other) /\
  Bot.world s' = Bot.world s /\
  Bot.console s' = Bot.console s /\
  (forall next,
     JsString.startsWith next "/" = false ->
     Bot.is_cancel (JsString.trim next) = false ->
     on_text from next s' = (Ok tt, replied MsgChooseFromMenu (MainMenu from) s') /\
     (Bot.is_label next = false ->
      on_message from next s' = (Ok tt, replied MsgChooseFromMenu (MainMenu from) s'))).
Proof.
  intros Hcmd Hword s'.
  assert (Hc : Bot.is_cancel (JsString.trim message_text) = true).
  { unfold Bot.is_cancel. destruct Hword as [-> | ->]; done. }
  split; [by apply on_text_cancel|].
  split; [intros Hl; rewrite (on_message_text _ _ Hl); by apply on_text_cancel|].
  assert (Hu : Bot.userState s' !! from_id from = None) by apply lookup_delete_eq.
  assert (Ho : Bot.onboardingState s' !! from_id from = None) by apply lookup_delete_eq.
  do 2 (split; [done|]).
  split.
  { intros other Hne. subst s'. simpl. by rewrite !lookup_delete_ne. }
  do 2 (split; [done|]).
  intros next Hn1 Hn2.
  split; [by apply on_text_no_session|].
  intros Hl. rewrite (on_message_text _ _ Hl). by apply on_text_no_session.
Qed.


Lemma state_flow_edit_poll from text state :
  flow state = "edit_poll" -> step state = Some "enter_question" ->
  state_flow from text state = edit_poll_flow from text state.
Proof.
  intros Hf Hs. unfold Bot.state_flow, Bot.is_step. rewrite Hf, Hs. reflexivity.
Qed.

Lemma edit_poll_try_throws from text state (s : Bot.State W) :
  edit_poll_try from text state s =
  (Throw (ReferenceError "joinState"),
   Bot.mkState (snd (ensureUserFromTelegram from (Bot.world s)))
               (Bot.userState s) (Bot.onboardingState s) (Bot.outbox s) (Bot.console s)).
Proof.
  unfold Bot.edit_poll_try, bind at 1, Bot.ensureUser, Bot.on_world.
  by destruct (ensureUserFromTelegram from (Bot.world s)).
Qed.

(** C9. In the step [enter_question] of the flow [edit_poll], every text
    that is neither a command nor the cancel word makes the handler read the
    undeclared [joinState]: a [ReferenceError] is raised, logged and
    answered with the failure message. The session stays as it was, and the
    outcome is the same whatever [updatePoll] and [Poll.findById] would do:
    they are never reached, so the flow updates no poll. *)
Theorem edit_poll_step_never_updates from message_text state (s : Bot.State W) :
  JsString.startsWith message_text "/" = false ->
  Bot.is_cancel (JsString.trim message_text) = false ->
  Bot.userState s !! from_id from = Some state ->
  flow state = "edit_poll" ->
  step state = Some "enter_question" ->
  fst (edit_poll_try from (JsString.trim message_text) state s)
    = Throw (ReferenceError "joinState") /\
  on_text from message_text s =
  (Ok tt,
   Bot.mkState (snd (ensureUserFromTelegram from (Bot.world s)))
               (Bot.userState s) (Bot.onboardingState s)
               (Bot.outbox s ++ [Reply MsgPollUpdateFailed NoMarkup])
               (Bot.console s ++ [("Error in edit_poll flow", ReferenceError "joinState")])) /\
  Reply MsgPollUpdated (MainMenu from) ∉
    drop (length (Bot.outbox s)) (Bot.outbox (snd (on_text from message_text s))).
Proof.
  intros H1 H2 H3 Hf Hs.
  assert (Heq : on_text from message_text s =
    (Ok tt,
     Bot.mkState (snd (ensureUserFromTelegram from (Bot.world s)))
                 (Bot.userState s) (Bot.onboardingState s)
                 (Bot.outbox s ++ [Reply MsgPollUpdateFailed NoMarkup])
                 (Bot.console s ++ [("Error in edit_poll flow", ReferenceError "joinState")]))).
  { unfold Bot.on_text. rewrite H1, H2. unfold bind at 1, get. rewrite H3.
    rewrite (state_flow_edit_poll _ _ _ Hf Hs).
    unfold Bot.edit_poll_flow, try_catch. rewrite edit_poll_try_throws. done. }
  split; [by rewrite edit_poll_try_throws|]. split; [done|].
  rewrite Heq. simpl. rewrite drop_app_length.
  intros Hin. apply list_elem_of_singleton in Hin. discriminate Hin.
Qed.

End BotProperties.

Section BotExamples.

#[local] Existing Instance Sample.engine.

Lemma cancel_clears_session_witness :
  let text := JsString.of_bytes [194; 160]%N +:+ "Отмена " in
  Sample.on_text Sample.x text Sample.editing =
  (Ok tt, replied MsgCancelled (MainMenu Sample.x) (cleared 42 Sample.editing)) /\
  Sample.on_message Sample.x text Sample.editing =
  (Ok tt, replied MsgCancelled (MainMenu Sample.x) (cleared 42 Sample.editing)) /\
  sessions 42 Sample.editing = 2 /\
  sessions 42 (snd (Sample.on_message Sample.x text Sample.editing)) = 0.
Proof.
  cbv zeta.
  destruct (@cancel_clears_session (list Conference.t) Sample.engine Sample.validate_profile
              Sample.ensureUserFromTelegram Sample.userIsMainAdmin
              Sample.listConferencesForUser
              (fun _ _ => throw (Err "CONFERENCE_NOT_FOUND"))
              (fun _ _ _ => throw (Err "MISSING_KEYS"))
              (fun _ _ _ _ => throw (Err "CONFERENCE_NOT_FOUND"))
              (fun _ _ _ _ => throw (Err "CONFERENCE_NOT_FOUND"))
              (fun _ _ _ _ => throw (Err "NOT_SPEAKER"))
              (fun _ _ _ _ => throw (Err "CONFERENCE_NOT_FOUND"))
              (fun _ _ _ _ => throw (Err "CONFERENCE_NOT_FOUND"))
              (fun _ _ => None)
              (fun _ _ => None)
              (fun _ _ _ => throw (Err "POLL_NOT_FOUND"))
              (fun _ _ _ => throw (Err "ACCESS_DENIED"))
              (fun _ _ _ _ => throw (Err "CONFERENCE_NOT_FOUND"))
              (fun _ _ _ => throw (Err "ACCESS_DENIED"))
              Sample.x (JsString.of_bytes [194; 160]%N +:+ "Отмена ") Sample.editing
              eq_refl (or_intror eq_refl)) as (Ht & Hm & _).
  split; [exact Ht|]. split; [exact (Hm eq_refl)|].
  split; vm_compute; reflexivity.
Defined.



Lemma edit_poll_step_never_updates_witness :
  Sample.on_text Sample.x "Lunch, dinner or both?" Sample.editing =
  (Ok tt,
   Bot.mkState [Sample.devcon] (Bot.userState Sample.editing)
               (Bot.onboardingState Sample.editing)
               [Reply MsgPollUpdateFailed NoMarkup]
               [("Error in edit_poll flow", ReferenceError "joinState")]).
Proof.
  eapply (@edit_poll_step_never_updates (list Conference.t)); reflexivity.
Defined.

End BotExamples.

(** *** Starting a flow *)

Ltac one_session :=
  unfold sessions; simpl;
  rewrite ?lookup_insert_eq, ?lookup_delete_eq; simpl; lia.

(** The handlers that clear before they set leave the sender with one
    session at most, the new one. *)
Lemma starters_that_clear {W} (ensure : From -> W -> User.t * W)
    (list_ : User.t -> W -> list Conference.t) from code arg (s : Bot.State W) :
  let id := from_id from in
  sessions id (snd (Bot.action_menu_join_conference from s)) = 1 /\
  sessions id (snd (Bot.action_menu_onboarding from s)) = 1 /\
  sessions id (snd (Bot.action_admin_create_poll from code s)) = 1 /\
  sessions id (snd (Bot.action_speaker_create_poll from code s)) = 1 /\
  sessions id (snd (Bot.action_poll_edit from arg s)) = 1 /\
  sessions id (snd (Bot.action_admin_set_slide from code s)) = 1 /\
  sessions id (snd (Bot.action_menu_admin_create_conference from s)) = 1 /\
  sessions id (snd (Bot.action_admin_assign_admin from code s)) = 1 /\
  sessions id (snd (Bot.action_admin_edit_conf from code s)) = 1 /\
  sessions id (snd (Bot.action_speaker_answer from code arg s)) = 1 /\
  sessions id (snd (Bot.action_ask_speaker from code arg s)) = 1 /\
  sessions id (snd (Bot.hears_join from s)) = 1 /\
  sessions id (snd (Bot.hears_profile from s)) = 1 /\
  sessions id (snd (Bot.action_menu_ask_question ensure list_ from s)) <= 1 /\
  sessions id (snd (Bot.action_menu_find_participants ensure list_ from s)) <= 1 /\
  sessions id (snd (Bot.action_menu_polls ensure list_ from s)) <= 1.
Proof.
  intros id. subst id.
  repeat split; try one_session.
  - unfold Bot.action_menu_ask_question, bind, Bot.ensureUser, Bot.listConferences,
      Bot.on_world. simpl.
    destruct (ensure from (Bot.world s)) as [u w']. simpl.
    destruct (length (list_ u w') =? 0); one_session.
  - unfold Bot.action_menu_find_participants, bind, Bot.ensureUser, Bot.listConferences,
      Bot.on_world. simpl.
    destruct (ensure from (Bot.world s)) as [u w']. simpl.
    destruct (length (list_ u w') =? 0); one_session.
  - unfold Bot.action_menu_polls, bind, Bot.ensureUser, Bot.listConferences,
      Bot.on_world. simpl.
    destruct (ensure from (Bot.world s)) as [u w']. simpl.
    destruct (length (list_ u w') =? 0); one_session.
Qed.

(** C3, at the input that breaks it. X opens the profile form with the
    reply-keyboard button, then presses the question button of the same
    keyboard. [bot.hears] for the question button sets [userState] without
    calling [clearUserState]: the onboarding session is still there, and X
    holds two sessions. The inline button for the same flow,
    [menu:ask_question], clears first and leaves one. *)
Lemma question_button_keeps_onboarding :
  Bot.userState profile_then_question !! 42%Z
    = Some (flow_state "ask_question" (Some "select_conference") None) /\
  Bot.onboardingState profile_then_question !! 42%Z = Some (mkOnboarding 1 empty_data) /\
  sessions 42 profile_then_question = 2 /\
  sessions 42 (snd (Bot.action_menu_ask_question Sample.ensureUserFromTelegram
                      Sample.listConferencesForUser Sample.x
                      (snd (Bot.hears_profile Sample.x Sample.idle)))) = 1.
Proof. vm_compute. done. Qed.

(** ** The primitives on examples *)

Section PrimitiveExamples.

#[local] Existing Instance Sample.engine.

Local Abbreviation nbsp := (JsString.of_bytes [194; 160]%N).

(** The twenty-five white space characters of ECMAScript, and two that are
    none: U+0085 and U+200B. *)
Example ws_len_ex :
  map (fun l => JsString.ws_len (JsString.of_bytes l))
      [[9]; [10]; [11]; [12]; [13]; [32]; [194; 160]; [225; 154; 128];
       [226; 128; 128]; [226; 128; 129]; [226; 128; 130]; [226; 128; 131];
       [226; 128; 132]; [226; 128; 133]; [226; 128; 134]; [226; 128; 135];
       [226; 128; 136]; [226; 128; 137]; [226; 128; 138]; [226; 128; 168];
       [226; 128; 169]; [226; 128; 175]; [226; 129; 159]; [227; 128; 128];
       [239; 187; 191]; [194; 133]; [226; 128; 139]]%N
  = [1; 1; 1; 1; 1; 1; 2; 3; 3; 3; 3; 3; 3; 3; 3; 3; 3; 3; 3; 3; 3; 3; 3; 3; 3; 0; 0].
Proof. reflexivity. Qed.

Example trim_ex : JsString.trim "  Cancel " = "Cancel".
Proof. reflexivity. Qed.

Example trim_unicode_ex :
  JsString.trim (nbsp +:+ "can cel" +:+ JsString.of_bytes [226; 128; 137; 10]%N) = "can cel".
Proof. reflexivity. Qed.

Example splitWs_unicode_ex :
  JsString.splitWs ("Ivan" +:+ nbsp +:+ " van" +:+ JsString.of_bytes [227; 128; 128]%N
                    +:+ "Ivanov")
  = ["Ivan"; "van"; "Ivanov"].
Proof. reflexivity. Qed.

Example splitWs_edges_ex : JsString.splitWs " a " = [""; "a"; ""].
Proof. reflexivity. Qed.

Example toLowerCase_latin_ex : JsString.toLowerCase "CanCel" = "cancel".
Proof. reflexivity. Qed.

Example toLowerCase_cyrillic_ex : JsString.toLowerCase "ОТМена" = "отмена".
Proof. reflexivity. Qed.

Example splitWs_ex : JsString.splitWs "Ivan  van Ivanov" = ["Ivan"; "van"; "Ivanov"].
Proof. reflexivity. Qed.

Example comma_list_ex : Bot.comma_list "AI, Web3,, Product " = ["AI"; "Web3"; "Product"].
Proof. reflexivity. Qed.

Example words_ex : Bot.words "https://example.com/s.png  My  slide"
                   = ["https://example.com/s.png"; "My"; "slide"].
Proof. reflexivity. Qed.

Example parseInt_ex : map ParseInt.parseInt ["1"; " 12abc"; "-3"; "abc"; ""]
                      = [Some 1%Z; Some 12%Z; Some (-3)%Z; None; None].
Proof. reflexivity. Qed.

Example is_cancel_ex :
  map (fun t => Bot.is_cancel (JsString.trim t))
      ["cancel"; " ОТМЕНА"; nbsp +:+ "Cancel"; "Cancel it"; "stop"]
  = [true; true; true; false; false].
Proof. reflexivity. Qed.

Example remove_first_ex :
  Bot.remove_first "VALIDATION_ERROR: " "VALIDATION_ERROR: name is empty" = "name is empty".
Proof. reflexivity. Qed.

End PrimitiveExamples.

(** * Further properties of the services *)

Lemma findOne_from_insert {A} (P : A -> bool) l k i x y :
  findOne_from P k l = Some (i, x) -> P y = true ->
  findOne_from P k (<[i - k := y]> l) = Some (i, y).
Proof.
  revert k. induction l as [|z l IH]; intros k H Hy; simpl in H; [done|].
  destruct (P z) eqn:Hz.
  - injection H as <- <-. rewrite Nat.sub_diag. simpl. by rewrite Hy.
  - pose proof (findOne_from_Some _ _ _ _ _ H) as (Hle & _).
    replace (i - k) with (S (i - S k)) by lia. simpl. rewrite Hz.
    by apply IH.
Qed.

(** A document saved back to its slot is what [findOne] finds next. *)
Lemma findOne_insert {A} (P : A -> bool) l i x y :
  findOne P l = Some (i, x) -> P y = true -> findOne P (<[i := y]> l) = Some (i, y).
Proof.
  intros H Hy. pose proof (findOne_from_insert P l 0 i x y H Hy) as H'.
  by rewrite Nat.sub_0_r in H'.
Qed.

Lemma findOne_from_app_new {A} (P : A -> bool) l k y :
  findOne_from P k l = None -> P y = true ->
  findOne_from P k (l ++ [y]) = Some (k + length l, y).
Proof.
  revert k. induction l as [|z l IH]; intros k H Hy; simpl in *.
  - rewrite Hy. by rewrite Nat.add_0_r.
  - destruct (P z); [done|]. rewrite (IH _ H Hy). f_equal. f_equal. lia.
Qed.

(** A document appended to a collection that had no match is the match. *)
Lemma findOne_app_new {A} (P : A -> bool) l y :
  findOne P l = None -> P y = true -> findOne P (l ++ [y]) = Some (length l, y).
Proof. intros H Hy. by apply (findOne_from_app_new P l 0 y). Qed.

Section SlideFurther.

Variable userIsMainAdmin : User.t -> bool.
Variable validate_slide : SlideInput -> Result SlideData.

Local Abbreviation setSlide := (SlideService.setSlide userIsMainAdmin validate_slide).
Local Abbreviation clearSlide := (SlideService.clearSlide userIsMainAdmin).
Local Abbreviation moderator := (may_moderate userIsMainAdmin).

Lemma moderator_frame user c0 c w w' :
  profiles w' = profiles w ->
  Conference._id c = Conference._id c0 ->
  Conference.admins c = Conference.admins c0 ->
  moderator user c w' = moderator user c0 w.
Proof. intros Hp Hi Ha. unfold may_moderate. by rewrite Hp, Hi, Ha. Qed.

(** X1. Of the fields the schema of a conference declares, a successful
    [setSlide] writes the two slide fields of the one conference it
    resolved and no other: every other conference document, every profile,
    and the identifier, title, description, code, access, dates, flags and
    admins of the conference itself are as before. (The [updatedAt] stamp
    that [save()] rewrites is not a declared field and not in the record.) *)
Theorem setSlide_writes_only_the_slide user code url title w c w' :
  setSlide user code url title w = (Ok c, w') ->
  exists slot c0 v,
    validate_slide (mkSlideInput url (or_empty title) code) = Ok v /\
    conferences w !! slot = Some c0 /\
    c = Conference.with_slide c0 (Some (sd_url v)) (Some (sd_title v)) /\
    conferences w' = <[slot := c]> (conferences w) /\
    length (conferences w') = length (conferences w) /\
    (forall j, j <> slot -> conferences w' !! j = conferences w !! j) /\
    profiles w' = profiles w /\
    Conference._id c = Conference._id c0 /\
    Conference.title c = Conference.title c0 /\
    Conference.description c = Conference.description c0 /\
    Conference.conferenceCode c = Conference.conferenceCode c0 /\
    Conference.access c = Conference.access c0 /\
    Conference.startsAt c = Conference.startsAt c0 /\
    Conference.endsAt c = Conference.endsAt c0 /\
    Conference.isActive c = Conference.isActive c0 /\
    Conference.isEnded c = Conference.isEnded c0 /\
    Conference.admins c = Conference.admins c0.
Proof.
  rewrite setSlide_eq.
  destruct (validate_slide _) as [v|e] eqn:Hv; [|done].
  destruct (findOne _ _) as [[slot c0]|] eqn:Hf; [|done].
  destruct (may_moderate _ _ _ _); [|done].
  intros [= <- <-]. apply findOne_Some in Hf as [Hl _].
  exists slot, c0, v. rewrite conferences_broadcast. unfold persisted. simpl.
  split; [done|]. split; [done|]. split; [done|]. split; [done|].
  split; [by rewrite length_insert|].
  split; [intros j Hj; by apply list_lookup_insert_ne|].
  split; [unfold broadcast; by destruct (ioInstance _)|]. done.
Qed.

(** The document a successful [setSlide] returns sits in the collection
    where the validated code finds it. *)
Lemma setSlide_saved user code url title w c w' v :
  validate_slide (mkSlideInput url (or_empty title) code) = Ok v ->
  setSlide user code url title w = (Ok c, w') ->
  exists slot,
    findOne (by_code (sd_conferenceCode v)) (conferences w') = Some (slot, c) /\
    Conference.currentSlideUrl c = Some (sd_url v) /\
    Conference.currentSlideTitle c = Some (sd_title v).
Proof.
  intros Hv. rewrite setSlide_eq, Hv.
  destruct (findOne _ _) as [[slot c0]|] eqn:Hf; [|done].
  destruct (may_moderate _ _ _ _); [|done].
  intros [= <- <-]. exists slot. split; [|done].
  rewrite conferences_broadcast. unfold persisted. simpl.
  apply (findOne_insert _ _ _ c0); [done|].
  apply findOne_Some in Hf as [_ Hc]. done.
Qed.

(** X2. What [setSlide] saved is what the next lookup by the same code
    reads: after a successful [setSlide], [Conference.findOne] on the
    validated code returns the returned document, with the new url and
    title. *)
Theorem setSlide_then_findOne user code url title w c w' v :
  validate_slide (mkSlideInput url (or_empty title) code) = Ok v ->
  setSlide user code url title w = (Ok c, w') ->
  exists slot,
    Conference_findOne (sd_conferenceCode v) w' = (Ok (Some (slot, c)), w') /\
    Conference.currentSlideUrl c = Some (sd_url v) /\
    Conference.currentSlideTitle c = Some (sd_title v).
Proof.
  intros Hv Hset.
  destruct (setSlide_saved _ _ _ _ _ _ _ _ Hv Hset) as (slot & Hfind & Hu & Ht).
  exists slot. split; [|done].
  unfold Conference_findOne. fold (by_code (sd_conferenceCode v)). by rewrite Hfind.
Qed.

(** X3. Clearing undoes setting. After a successful [setSlide], a
    [clearSlide] by the same user on the validated code succeeds, and the
    conference it leaves is the one a [clearSlide] on the original world
    would have left; with a socket server set, the two events went out in
    that order. *)
Theorem clearSlide_after_setSlide user code url title w c w' v :
  validate_slide (mkSlideInput url (or_empty title) code) = Ok v ->
  setSlide user code url title w = (Ok c, w') ->
  exists c' w'',
    clearSlide user (sd_conferenceCode v) w' = (Ok c', w'') /\
    fst (clearSlide user (sd_conferenceCode v) w) = Ok c' /\
    conferences w'' = conferences (snd (clearSlide user (sd_conferenceCode v) w)) /\
    Conference.currentSlideUrl c' = None /\
    Conference.currentSlideTitle c' = None /\
    (forall sent, ioInstance w = Some sent ->
       ioInstance w'' =
       Some (sent ++ [slide_updated (Conference._id c) (JString (sd_url v))
                                    (JString (sd_title v));
                      slide_updated (Conference._id c) JNull JNull])).
Proof.
  intros Hv Hset.
  destruct (setSlide_saved _ _ _ _ _ _ _ _ Hv Hset) as (slot & Hfind & _).
  rewrite setSlide_eq, Hv in Hset.
  destruct (findOne _ (conferences w)) as [[slot0 c0]|] eqn:Hf; [|done].
  destruct (may_moderate _ _ c0 w) eqn:Hm; [|done].
  injection Hset as <- <-.
  rewrite !clearSlide_eq, Hfind, Hf, Hm.
  assert (Hm' : moderator user
            (Conference.with_slide c0 (Some (sd_url v)) (Some (sd_title v)))
            (broadcast (slide_updated (Conference._id c0) (JString (sd_url v))
                                      (JString (sd_title v)))
                       (persisted slot0
                          (Conference.with_slide c0 (Some (sd_url v)) (Some (sd_title v)))
                          w)) = true).
  { rewrite <- Hm. apply moderator_frame; [|done|done].
    unfold broadcast. by destruct (ioInstance _). }
  simpl Conference._id in *. rewrite Hm'.
  assert (Hslot : slot = slot0).
  { rewrite conferences_broadcast in Hfind. unfold persisted in Hfind. simpl in Hfind.
    pose proof (findOne_Some _ _ _ _ Hf) as [_ Hc0].
    rewrite (findOne_insert _ _ _ c0 _ Hf) in Hfind; [by injection Hfind|done]. }
  subst slot. eexists _, _. split; [reflexivity|].
  split; [done|]. split.
  { simpl. rewrite !conferences_broadcast. unfold persisted. simpl.
    rewrite conferences_broadcast. simpl. by rewrite list_insert_insert_eq. }
  split; [done|]. split; [done|].
  intros sent Hio. unfold broadcast, persisted. simpl. rewrite Hio. simpl.
  by rewrite <- app_assoc.
Qed.

End SlideFurther.

Lemma sample_setSlide io :
  SlideService.setSlide Sample.userIsMainAdmin Sample.validate_slide Sample.root
    "abc123" (Some "https://example.com/slide.png") (Some "Intro") (Sample.world io)
  = (Ok devcon_with_slide, world_with_slide io).
Proof. rewrite setSlide_eq. reflexivity. Qed.

Lemma setSlide_writes_only_the_slide_witness :
  profiles (world_with_slide None) = profiles (Sample.world None) /\
  Conference.admins devcon_with_slide = [11%N] /\
  length (conferences (world_with_slide None)) = 1.
Proof.
  destruct (setSlide_writes_only_the_slide _ _ _ _ _ _ _ _ _ (sample_setSlide None))
    as (slot & c0 & v & _ & Hc0 & _ & _ & Hlen & _ & Hp &
        _ & _ & _ & _ & _ & _ & _ & _ & _ & Ha).
  split; [exact Hp|]. split; [|exact Hlen].
  rewrite Ha. destruct slot as [|slot]; [|destruct slot; discriminate Hc0].
  injection Hc0 as <-. reflexivity.
Defined.

Lemma setSlide_then_findOne_witness :
  exists slot,
    Conference_findOne "abc123" (world_with_slide None)
    = (Ok (Some (slot, devcon_with_slide)), world_with_slide None) /\
    Conference.currentSlideUrl devcon_with_slide = Some "https://example.com/slide.png" /\
    Conference.currentSlideTitle devcon_with_slide = Some "Intro".
Proof.
  apply (setSlide_then_findOne Sample.userIsMainAdmin Sample.validate_slide Sample.root
           "abc123" (Some "https://example.com/slide.png") (Some "Intro") (Sample.world None)
           devcon_with_slide (world_with_slide None)
           (mkSlideData "https://example.com/slide.png" "Intro" "abc123")).
  - reflexivity.
  - apply sample_setSlide.
Defined.

Lemma clearSlide_after_setSlide_witness :
  exists c' w'',
    SlideService.clearSlide Sample.userIsMainAdmin Sample.root "abc123" (world_with_slide (Some []))
    = (Ok c', w'') /\
    Conference.currentSlideUrl c' = None /\
    ioInstance w'' =
    Some [slide_updated 1%N (JString "https://example.com/slide.png") (JString "Intro");
          slide_updated 1%N JNull JNull].
Proof.
  destruct (clearSlide_after_setSlide Sample.userIsMainAdmin Sample.validate_slide Sample.root
              "abc123" (Some "https://example.com/slide.png") (Some "Intro")
              (Sample.world (Some [])) devcon_with_slide (world_with_slide (Some []))
              (mkSlideData "https://example.com/slide.png" "Intro" "abc123")
              eq_refl (sample_setSlide (Some [])))
    as (c' & w'' & Hrun & _ & _ & Hu & _ & Hio).
  exists c', w''. split; [exact Hrun|]. split; [exact Hu|].
  apply (Hio []). reflexivity.
Defined.

(** X4. With a socket server set, [emitToConference] adds exactly one
    message behind those already sent, in a room that names the conference
    and no other, and touches neither collection. *)
Theorem emitToConference_room id ev pl w sent :
  ioInstance w = Some sent ->
  exists e,
    Realtime.emitToConference (Some id) ev pl w
      = (Ok tt, set_ioInstance (Some (sent ++ [e])) w) /\
    event e = ev /\ payload e = pl /\
    (forall id', room e = "conference-" +:+ ObjectId_toString id' -> id' = id) /\
    (forall id' ev' pl',
       id' <> id ->
       forall e', In e' (published w (snd (Realtime.emitToConference (Some id') ev' pl' w))) ->
                  room e' <> room e).
Proof.
  intros Hio.
  assert (Hroom : forall a b, "conference-" +:+ ObjectId_toString a
                              = "conference-" +:+ ObjectId_toString b -> a = b).
  { intros a b H. apply ObjectId_toString_inj. by apply (inj (String.app "conference-")) in H. }
  eexists. split.
  { unfold Realtime.emitToConference. rewrite Hio. reflexivity. }
  simpl. split; [done|]. split; [done|]. split.
  - intros id' H. symmetry. by apply Hroom.
  - intros id' ev' pl' Hne e'. rewrite emitToConference_eq. simpl.
    unfold published, broadcast. rewrite Hio. simpl. rewrite drop_app_length.
    intros [<-|[]]. simpl. intros H. apply Hne. by apply Hroom.
Qed.

Lemma emitToConference_room_witness :
  exists e,
    Realtime.emitToConference (Some 1%N) "slide-updated" [("url", JNull); ("title", JNull)]
      (Sample.world (Some []))
    = (Ok tt, set_ioInstance (Some [e]) (Sample.world (Some []))) /\
    room e = "conference-1".
Proof.
  destruct (emitToConference_room 1%N "slide-updated" [("url", JNull); ("title", JNull)]
              (Sample.world (Some [])) [] eq_refl) as (e & Hrun & _ & _ & _ & _).
  exists e. split; [exact Hrun|].
  unfold Realtime.emitToConference, set_ioInstance in Hrun. simpl in Hrun.
  injection Hrun as Hrun. rewrite <- Hrun. reflexivity.
Defined.

(** ** Search, further *)

Lemma filter_sublist_bool {A} (f : A -> bool) l : sublist (List.filter f l) l.
Proof.
  induction l as [|x l IH]; simpl; [constructor|].
  destruct (f x); by constructor.
Qed.

Lemma limit_sublist {A} n (l : list A) : sublist (limit n l) l.
Proof. destruct n; [done|]. apply sublist_take. Qed.

Section MatchingFurther.

Context {engine : JsString.Engine}.

(** X5. [searchProfiles] only reads. It throws [CONFERENCE_NOT_FOUND] exactly
    when no conference carries the code, and never anything else; the
    profiles it returns are stored profiles in their stored order; and a
    search with a text returns a part, in the same order, of what the same
    search without text returns. *)
Theorem searchProfiles_reads_in_order code role text lim w :
  snd (MatchingService.searchProfiles code role text lim w) = w /\
  (fst (MatchingService.searchProfiles code role text lim w)
     = Throw (Err "CONFERENCE_NOT_FOUND") <->
   forall c, c ∈ conferences w -> Conference.conferenceCode c <> code) /\
  (forall e, fst (MatchingService.searchProfiles code role text lim w) = Throw e ->
             e = Err "CONFERENCE_NOT_FOUND") /\
  (forall conf ps,
     fst (MatchingService.searchProfiles code role text lim w) = Ok (conf, ps) ->
     sublist ps (profiles w) /\
     exists ps0,
       fst (MatchingService.searchProfiles code role None lim w) = Ok (conf, ps0) /\
       sublist ps ps0).
Proof.
  rewrite !searchProfiles_eq.
  destruct (findOne _ _) as [[slot conference]|] eqn:Hf.
  - set (found := limit _ _).
    assert (Hsub : sublist found (profiles w)).
    { subst found. etrans; [apply limit_sublist|apply filter_sublist_bool]. }
    apply findOne_Some in Hf as [Hl Hc]. apply bool_decide_eq_true in Hc.
    split; [by destruct (MatchingService.text_given text)|].
    split; [|split].
    + split; [by destruct (MatchingService.text_given text)|].
      intros H. exfalso. apply (H conference); [by eapply list_elem_of_lookup_2|done].
    + by destruct (MatchingService.text_given text).
    + intros conf ps. simpl.
      destruct (MatchingService.text_given text) as [t|]; simpl; intros [= <- <-].
      * split; [etrans; [apply filter_sublist_bool|done]|].
        exists found. split; [done|apply filter_sublist_bool].
      * split; [done|]. by exists found.
  - split; [done|]. split; [|split; [by intros e [= <-]|done]].
    split; [|done]. intros _ c Hc Hcode.
    apply findOne_None in Hf.
    assert (Hin : In c (List.filter (by_code code) (conferences w))).
    { apply filter_In. split; [by apply list_elem_of_In|]. by apply bool_decide_eq_true. }
    by rewrite Hf in Hin.
Qed.

(** X6. A text that is absent, empty or only white space, and a role that is
    absent or empty, filter nothing: the search is the search without
    them. *)
Theorem searchProfiles_blank_filters code role text lim w :
  (forall tx, JsString.trim tx = "" ->
     MatchingService.searchProfiles code role (Some tx) lim w =
     MatchingService.searchProfiles code role None lim w) /\
  MatchingService.searchProfiles code (Some "") text lim w =
  MatchingService.searchProfiles code None text lim w /\
  MatchingService.searchProfiles code role text None w =
  MatchingService.searchProfiles code role text (Some 20) w.
Proof.
  split; [|split; [done|done]].
  intros tx Htx. rewrite !searchProfiles_eq.
  unfold MatchingService.text_given. rewrite Htx. simpl. by rewrite andb_false_r.
Qed.

End MatchingFurther.

Section MatchingFurtherExamples.

#[local] Existing Instance Sample.engine.

Lemma searchProfiles_blank_filters_witness :
  MatchingService.searchProfiles "abc123" None
    (Some (JsString.of_bytes [32; 194; 160; 227; 128; 128; 9]%N)) None (Sample.world None) =
  MatchingService.searchProfiles "abc123" None None None (Sample.world None).
Proof.
  destruct (searchProfiles_blank_filters "abc123" None None None (Sample.world None))
    as [H _].
  apply H. reflexivity.
Defined.

Lemma searchProfiles_reads_in_order_witness :
  sublist [Sample.profile 11%N "100" ["AI"]] (profiles (Sample.world None)).
Proof.
  destruct (searchProfiles_reads_in_order "abc123" (Some "participant") (Some " AI ")
              (Some 2) (Sample.world None)) as (_ & _ & _ & H).
  destruct (H Sample.devcon [Sample.profile 11%N "100" ["AI"]]) as [Hsub _].
  - rewrite searchProfiles_eq. reflexivity.
  - exact Hsub.
Defined.

End MatchingFurtherExamples.

(** ** Profiles, further *)

Section ProfileFurther.

Variable validate_profile : ProfileData -> Result ProfileData.

Local Abbreviation upsert := (ProfileService.upsertProfileForConference validate_profile).

Lemma assigned_idem {A} (new old : option A) :
  ProfileService.assigned new (ProfileService.assigned new old) = ProfileService.assigned new old.
Proof. by destruct new. Qed.

Lemma complete_assign_idem p v :
  ProfileService.complete
    (ProfileService.Object_assign
       (ProfileService.complete (ProfileService.Object_assign p v)) v)
  = ProfileService.complete (ProfileService.Object_assign p v).
Proof.
  unfold ProfileService.complete, ProfileService.Object_assign. simpl.
  by rewrite !assigned_idem.
Qed.

(** X7. [upsertProfileForConference] is idempotent: repeating a successful
    call with the same data returns the same profile and leaves the world
    exactly as the first call left it. *)
Theorem upsert_twice_is_once t c data w p w' :
  upsert t (Some c) data w = (Ok p, w') ->
  upsert t (Some c) data w' = (Ok p, w').
Proof.
  rewrite !upsert_eq.
  destruct (negb (JsString.truthy t)); [done|].
  destruct (validate_profile data) as [v|e]; [|done].
  destruct (findOne _ (profiles w)) as [[i p0]|] eqn:Hf.
  - intros [= <- <-]. simpl profiles.
    pose proof (findOne_Some _ _ _ _ Hf) as [Hl Hk].
    rewrite (findOne_insert _ _ _ p0 _ Hf) by (by rewrite by_keys_kept).
    cbv zeta. rewrite complete_assign_idem. f_equal.
    unfold set_profiles. simpl. by rewrite list_insert_insert_eq.
  - intros [= <- <-]. simpl profiles.
    rewrite (findOne_app_new _ _ _ Hf) by apply by_keys_new.
    cbv zeta. rewrite complete_assign_idem. f_equal.
    unfold set_profiles. simpl. f_equal.
    apply list_insert_id. rewrite lookup_app_r by lia. by rewrite Nat.sub_diag.
Qed.

(** X8. [upsertProfileForConference] touches one document. The keys are
    checked before the data: an empty [telegramId] or a missing
    [conferenceId] throws [MISSING_KEYS] whatever the data. A successful call
    leaves the conferences, the socket server and every profile of another
    (telegramId, conference) pair in place; the profile it returns has
    completed onboarding; and against the profile it found, a key absent
    from the validated data keeps its stored value, a key present takes the
    new one, and [_id] and [isActive] stay. *)
Theorem upsert_touches_one_document t c data w :
  upsert "" (Some c) data w = (Throw (Err "MISSING_KEYS"), w) /\
  upsert t None data w = (Throw (Err "MISSING_KEYS"), w) /\
  (forall p w', upsert t (Some c) data w = (Ok p, w') ->
     conferences w' = conferences w /\
     ioInstance w' = ioInstance w /\
     (forall i q, profiles w !! i = Some q -> ProfileService.by_keys t c q = false ->
                  profiles w' !! i = Some q) /\
     UserProfile.onboardingCompleted p = true /\
     exists v, validate_profile data = Ok v /\
       forall i p0, findOne (ProfileService.by_keys t c) (profiles w) = Some (i, p0) ->
         UserProfile._id p = UserProfile._id p0 /\
         UserProfile.isActive p = UserProfile.isActive p0 /\
         UserProfile.firstName p = from_option Some (UserProfile.firstName p0) (pd_firstName v) /\
         UserProfile.lastName p = from_option Some (UserProfile.lastName p0) (pd_lastName v) /\
         UserProfile.interests p = from_option Some (UserProfile.interests p0) (pd_interests v) /\
         UserProfile.offerings p = from_option Some (UserProfile.offerings p0) (pd_offerings v) /\
         UserProfile.lookingFor p = from_option Some (UserProfile.lookingFor p0) (pd_lookingFor v) /\
         UserProfile.roles p = from_option Some (UserProfile.roles p0) (pd_roles v)).
Proof.
  split; [done|]. split; [done|].
  intros p w'. rewrite upsert_eq.
  destruct (negb (JsString.truthy t)); [done|].
  destruct (validate_profile data) as [v|e]; [|done].
  destruct (findOne _ (profiles w)) as [[i p0]|] eqn:Hf.
  - intros [= <- <-]. simpl. do 2 (split; [done|]).
    apply findOne_Some in Hf as [Hl Hk].
    split.
    { intros j q Hq Hnk. destruct (decide (i = j)) as [->|Hne].
      - rewrite Hl in Hq. injection Hq as ->. congruence.
      - by rewrite list_lookup_insert_ne. }
    split; [done|]. exists v. split; [done|].
    intros i' p0' [= <- <-]. simpl.
    repeat split; by match goal with |- context [ProfileService.assigned ?a _] => destruct a end.
  - intros [= <- <-]. simpl. do 2 (split; [done|]).
    split.
    { intros j q Hq _. by apply lookup_app_l_Some. }
    split; [done|]. exists v. split; [done|]. intros i p0 [=].
Qed.

End ProfileFurther.

Lemma upsert_twice_is_once_witness :
  let first := ProfileService.upsertProfileForConference Sample.validate_profile
                 "400" (Some 1%N) empty_data (Sample.world None) in
  ProfileService.upsertProfileForConference Sample.validate_profile
    "400" (Some 1%N) empty_data (snd first) = first.
Proof.
  cbv zeta.
  destruct (ProfileService.upsertProfileForConference Sample.validate_profile
              "400" (Some 1%N) empty_data (Sample.world None)) as [[p|e] w'] eqn:H1.
  - cbn [snd]. apply (upsert_twice_is_once _ _ _ _ _ _ _ H1).
  - vm_compute in H1. discriminate H1.
Defined.

Lemma upsert_touches_one_document_witness :
  let data := mkProfileData (Some "Ann-Marie") None None None None None in
  exists p w',
    ProfileService.upsertProfileForConference Sample.validate_profile
      "100" (Some 1%N) data (Sample.world None) = (Ok p, w') /\
    profiles w' !! 1 = Some (Sample.profile 12%N "200" ["Web3"]) /\
    UserProfile.interests p = Some ["AI"] /\
    UserProfile.firstName p = Some "Ann-Marie".
Proof.
  cbv zeta.
  destruct (ProfileService.upsertProfileForConference Sample.validate_profile
              "100" (Some 1%N) (mkProfileData (Some "Ann-Marie") None None None None None)
              (Sample.world None)) as [[p|e] w'] eqn:H1.
  - exists p, w'. split; [done|].
    destruct (upsert_touches_one_document Sample.validate_profile "100" 1%N
                (mkProfileData (Some "Ann-Marie") None None None None None)
                (Sample.world None)) as (_ & _ & H).
    destruct (H p w' H1) as (_ & _ & Hother & _ & v & Hv & Hfields).
    injection Hv as <-.
    destruct (Hfields 0 (Sample.profile 11%N "100" ["AI"]) eq_refl)
      as (_ & _ & Hfn & _ & Hint & _).
    split; [apply Hother; reflexivity|]. split; [exact Hint|exact Hfn].
  - vm_compute in H1. discriminate H1.
Defined.

(** * Further properties of the dialog engine *)

Lemma substring_all s : String.substring 0 (String.length s) s = s.
Proof. induction s as [|c s IH]; simpl; [done|]. by rewrite IH. Qed.

Lemma substring_skip p s n :
  String.substring (String.length p) n (p +:+ s) = String.substring 0 n s.
Proof. induction p as [|c p IH]; simpl; [done|]. apply IH. Qed.

Lemma length_app_string p s :
  String.length (p +:+ s) = String.length p + String.length s.
Proof. induction p as [|c p IH]; simpl; [done|]. by rewrite IH. Qed.

(** Removing a prefix that is there gives the rest. *)
Lemma remove_first_prefix p s : p <> "" -> Bot.remove_first p (p +:+ s) = s.
Proof.
  intros Hp.
  assert (Hs : JsString.startsWith (p +:+ s) p = true) by (apply startsWith_iff; by exists s).
  assert (Ht : JsString.truthy p = true) by (by destruct p).
  destruct (p +:+ s) as [|c r] eqn:Heq.
  - destruct p; [done|discriminate Heq].
  - unfold Bot.remove_first. fold Bot.remove_first. rewrite Hs, Ht. simpl andb. cbv iota.
    rewrite <- Heq, length_app_string.
    replace (String.length p + String.length s - String.length p) with (String.length s) by lia.
    by rewrite substring_skip, substring_all.
Qed.

Section BotFurther.

Context {W : Type}.
Context {engine : JsString.Engine}.
Variable validate_profile : ProfileData -> Result ProfileData.
Variable ensureUserFromTelegram : From -> W -> User.t * W.
Variable userIsMainAdmin : User.t -> bool.
Variable listConferencesForUser : User.t -> W -> list Conference.t.
Variable joinConference : From -> string -> M W (Conference.t * UserProfile.t).
Variable upsertProfileForConference :
  string -> option ObjectId -> ProfileData -> M W UserProfile.t.
Variable searchProfiles :
  option string -> option string -> option string -> option nat ->
  M W (Conference.t * list UserProfile.t).
Variable askQuestion : From -> option string -> string -> option string -> M W Conference.t.
Variable answerQuestion : User.t -> option string -> option string -> string -> M W Question.
Variable updateConference :
  option string -> User.t -> option string -> option string -> M W Conference.t.
Variable createPoll : User.t -> option string -> option string -> list string -> M W Poll.t.
Variable Poll_findById : option string -> W -> option Poll.t.
Variable Conference_findById : ObjectId -> W -> option Conference.t.
Variable updatePoll : User.t -> option string -> option string -> M W Poll.t.
Variable assignConferenceAdmin : User.t -> option string -> string -> M W unit.
Variable setSlide : User.t -> option string -> option string -> option string -> M W Conference.t.
Variable createConference : User.t -> string -> string -> M W Conference.t.

Local Abbreviation on_text :=
  (Bot.on_text validate_profile ensureUserFromTelegram userIsMainAdmin joinConference
     upsertProfileForConference searchProfiles askQuestion answerQuestion updateConference
     createPoll Poll_findById Conference_findById updatePoll assignConferenceAdmin setSlide
     createConference).

Local Abbreviation on_message :=
  (Bot.on_message validate_profile ensureUserFromTelegram userIsMainAdmin
     listConferencesForUser joinConference upsertProfileForConference searchProfiles
     askQuestion answerQuestion updateConference createPoll Poll_findById
     Conference_findById updatePoll assignConferenceAdmin setSlide createConference).

Lemma on_message_no_label from message_text :
  Bot.is_label message_text = false ->
  on_message from message_text = on_text from message_text.
Proof. apply on_message_text. Qed.

(** A message that is no label is followed into the text handler. *)
Ltac to_text :=
  repeat match goal with
         | H : Bot.is_label ?t = false |- _ => progress rewrite (on_message_no_label _ t H)
         end.

(** Every path of the text handler, laid open: the definitions unfolded and
    each outcome of a test or of a service taken apart. *)
Ltac open_on_text :=
  unfold Bot.on_text, Bot.state_flow, Bot.onboarding_flow, Bot.onboarding_try,
    Bot.join_conference_flow, Bot.find_participants_flow, Bot.ask_question_flow,
    Bot.answer_question_flow, Bot.edit_conference_title_flow,
    Bot.edit_conference_description_flow, Bot.create_poll_question_flow,
    Bot.create_poll_options_flow, Bot.edit_poll_flow, Bot.edit_poll_try,
    Bot.assign_admin_flow, Bot.set_slide_flow, Bot.create_conference_flow,
    Bot.clearUserState, Bot.reply, Bot.send, Bot.console_error, Bot.ensureUser,
    Bot.on_world, Bot.userState_set, Bot.userState_delete, Bot.onboardingState_set,
    Bot.onboardingState_delete, try_catch, bind, ret, throw, lift, get, modify;
  repeat (simpl; case_match); simplify_eq/=.

(** X9. The text handler neither writes nor reads another sender's session.
    Whatever the text, the sessions and the services, the entries of every
    other identity in both maps are as before; and two states that agree on
    the world and on the sender's own two entries get the same outcome, the
    same world, the same replies and log lines and the same entries for the
    sender, whatever the other senders hold. *)
Theorem on_text_keeps_other_sessions from message_text (s : Bot.State W) other :
  other <> from_id from ->
  (Bot.userState (snd (on_text from message_text s)) !! other = Bot.userState s !! other /\
   Bot.onboardingState (snd (on_text from message_text s)) !! other
     = Bot.onboardingState s !! other) /\
  (forall s2 : Bot.State W,
     Bot.world s = Bot.world s2 ->
     Bot.userState s !! from_id from = Bot.userState s2 !! from_id from ->
     Bot.onboardingState s !! from_id from = Bot.onboardingState s2 !! from_id from ->
     let r := on_text from message_text s in
     let r2 := on_text from message_text s2 in
     fst r = fst r2 /\
     Bot.world (snd r) = Bot.world (snd r2) /\
     Bot.userState (snd r) !! from_id from = Bot.userState (snd r2) !! from_id from /\
     Bot.onboardingState (snd r) !! from_id from
       = Bot.onboardingState (snd r2) !! from_id from /\
     drop (length (Bot.outbox s)) (Bot.outbox (snd r))
       = drop (length (Bot.outbox s2)) (Bot.outbox (snd r2)) /\
     drop (length (Bot.console s)) (Bot.console (snd r))
       = drop (length (Bot.console s2)) (Bot.console (snd r2))).
Proof.
  intros Hne. split.
  - open_on_text;
      rewrite ?lookup_insert_ne, ?lookup_delete_ne by done; done.
  - intros s2 Hw Hu Ho r r2. subst r r2.
    unfold Bot.on_text, Bot.state_flow, Bot.onboarding_flow, Bot.onboarding_try,
      Bot.join_conference_flow, Bot.find_participants_flow, Bot.ask_question_flow,
      Bot.answer_question_flow, Bot.edit_conference_title_flow,
      Bot.edit_conference_description_flow, Bot.create_poll_question_flow,
      Bot.create_poll_options_flow, Bot.edit_poll_flow, Bot.edit_poll_try,
      Bot.assign_admin_flow, Bot.set_slide_flow, Bot.create_conference_flow,
      Bot.clearUserState, Bot.reply, Bot.send, Bot.console_error, Bot.ensureUser,
      Bot.on_world, Bot.userState_set, Bot.userState_delete, Bot.onboardingState_set,
      Bot.onboardingState_delete, try_catch, bind, ret, throw, lift, get, modify.
    repeat (simpl; rewrite ?Hw, ?Hu, ?Ho; case_match); simplify_eq/=;
      rewrite ?lookup_insert_eq, ?lookup_delete_eq, ?drop_app_length, ?drop_all;
      repeat match goal with
             | H1 : ?x = _, H2 : ?x = _ |- _ => rewrite H1 in H2; simplify_eq
             end;
      repeat split; try done; try congruence.
Qed.

(** X10. The text handler answers every text that is not a command with
    exactly one reply, edits no message and never throws: every error of a
    service or of the validation is caught. A command gets nothing from it
    and changes nothing. *)
Theorem on_text_replies_once from message_text (s : Bot.State W) :
  fst (on_text from message_text s) = Ok tt /\
  (JsString.startsWith message_text "/" = true -> on_text from message_text s = (Ok tt, s)) /\
  (JsString.startsWith message_text "/" = false ->
     exists m k,
       Bot.outbox (snd (on_text from message_text s)) = Bot.outbox s ++ [Reply m k]).
Proof.
  split; [|split].
  - open_on_text; done.
  - intros H. unfold Bot.on_text. by rewrite H.
  - intros H. unfold Bot.on_text. rewrite H.
    open_on_text; by eexists _, _.
Qed.

(** X11. A text message that is neither a command nor a label of the
    reply keyboard never moves its sender to another flow. After it the
    sender's sessions are as before, or both dropped, or the [userState]
    entry is rewritten with the same flow, conference, poll, question and
    target, or, with no [userState] entry, the onboarding entry has gone
    from a step between 1 and 4 to the next. *)
Theorem on_text_session_step from message_text (s : Bot.State W) :
  JsString.startsWith message_text "/" = false ->
  Bot.is_label message_text = false ->
  session_step (from_id from) s (snd (on_message from message_text s)).
Proof.
  intros _ Hl. to_text.
  unfold session_step.
  open_on_text;
    repeat match goal with
           | H : bool_decide _ = true |- _ => apply bool_decide_eq_true_1 in H
           end;
    first [ by left
          | by (right; left)
          | right; right; left; eexists _, _; by repeat split
          | right; right; right; eexists _, _; repeat split; [done..| lia | lia | simpl; lia ] ].
Qed.

Local Abbreviation state_flow :=
  (Bot.state_flow ensureUserFromTelegram userIsMainAdmin joinConference searchProfiles
     askQuestion answerQuestion updateConference createPoll Poll_findById
     Conference_findById updatePoll assignConferenceAdmin setSlide createConference).

(** A text for a sender whose [userState] entry is [state]. *)
Lemma on_text_state from message_text (s : Bot.State W) state :
  JsString.startsWith message_text "/" = false ->
  Bot.is_cancel (JsString.trim message_text) = false ->
  Bot.userState s !! from_id from = Some state ->
  on_text from message_text s = state_flow from (JsString.trim message_text) state s.
Proof.
  intros H1 H2 H3. unfold Bot.on_text. rewrite H1, H2. unfold bind at 1, get. by rewrite H3.
Qed.

(** X12. A session that waits for the choice of a conference is ended by a
    text message that is neither a label of the reply keyboard, a command
    nor a cancel word: the text is read by no step, no service is called,
    the sender is told so, and both sessions are dropped. *)
Theorem text_ends_session_waiting_for_button from message_text (s : Bot.State W) state :
  Bot.is_label message_text = false ->
  JsString.startsWith message_text "/" = false ->
  Bot.is_cancel (JsString.trim message_text) = false ->
  Bot.userState s !! from_id from = Some state ->
  step state = Some "select_conference" ->
  flow state <> "join_conference" ->
  on_message from message_text s =
  (Ok tt, cleared (from_id from) (replied MsgUnhandled (MainMenu from) s)).
Proof.
  intros Hl0. to_text.
  intros H1 H2 H3 Hs Hf. rewrite (on_text_state _ _ _ _ H1 H2 H3).
  unfold Bot.state_flow, Bot.is_step. rewrite Hs.
  rewrite (bool_decide_eq_false_2 (flow state = "join_conference")) by done.
  repeat (rewrite (bool_decide_eq_false_2 (Some "select_conference" = Some _)) by done).
  rewrite !andb_false_r. reflexivity.
Qed.

Ltac dispatch :=
  intros Hf Hs; unfold Bot.state_flow, Bot.is_step; rewrite Hf, Hs; reflexivity.

Lemma state_flow_create_poll_question from text state :
  flow state = "create_poll" -> step state = Some "enter_question" ->
  state_flow from text state = Bot.create_poll_question_flow from text state.
Proof. dispatch. Qed.

Lemma state_flow_create_poll_options from text state :
  flow state = "create_poll" -> step state = Some "enter_options" ->
  state_flow from text state =
  Bot.create_poll_options_flow ensureUserFromTelegram createPoll from text state.
Proof. dispatch. Qed.

(** X13. The poll editor of two steps, for two text messages that are
    neither labels of the reply keyboard, commands nor cancel words. The
    question step calls no service:
    it stores the text as the question, keeps the conference, and asks for
    the options. The options step then hands [createPoll] that stored
    question, that conference and the non-empty trimmed options, provided
    there are two at least; with fewer it calls nothing and keeps the
    session. When [createPoll] succeeds both sessions are dropped; when it
    throws the session stays for another try. *)
Theorem create_poll_two_steps from q opts (s : Bot.State W) state :
  Bot.is_label q = false ->
  Bot.is_label opts = false ->
  JsString.startsWith q "/" = false ->
  Bot.is_cancel (JsString.trim q) = false ->
  JsString.startsWith opts "/" = false ->
  Bot.is_cancel (JsString.trim opts) = false ->
  Bot.userState s !! from_id from = Some state ->
  flow state = "create_poll" ->
  step state = Some "enter_question" ->
  let state1 := Bot.with_question state (JsString.trim q) in
  let s1 := snd (on_message from q s) in
  let user := fst (ensureUserFromTelegram from (Bot.world s)) in
  let w1 := snd (ensureUserFromTelegram from (Bot.world s)) in
  let options := Bot.comma_list (JsString.trim opts) in
  let created := createPoll user (conferenceCode state) (Some (JsString.trim q)) options w1 in
  Bot.world s1 = Bot.world s /\
  Bot.userState s1 = <[from_id from := state1]> (Bot.userState s) /\
  Bot.onboardingState s1 = Bot.onboardingState s /\
  (length options < 2 ->
     on_message from opts s1 =
     (Ok tt, Bot.mkState w1 (Bot.userState s1) (Bot.onboardingState s1)
                         (Bot.outbox s1 ++ [Reply MsgNeedTwoOptions NoMarkup])
                         (Bot.console s1))) /\
  (2 <= length options ->
     Bot.world (snd (on_message from opts s1)) = snd created /\
     (forall poll, fst created = Ok poll ->
        sessions (from_id from) (snd (on_message from opts s1)) = 0 /\
        Bot.outbox (snd (on_message from opts s1)) =
          Bot.outbox s1 ++ [Reply (MsgPollCreated (Poll.question poll) options)
                                  (MainMenu from)]) /\
     (forall e, fst created = Throw e ->
        Bot.userState (snd (on_message from opts s1)) = Bot.userState s1 /\
        Bot.onboardingState (snd (on_message from opts s1)) = Bot.onboardingState s1 /\
        Bot.outbox (snd (on_message from opts s1)) =
          Bot.outbox s1 ++ [Reply MsgPollCreateFailed NoMarkup])).
Proof.
  intros Hl0 Hl1. to_text.
  intros Hq1 Hq2 Ho1 Ho2 Hst Hf Hs state1 s1 user w1 options created.
  assert (Hs1 : s1 = Bot.mkState (Bot.world s) (<[from_id from := state1]> (Bot.userState s))
                       (Bot.onboardingState s)
                       (Bot.outbox s ++
                          [Reply MsgEnterOptions
                             (InlineButton "◀️ Отмена"
                                (if bool_decide (is_Some (Bot.or_null (conferenceCode state)))
                                 then "admin:polls:" +:+ Bot.interpolate (conferenceCode state)
                                 else "speaker:polls:conf:" +:+
                                      Bot.interpolate (conferenceCode state)))])
                       (Bot.console s)).
  { subst s1. rewrite (on_text_state _ _ _ _ Hq1 Hq2 Hst).
    by rewrite (state_flow_create_poll_question _ _ _ Hf Hs). }
  assert (Hst1 : Bot.userState s1 !! from_id from = Some state1).
  { rewrite Hs1. simpl. apply lookup_insert_eq. }
  assert (Hw1 : Bot.world s1 = Bot.world s) by (by rewrite Hs1).
  assert (Hopt : on_text from opts s1 =
    if length options <? 2 then
      (Ok tt, Bot.mkState w1 (Bot.userState s1) (Bot.onboardingState s1)
                          (Bot.outbox s1 ++ [Reply MsgNeedTwoOptions NoMarkup])
                          (Bot.console s1))
    else
      match created with
      | (Ok poll, w2) =>
          (Ok tt, Bot.mkState w2 (delete (from_id from) (Bot.userState s1))
                              (delete (from_id from) (Bot.onboardingState s1))
                              (Bot.outbox s1 ++
                                 [Reply (MsgPollCreated (Poll.question poll) options)
                                        (MainMenu from)])
                              (Bot.console s1))
      | (Throw e, w2) =>
          (Ok tt, Bot.mkState w2 (Bot.userState s1) (Bot.onboardingState s1)
                              (Bot.outbox s1 ++ [Reply MsgPollCreateFailed NoMarkup])
                              (Bot.console s1 ++ [("Error in create_poll flow", e)]))
      end).
  { rewrite (on_text_state _ _ _ _ Ho1 Ho2 Hst1).
    rewrite (state_flow_create_poll_options _ _ state1 Hf eq_refl).
    unfold Bot.create_poll_options_flow, try_catch, bind, Bot.ensureUser, Bot.on_world.
    clearbody s1. cbv beta. rewrite Hw1. subst created user w1 state1.
    fold options. cbn [conferenceCode question Bot.with_question].
    destruct (ensureUserFromTelegram from (Bot.world s)) as [u w1]. cbn [fst snd].
    destruct (length options <? 2); [reflexivity|]. cbn [Bot.world].
    destruct (createPoll u (conferenceCode state) (Some (JsString.trim q)) options w1)
      as [[poll|e] w2]; reflexivity. }
  rewrite Hopt. clear Hopt.
  split; [done|]. split; [by rewrite Hs1|]. split; [by rewrite Hs1|].
  split.
  - intros Hlt. apply Nat.ltb_lt in Hlt. by rewrite Hlt.
  - intros Hge. assert (Hlt : (length options <? 2) = false) by (apply Nat.ltb_ge; lia).
    rewrite Hlt. destruct created as [[poll|e] w2]; cbn [fst snd].
    + split; [done|]. split; [|done]. intros poll' [= <-].
      split; [|done]. unfold sessions. simpl. by rewrite !lookup_delete_eq.
    + split; [done|]. split; [done|]. intros e' [= <-]. done.
Qed.

Lemma state_flow_assign_admin from text state :
  flow state = "assign_admin" -> step state = Some "enter_telegram_id" ->
  state_flow from text state =
  Bot.assign_admin_flow ensureUserFromTelegram userIsMainAdmin assignConferenceAdmin
                        from text state.
Proof. dispatch. Qed.

(** X14. The step that names a new conference admin guards the service
    twice, for a text message that is neither a label of the reply
    keyboard, a command nor a cancel word. A sender who is not a main admin is refused and loses the
    session; a text that is not a run of digits is refused and keeps it; in
    both cases [assignConferenceAdmin] is not called. Otherwise the service
    gets the conference of the session and the trimmed digits, and the
    session is dropped when it succeeds and kept when it throws. *)
Theorem assign_admin_step_guards from message_text (s : Bot.State W) state :
  Bot.is_label message_text = false ->
  JsString.startsWith message_text "/" = false ->
  Bot.is_cancel (JsString.trim message_text) = false ->
  Bot.userState s !! from_id from = Some state ->
  flow state = "assign_admin" ->
  step state = Some "enter_telegram_id" ->
  let user := fst (ensureUserFromTelegram from (Bot.world s)) in
  let w1 := snd (ensureUserFromTelegram from (Bot.world s)) in
  let telegramId := JsString.trim (JsString.trim message_text) in
  let s' := snd (on_message from message_text s) in
  (userIsMainAdmin user = false ->
     on_message from message_text s =
     (Ok tt, Bot.mkState w1 (delete (from_id from) (Bot.userState s))
                         (delete (from_id from) (Bot.onboardingState s))
                         (Bot.outbox s ++ [Reply MsgAccessDenied NoMarkup]) (Bot.console s))) /\
  (userIsMainAdmin user = true -> JsString.test_digits telegramId = false ->
     on_message from message_text s =
     (Ok tt, Bot.mkState w1 (Bot.userState s) (Bot.onboardingState s)
                         (Bot.outbox s ++ [Reply MsgBadTelegramId NoMarkup]) (Bot.console s))) /\
  (userIsMainAdmin user = true -> JsString.test_digits telegramId = true ->
     let assigned := assignConferenceAdmin user (conferenceCode state) telegramId w1 in
     Bot.world s' = snd assigned /\
     (fst assigned = Ok tt ->
        sessions (from_id from) s' = 0 /\
        exists k, Bot.outbox s' = Bot.outbox s ++ [Reply (MsgAdminAssigned telegramId) k]) /\
     (forall e, fst assigned = Throw e ->
        Bot.userState s' = Bot.userState s /\
        Bot.onboardingState s' = Bot.onboardingState s /\
        Bot.outbox s' =
          Bot.outbox s ++ [Reply (MsgAssignFailed (Bot.assign_admin_error e)) NoMarkup])).
Proof.
  intros Hl0. to_text.
  intros H1 H2 H3 Hf Hs user w1 telegramId s'. subst s'.
  rewrite (on_text_state _ _ _ _ H1 H2 H3), (state_flow_assign_admin _ _ _ Hf Hs).
  unfold Bot.assign_admin_flow, try_catch, bind, Bot.ensureUser, Bot.on_world.
  cbv beta. subst user w1. fold telegramId.
  destruct (ensureUserFromTelegram from (Bot.world s)) as [u w1]. cbn [fst snd].
  split; [|split].
  - intros Hm. rewrite Hm. reflexivity.
  - intros Hm Hd. rewrite Hm, Hd. reflexivity.
  - intros Hm Hd. rewrite Hm, Hd. cbn [negb Bot.world].
    destruct (assignConferenceAdmin u (conferenceCode state) telegramId w1) as [[[]|e] w2];
      cbn [fst snd].
    + split; [done|]. split; [|done]. intros _. split.
      * unfold sessions. simpl. by rewrite !lookup_delete_eq.
      * by eexists.
    + split; [done|]. split; [done|]. intros e' [= <-]. done.
Qed.

Lemma state_flow_join from text state :
  flow state = "join_conference" ->
  state_flow from text state = Bot.join_conference_flow joinConference from text.
Proof. intros Hf. unfold Bot.state_flow. rewrite Hf. reflexivity. Qed.

(** X15. Joining by code. Whatever its step, a [join_conference] session
    hands the trimmed text of a message that is neither a label of the
    reply keyboard, a command nor a cancel word to [joinConference]. When the conference is
    joined both sessions are dropped and the reply names it; when the
    service throws the session stays, so the next text that is neither a
    command, a cancel word nor a label of the reply keyboard is another
    try, and [CONFERENCE_NOT_FOUND] has a reply of its own. *)
Theorem join_by_code from message_text (s : Bot.State W) state :
  Bot.is_label message_text = false ->
  JsString.startsWith message_text "/" = false ->
  Bot.is_cancel (JsString.trim message_text) = false ->
  Bot.userState s !! from_id from = Some state ->
  flow state = "join_conference" ->
  let joined := joinConference from (JsString.trim message_text) (Bot.world s) in
  let s' := snd (on_message from message_text s) in
  Bot.world s' = snd joined /\
  (forall conference profile, fst joined = Ok (conference, profile) ->
     sessions (from_id from) s' = 0 /\
     Bot.outbox s' =
       Bot.outbox s ++ [Reply (MsgJoined (Conference.title conference)
                                         (Conference.conferenceCode conference))
                              (MainMenu from)]) /\
  (forall e, fst joined = Throw e ->
     Bot.userState s' = Bot.userState s /\
     Bot.onboardingState s' = Bot.onboardingState s /\
     Bot.console s' = Bot.console s ++ [("Error in join_conference flow", e)] /\
     Bot.outbox s' =
       Bot.outbox s ++
       [Reply (if bool_decide (message e = "CONFERENCE_NOT_FOUND")
               then MsgJoinNotFound else MsgJoinFailed) NoMarkup] /\
     forall next,
       Bot.is_label next = false ->
       JsString.startsWith next "/" = false ->
       Bot.is_cancel (JsString.trim next) = false ->
       Bot.world (snd (on_message from next s')) =
       snd (joinConference from (JsString.trim next) (snd joined))).
Proof.
  intros Hl0. to_text.
  intros H1 H2 H3 Hf joined s'.
  assert (Hrun : forall t (s0 : Bot.State W),
            JsString.startsWith t "/" = false ->
            Bot.is_cancel (JsString.trim t) = false ->
            Bot.userState s0 !! from_id from = Some state ->
            on_text from t s0 =
            match joinConference from (JsString.trim t) (Bot.world s0) with
            | (Ok (conference, _), w') =>
                (Ok tt, Bot.mkState w' (delete (from_id from) (Bot.userState s0))
                                    (delete (from_id from) (Bot.onboardingState s0))
                                    (Bot.outbox s0 ++
                                       [Reply (MsgJoined (Conference.title conference)
                                                         (Conference.conferenceCode conference))
                                              (MainMenu from)])
                                    (Bot.console s0))
            | (Throw e, w') =>
                (Ok tt, Bot.mkState w' (Bot.userState s0) (Bot.onboardingState s0)
                                    (Bot.outbox s0 ++
                                       [Reply (if bool_decide (message e = "CONFERENCE_NOT_FOUND")
                                               then MsgJoinNotFound else MsgJoinFailed)
                                              NoMarkup])
                                    (Bot.console s0 ++ [("Error in join_conference flow", e)]))
            end).
  { intros t s0 Ht1 Ht2 Ht3.
    rewrite (on_text_state _ _ _ _ Ht1 Ht2 Ht3), (state_flow_join _ _ _ Hf).
    unfold Bot.join_conference_flow, try_catch, bind, Bot.on_world. cbv beta.
    destruct (joinConference from (JsString.trim t) (Bot.world s0)) as [[[c p]|e] w'];
      reflexivity. }
  subst s'. rewrite (Hrun _ _ H1 H2 H3). fold joined.
  destruct joined as [[[c p]|e] w'] eqn:Hj; cbn [fst snd Bot.world].
  - split; [done|]. split; [|done]. intros c' p' [= <- <-].
    split; [|done]. unfold sessions. simpl. by rewrite !lookup_delete_eq.
  - split; [done|]. split; [done|]. intros e' [= <-].
    do 4 (split; [done|]). intros next Hn0 Hn1 Hn2.
    rewrite (on_message_no_label _ next Hn0).
    rewrite (Hrun next _ Hn1 Hn2) by done. cbn [Bot.world].
    by destruct (joinConference from (JsString.trim next) w') as [[[c p]|e2] w2].
Qed.
(** A text for a sender with an onboarding entry and no [userState] entry. *)
Lemma on_text_onboarding from message_text (s : Bot.State W) ob :
  JsString.startsWith message_text "/" = false ->
  Bot.is_cancel (JsString.trim message_text) = false ->
  Bot.userState s !! from_id from = None ->
  Bot.onboardingState s !! from_id from = Some ob ->
  on_text from message_text s =
  Bot.onboarding_flow validate_profile joinConference upsertProfileForConference
                      from (JsString.trim message_text) ob s.
Proof.
  intros H1 H2 H3 H4. unfold Bot.on_text. rewrite H1, H2. unfold bind at 1, get.
  by rewrite H3, H4.
Qed.

(** X16. The three optional steps of onboarding, for a text message that
    is neither a label of the reply keyboard, a command nor a cancel word.
    A dash or a text without a non-blank item
    moves to the next step without asking the validation and without
    touching the data. A list that the validation rejects leaves step and
    data as they were, and the error is logged and answered. A list it
    accepts is stored under the key of the step, as typed and trimmed, next
    to what the earlier steps stored, and the step moves on. No service is
    called. *)
Theorem onboarding_optional_step from message_text (s : Bot.State W) ob :
  Bot.is_label message_text = false ->
  JsString.startsWith message_text "/" = false ->
  Bot.is_cancel (JsString.trim message_text) = false ->
  Bot.userState s !! from_id from = None ->
  Bot.onboardingState s !! from_id from = Some ob ->
  (2 <= ob_step ob <= 4)%Z ->
  let n := ob_step ob in
  let l := Bot.optional_list (JsString.trim message_text) in
  let moved data :=
    Bot.mkState (Bot.world s) (Bot.userState s)
                (<[from_id from := mkOnboarding (n + 1) data]> (Bot.onboardingState s))
                (Bot.outbox s ++ [Reply (MsgOnboardingStep (n + 1)) NoMarkup])
                (Bot.console s) in
  (l = [] -> on_message from message_text s = (Ok tt, moved (ob_data ob))) /\
  (l <> [] ->
     match validate_profile (onboarding_key n l) with
     | Ok _ => on_message from message_text s = (Ok tt, moved (onboarding_put n (ob_data ob) l))
     | Throw e =>
         on_message from message_text s =
         (Ok tt, Bot.mkState (Bot.world s) (Bot.userState s) (Bot.onboardingState s)
                             (Bot.outbox s ++ [Reply (Bot.onboarding_error e) NoMarkup])
                             (Bot.console s ++ [("Error in onboarding flow", e)]))
     end).
Proof.
  intros Hl0. to_text.
  intros H1 H2 H3 H4 Hn n l moved.
  rewrite (on_text_onboarding _ _ _ _ H1 H2 H3 H4).
  unfold Bot.onboarding_flow, Bot.onboarding_try, try_catch. fold l. fold n.
  assert (Hcases : n = 2%Z \/ n = 3%Z \/ n = 4%Z) by (subst n; lia).
  assert (Hlen : forall x : list string, x <> [] -> (0 <? length x) = true).
  { intros x Hx. apply Nat.ltb_lt. destruct x; [done|simpl; lia]. }
  subst moved. unfold onboarding_key, onboarding_put.
  destruct Hcases as [-> | [-> | ->]]; cbn [bool_decide decide_rel]; simpl bool_decide.
  all: split;
    [ intros ->; reflexivity
    | intros Hl; unfold bind at 1; rewrite (Hlen _ Hl); unfold bind at 1, lift;
      match goal with |- context [validate_profile ?d] => destruct (validate_profile d) end;
      reflexivity ].
Qed.

(** X17. What [validate] throws is what the handlers decode. When Joi
    reports errors, [validate] throws one error whose message is the fixed
    prefix followed by the messages of all details joined with "; "; the
    catch of the onboarding steps and the catch of the question step both
    recognise the prefix and answer with exactly those joined messages. With
    no error [validate] returns Joi's cleaned value. *)
Theorem validation_errors_reach_the_user {A B} (schema : A -> JoiResult B) data :
  (joi_error (schema data) = None -> validate schema data = Ok (joi_value (schema data))) /\
  (forall details, joi_error (schema data) = Some details ->
     exists e,
       validate schema data = Throw e /\
       message e = "VALIDATION_ERROR: " +:+ JsString.join "; " details /\
       Bot.onboarding_error e = MsgValidationError (JsString.join "; " details) /\
       forall from text state (s : Bot.State W) w',
         askQuestion from (conferenceCode state) text (Bot.or_null (targetSpeaker state))
                     (Bot.world s) = (Throw e, w') ->
         Bot.ask_question_flow askQuestion from text state s =
         (Ok tt, Bot.mkState w' (Bot.userState s) (Bot.onboardingState s)
                   (Bot.outbox s ++
                      [Reply (MsgQuestionInvalid (JsString.join "; " details)) NoMarkup])
                   (Bot.console s ++ [("Error in ask_question flow", e)]))).
Proof.
  split.
  - intros H. unfold validate. by rewrite H.
  - intros details H. eexists. split; [unfold validate; by rewrite H|].
    set (m := JsString.join "; " details).
    assert (Hp : JsString.startsWith ("VALIDATION_ERROR: " +:+ m) "VALIDATION_ERROR:" = true).
    { apply startsWith_iff. by exists (" " +:+ m). }
    assert (Hr : Bot.remove_first "VALIDATION_ERROR: " ("VALIDATION_ERROR: " +:+ m) = m)
      by (by apply remove_first_prefix).
    split; [done|]. split.
    + unfold Bot.onboarding_error. cbn [message]. by rewrite Hp, Hr.
    + intros from text state s w' Hask.
      unfold Bot.ask_question_flow, try_catch, bind, Bot.on_world. cbv beta.
      rewrite Hask. cbn [message]. by rewrite Hp, Hr.
Qed.
Lemma state_flow_find_participants from text state :
  flow state = "find_participants" -> step state = Some "enter_query" ->
  state_flow from text state = Bot.find_participants_flow searchProfiles from text state.
Proof. dispatch. Qed.

(** X18. The query of the participant search, for a text message that is
    neither a label of the reply keyboard, a command nor a cancel word. The
    words of the trimmed text are cut at single spaces. When the first
    word, in the lower case of the engine, is one of the
    four roles, it is the role filter and the other words, joined by one
    space, are the text filter; otherwise there is no role filter and the
    whole trimmed text is the text filter. The search runs in the conference
    of the session with limit 20. Its answer, even an empty one, ends the
    session; when it throws the session stays. *)
Theorem find_participants_query from message_text (s : Bot.State W) state :
  Bot.is_label message_text = false ->
  JsString.startsWith message_text "/" = false ->
  Bot.is_cancel (JsString.trim message_text) = false ->
  Bot.userState s !! from_id from = Some state ->
  flow state = "find_participants" ->
  step state = Some "enter_query" ->
  let text := JsString.trim message_text in
  let role :=
    match Bot.words text with
    | first :: _ =>
        if bool_decide (JsString.toLowerCase first ∈ Bot.known_roles)
        then Some (JsString.toLowerCase first) else None
    | [] => None
    end in
  let searchText :=
    match Bot.words text with
    | first :: rest =>
        if bool_decide (JsString.toLowerCase first ∈ Bot.known_roles)
        then Some (JsString.join " " rest) else Some text
    | [] => None
    end in
  let found := searchProfiles (conferenceCode state) role searchText (Some 20) (Bot.world s) in
  let s' := snd (on_message from message_text s) in
  Bot.world s' = snd found /\
  (forall conference profiles, fst found = Ok (conference, profiles) ->
     sessions (from_id from) s' = 0 /\
     Bot.outbox s' =
       Bot.outbox s ++
       [Reply (if length profiles =? 0 then MsgNoParticipants else MsgFound profiles)
              (MainMenu from)]) /\
  (forall e, fst found = Throw e ->
     Bot.userState s' = Bot.userState s /\
     Bot.onboardingState s' = Bot.onboardingState s /\
     Bot.outbox s' = Bot.outbox s ++ [Reply MsgSearchError (MainMenu from)]).
Proof.
  intros Hl0. to_text.
  intros H1 H2 H3 Hf Hs text role searchText found s'. subst s'.
  rewrite (on_text_state _ _ _ _ H1 H2 H3), (state_flow_find_participants _ _ _ Hf Hs).
  unfold Bot.find_participants_flow, try_catch. fold text.
  assert (Hq : (let '(role0, searchText0) :=
                  match Bot.words text with
                  | [] => (None, None)
                  | first :: rest =>
                      if bool_decide (JsString.toLowerCase first ∈ Bot.known_roles)
                      then (Some (JsString.toLowerCase first), Some (JsString.join " " rest))
                      else (None, Some text)
                  end in (role0, searchText0)) = (role, searchText)).
  { subst role searchText. destruct (Bot.words text) as [|first rest]; [done|].
    by destruct (bool_decide _). }
  destruct (match Bot.words text with
            | [] => (None, None)
            | first :: rest =>
                if bool_decide (JsString.toLowerCase first ∈ Bot.known_roles)
                then (Some (JsString.toLowerCase first), Some (JsString.join " " rest))
                else (None, Some text)
            end) as [role0 searchText0].
  injection Hq as -> ->.
  unfold bind, Bot.on_world. cbv beta. fold found.
  destruct found as [[[conference profiles]|e] w']; cbn [fst snd].
  - destruct (length profiles =? 0) eqn:Hl; cbn [Bot.world].
    + split; [done|]. split; [|done]. intros c ps [= <- <-]. rewrite Hl.
      split; [|done]. unfold sessions. simpl. by rewrite !lookup_delete_eq.
    + split; [done|]. split; [|done]. intros c ps [= <- <-]. rewrite Hl.
      split; [|done]. unfold sessions. simpl. by rewrite !lookup_delete_eq.
  - split; [done|]. split; [done|]. intros e' [= <-]. done.
Qed.

End BotFurther.

(** ** The further properties of the dialog engine on examples *)

Section BotFurtherExamples.

#[local] Existing Instance Sample.engine.

Local Abbreviation at_sample thm :=
  (thm (list Conference.t) Sample.engine Sample.validate_profile
       Sample.ensureUserFromTelegram Sample.userIsMainAdmin
       (fun _ _ => throw (Err "CONFERENCE_NOT_FOUND"))
       (fun _ _ _ => throw (Err "MISSING_KEYS"))
       (fun _ _ _ _ => throw (Err "CONFERENCE_NOT_FOUND"))
       (fun _ _ _ _ => throw (Err "CONFERENCE_NOT_FOUND"))
       (fun _ _ _ _ => throw (Err "NOT_SPEAKER"))
       (fun _ _ _ _ => throw (Err "CONFERENCE_NOT_FOUND"))
       (fun _ _ _ _ => throw (Err "CONFERENCE_NOT_FOUND"))
       (fun _ _ => None)
       (fun _ _ => None)
       (fun _ _ _ => throw (Err "POLL_NOT_FOUND"))
       (fun _ _ _ => throw (Err "ACCESS_DENIED"))
       (fun _ _ _ _ => throw (Err "CONFERENCE_NOT_FOUND"))
       (fun _ _ _ => throw (Err "ACCESS_DENIED"))).

Local Abbreviation at_sample_message thm :=
  (thm (list Conference.t) Sample.engine Sample.validate_profile
       Sample.ensureUserFromTelegram Sample.userIsMainAdmin Sample.listConferencesForUser
       (fun _ _ => throw (Err "CONFERENCE_NOT_FOUND"))
       (fun _ _ _ => throw (Err "MISSING_KEYS"))
       (fun _ _ _ _ => throw (Err "CONFERENCE_NOT_FOUND"))
       (fun _ _ _ _ => throw (Err "CONFERENCE_NOT_FOUND"))
       (fun _ _ _ _ => throw (Err "NOT_SPEAKER"))
       (fun _ _ _ _ => throw (Err "CONFERENCE_NOT_FOUND"))
       (fun _ _ _ _ => throw (Err "CONFERENCE_NOT_FOUND"))
       (fun _ _ => None)
       (fun _ _ => None)
       (fun _ _ _ => throw (Err "POLL_NOT_FOUND"))
       (fun _ _ _ => throw (Err "ACCESS_DENIED"))
       (fun _ _ _ _ => throw (Err "CONFERENCE_NOT_FOUND"))
       (fun _ _ _ => throw (Err "ACCESS_DENIED"))).

Local Abbreviation nbsp := (JsString.of_bytes [194; 160]%N).

Lemma on_text_keeps_other_sessions_witness :
  let s := Bot.mkState [Sample.devcon]
             {[ 42%Z := flow_state "join_conference" None None;
                7%Z := flow_state "set_slide" (Some "enter_url") (Some "abc123") ]}
             ∅ [] [] in
  let s2 := Bot.mkState [Sample.devcon]
              {[ 42%Z := flow_state "join_conference" None None ]}
              {[ 7%Z := mkOnboarding 2 empty_data ]}
              [Reply MsgCancelled NoMarkup] [] in
  Bot.userState (snd (Sample.on_text Sample.x "cancel" s)) !! 7%Z
    = Some (flow_state "set_slide" (Some "enter_url") (Some "abc123")) /\
  Bot.userState (snd (Sample.on_text Sample.x "cancel" s)) !! 42%Z = None /\
  fst (Sample.on_text Sample.x "nowhere" s) = fst (Sample.on_text Sample.x "nowhere" s2) /\
  Bot.outbox (snd (Sample.on_text Sample.x "nowhere" s))
    = drop 1 (Bot.outbox (snd (Sample.on_text Sample.x "nowhere" s2))).
Proof.
  cbv zeta. split; [|split; [reflexivity|]].
  - destruct (at_sample (@on_text_keeps_other_sessions) Sample.x "cancel"
                (Bot.mkState [Sample.devcon]
                   {[ 42%Z := flow_state "join_conference" None None;
                      7%Z := flow_state "set_slide" (Some "enter_url") (Some "abc123") ]}
                   ∅ [] [])
                7%Z ltac:(done)) as [[Hu _] _].
    etrans; [exact Hu|reflexivity].
  - destruct (at_sample (@on_text_keeps_other_sessions) Sample.x "nowhere"
                (Bot.mkState [Sample.devcon]
                   {[ 42%Z := flow_state "join_conference" None None;
                      7%Z := flow_state "set_slide" (Some "enter_url") (Some "abc123") ]}
                   ∅ [] [])
                7%Z ltac:(done)) as [_ Hsame].
    specialize (Hsame (Bot.mkState [Sample.devcon]
                         {[ 42%Z := flow_state "join_conference" None None ]}
                         {[ 7%Z := mkOnboarding 2 empty_data ]}
                         [Reply MsgCancelled NoMarkup] [])).
    destruct Hsame as (Hr & _ & _ & _ & Ho & _); [reflexivity..|].
    split; [exact Hr|exact Ho].
Defined.

Lemma on_text_replies_once_witness :
  exists m k,
    Bot.outbox (snd (Sample.on_text Sample.x "abc123" (sample_in_flow
                       (flow_state "join_conference" None None))))
    = [Reply m k].
Proof.
  apply (at_sample (@on_text_replies_once)). reflexivity.
Defined.

Lemma on_text_session_step_witness :
  let s := sample_in_flow (flow_state "create_poll" (Some "enter_question") (Some "abc123")) in
  session_step 42 s (snd (Sample.on_message Sample.x "Lunch or dinner?" s)).
Proof.
  cbv zeta.
  apply (at_sample_message (@on_text_session_step) Sample.x "Lunch or dinner?"); reflexivity.
Defined.

Lemma text_ends_session_waiting_for_button_witness :
  let s := sample_in_flow (flow_state "polls" (Some "select_conference") None) in
  Sample.on_message Sample.x "which polls are open?" s =
  (Ok tt, cleared 42 (replied MsgUnhandled (MainMenu Sample.x) s)).
Proof.
  apply (at_sample_message (@text_ends_session_waiting_for_button) Sample.x _ _
           (flow_state "polls" (Some "select_conference") None)); try reflexivity.
  discriminate.
Defined.

Lemma create_poll_two_steps_witness :
  let s := sample_in_flow (flow_state "create_poll" (Some "enter_question") (Some "abc123")) in
  let s1 := snd (Sample.on_message Sample.x (nbsp +:+ "Lunch or dinner?" +:+ nbsp) s) in
  Bot.userState s1 !! 42%Z =
    Some (mkFlowState "create_poll" (Some "enter_options") (Some "abc123")
                      (Some "Lunch or dinner?") None None None None) /\
  Sample.on_message Sample.x "Lunch, " s1 =
  (Ok tt, Bot.mkState [Sample.devcon] (Bot.userState s1) (Bot.onboardingState s1)
                      (Bot.outbox s1 ++ [Reply MsgNeedTwoOptions NoMarkup]) (Bot.console s1)).
Proof.
  cbv zeta.
  destruct (at_sample_message (@create_poll_two_steps) Sample.x
              (nbsp +:+ "Lunch or dinner?" +:+ nbsp) "Lunch, "
              (sample_in_flow (flow_state "create_poll" (Some "enter_question") (Some "abc123")))
              (flow_state "create_poll" (Some "enter_question") (Some "abc123"))
              eq_refl eq_refl eq_refl eq_refl eq_refl eq_refl eq_refl eq_refl eq_refl)
    as (_ & Hu & _ & Hfew & _).
  split.
  - unfold Sample.on_message. rewrite Hu. reflexivity.
  - apply Hfew. vm_compute. lia.
Defined.

Lemma assign_admin_step_guards_witness :
  let s := sample_in_flow (flow_state "assign_admin" (Some "enter_telegram_id") (Some "abc123")) in
  Sample.on_message Sample.x (nbsp +:+ "200") s =
  (Ok tt, Bot.mkState [Sample.devcon] (delete 42%Z (Bot.userState s))
                      (delete 42%Z (Bot.onboardingState s))
                      [Reply MsgAccessDenied NoMarkup] []).
Proof.
  cbv zeta.
  destruct (at_sample_message (@assign_admin_step_guards) Sample.x (nbsp +:+ "200")
              (sample_in_flow (flow_state "assign_admin" (Some "enter_telegram_id")
                                          (Some "abc123")))
              (flow_state "assign_admin" (Some "enter_telegram_id") (Some "abc123"))
              eq_refl eq_refl eq_refl eq_refl eq_refl eq_refl)
    as (Hdenied & _).
  apply Hdenied. reflexivity.
Defined.

Lemma join_by_code_witness :
  let s := sample_in_flow (flow_state "join_conference" None None) in
  Bot.userState (snd (Sample.on_message Sample.x "nowhere" s)) = Bot.userState s /\
  Bot.outbox (snd (Sample.on_message Sample.x "nowhere" s)) = [Reply MsgJoinNotFound NoMarkup].
Proof.
  cbv zeta.
  destruct (at_sample_message (@join_by_code) Sample.x "nowhere"
              (sample_in_flow (flow_state "join_conference" None None))
              (flow_state "join_conference" None None)
              eq_refl eq_refl eq_refl eq_refl eq_refl)
    as (_ & _ & Hthrow).
  destruct (Hthrow (Err "CONFERENCE_NOT_FOUND") eq_refl) as (Hu & _ & _ & Ho & _).
  split; [exact Hu|exact Ho].
Defined.

Lemma onboarding_optional_step_witness :
  let d := mkProfileData (Some "Ivan") (Some "Ivanov") None None None None in
  Sample.on_message Sample.x ("AI," +:+ nbsp +:+ "Web3") (sample_onboarding 2 d) =
  (Ok tt, Bot.mkState [Sample.devcon] ∅
            (<[42%Z := mkOnboarding 3 (mkProfileData (Some "Ivan") (Some "Ivanov")
                                                      (Some ["AI"; "Web3"]) None None None)]>
               (Bot.onboardingState (sample_onboarding 2 d)))
            [Reply (MsgOnboardingStep 3) NoMarkup] []) /\
  Sample.on_message Sample.x "-" (sample_onboarding 2 d) =
  (Ok tt, Bot.mkState [Sample.devcon] ∅
            (<[42%Z := mkOnboarding 3 d]> (Bot.onboardingState (sample_onboarding 2 d)))
            [Reply (MsgOnboardingStep 3) NoMarkup] []).
Proof.
  cbv zeta. split.
  - destruct (at_sample_message (@onboarding_optional_step) Sample.x ("AI," +:+ nbsp +:+ "Web3")
                (sample_onboarding 2 (mkProfileData (Some "Ivan") (Some "Ivanov")
                                                    None None None None))
                (mkOnboarding 2 (mkProfileData (Some "Ivan") (Some "Ivanov")
                                               None None None None))
                eq_refl eq_refl eq_refl eq_refl eq_refl ltac:(simpl; lia)) as [_ H].
    apply H. discriminate.
  - destruct (at_sample_message (@onboarding_optional_step) Sample.x "-"
                (sample_onboarding 2 (mkProfileData (Some "Ivan") (Some "Ivanov")
                                                    None None None None))
                (mkOnboarding 2 (mkProfileData (Some "Ivan") (Some "Ivanov")
                                               None None None None))
                eq_refl eq_refl eq_refl eq_refl eq_refl ltac:(simpl; lia)) as [H _].
    apply H. reflexivity.
Defined.

Lemma find_participants_query_witness :
  let s := sample_in_flow (flow_state "find_participants" (Some "enter_query") (Some "abc123")) in
  Bot.userState (snd (Sample.on_message Sample.x "Speaker machine learning" s))
    = Bot.userState s /\
  Bot.outbox (snd (Sample.on_message Sample.x "Speaker machine learning" s))
    = [Reply MsgSearchError (MainMenu Sample.x)].
Proof.
  cbv zeta.
  destruct (at_sample_message (@find_participants_query) Sample.x "Speaker machine learning"
              (sample_in_flow (flow_state "find_participants" (Some "enter_query")
                                          (Some "abc123")))
              (flow_state "find_participants" (Some "enter_query") (Some "abc123"))
              eq_refl eq_refl eq_refl eq_refl eq_refl eq_refl)
    as (_ & _ & Hthrow).
  destruct (Hthrow (Err "CONFERENCE_NOT_FOUND") eq_refl) as (Hu & _ & Ho).
  split; [exact Hu|exact Ho].
Defined.

Lemma validation_errors_reach_the_user_witness :
  let schema (d : ProfileData) :=
    mkJoiResult (match pd_firstName d with
                 | Some _ => None
                 | None => Some ["firstName is required"; "too short"]
                 end) d in
  validate schema empty_data
    = Throw (Err "VALIDATION_ERROR: firstName is required; too short") /\
  Bot.onboarding_error (Err "VALIDATION_ERROR: firstName is required; too short")
    = MsgValidationError "firstName is required; too short".
Proof.
  cbv zeta.
  destruct (@validation_errors_reach_the_user (list Conference.t)
              (fun _ _ _ _ => throw (Err "CONFERENCE_NOT_FOUND")) ProfileData ProfileData
              (fun d => mkJoiResult (match pd_firstName d with
                                     | Some _ => None
                                     | None => Some ["firstName is required"; "too short"]
                                     end) d)
              empty_data) as [_ H].
  destruct (H ["firstName is required"; "too short"] eq_refl) as (e & Hv & Hm & Hd & _).
  unfold validate in Hv. simpl in Hv. injection Hv as <-.
  split; [reflexivity|exact Hd].
Defined.

End BotFurtherExamples.

(** ** Commands, root menus and confirmations *)

Lemma split_nonempty sep s : JsString.split sep s <> [].
Proof.
  destruct s as [|c s]; simpl; [done|].
  destruct (decide (c = sep)); [done|]. by destruct (JsString.split sep s).
Qed.

(** [split] then [join] on the same separator gives the string back. *)
Lemma join_split sep s :
  JsString.join (String sep EmptyString) (JsString.split sep s) = s.
Proof.
  induction s as [|c s IH]; simpl; [done|].
  destruct (decide (c = sep)) as [->|Hc].
  - pose proof (split_nonempty sep s) as Hne.
    destruct (JsString.split sep s) as [|w ws]; [done|].
    change (JsString.join (String sep "") ("" :: w :: ws))
      with ("" +:+ String sep "" +:+ JsString.join (String sep "") (w :: ws)).
    rewrite IH. done.
  - pose proof (split_nonempty sep s) as Hne.
    destruct (JsString.split sep s) as [|w ws]; [done|].
    destruct ws as [|w' ws].
    + simpl in *. by rewrite IH.
    + change (JsString.join (String sep "") (String c w :: w' :: ws))
        with (String c (w +:+ String sep "" +:+ JsString.join (String sep "") (w' :: ws))).
      change (JsString.join (String sep "") (w :: w' :: ws))
        with (w +:+ String sep "" +:+ JsString.join (String sep "") (w' :: ws)) in IH.
      by rewrite IH.
Qed.

Lemma split_no_sep sep a rest :
  sep ∉ list_ascii_of_string a ->
  JsString.split sep (a +:+ String sep rest) = a :: JsString.split sep rest.
Proof.
  induction a as [|c a IH]; intros Hn; simpl.
  - by rewrite decide_True.
  - simpl in Hn. apply not_elem_of_cons in Hn as [Hc Hn].
    rewrite decide_False by done. by rewrite (IH Hn).
Qed.

Lemma split_no_sep_end sep a :
  sep ∉ list_ascii_of_string a -> JsString.split sep a = [a].
Proof.
  induction a as [|c a IH]; intros Hn; simpl; [done|].
  simpl in Hn. apply not_elem_of_cons in Hn as [Hc Hn].
  rewrite decide_False by done. by rewrite (IH Hn).
Qed.

Lemma split_head sep s :
  exists a ws, JsString.split sep s = a :: ws /\ (sep ∉ list_ascii_of_string a) /\
               ((ws = [] /\ s = a) \/
                (exists rest, s = a +:+ String sep rest /\ ws = JsString.split sep rest)).
Proof.
  induction s as [|c s IH]; simpl.
  - exists "", []. split; [done|]. split; [simpl; apply not_elem_of_nil|]. by left.
  - destruct IH as (a & ws & Hs & Hn & Hr).
    destruct (decide (c = sep)) as [->|Hc].
    + exists "", (JsString.split sep s). split; [done|].
      split; [simpl; apply not_elem_of_nil|]. right. by exists s.
    + rewrite Hs. exists (String c a), ws. split; [done|].
      split; [simpl; by apply not_elem_of_cons|].
      destruct Hr as [[-> ->]|(rest & -> & ->)]; [by left|].
      right. by exists rest.
Qed.

Lemma confirmation_with_code a code :
  ":"%char ∉ list_ascii_of_string a ->
  Menu.confirmation (a +:+ ":" +:+ code) = (Some a, code).
Proof.
  intros Hn. unfold Menu.confirmation.
  change (a +:+ ":" +:+ code) with (a +:+ String ":" code).
  rewrite (split_no_sep _ _ _ Hn). simpl head. simpl tail.
  by rewrite (join_split ":" code).
Qed.

Lemma confirmation_yes fullMatch :
  fst (Menu.confirmation fullMatch) = Some "yes" ->
  fullMatch = "yes" \/ JsString.startsWith fullMatch "yes:" = true.
Proof.
  unfold Menu.confirmation. simpl fst.
  destruct (split_head ":" fullMatch) as (a & ws & -> & _ & Hr). simpl.
  intros [= ->]. destruct Hr as [[_ ->]|(rest & -> & _)]; [by left|right; by destruct rest].
Qed.

Section MenuProperties.

Context {W : Type}.
Variable ensureUserFromTelegram : From -> W -> User.t * W.
Variable getUserRoles : From -> W -> Roles.
Variable endConference : string -> User.t -> M W Conference.t.
Variable deleteConference : string -> User.t -> M W unit.

Local Abbreviation end_conf := (Menu.action_admin_end_conf ensureUserFromTelegram endConference).
Local Abbreviation delete_conf :=
  (Menu.action_admin_delete_conf_confirm ensureUserFromTelegram deleteConference).

(** The dialog state and the log of a bot state, everything but the world. *)
Local Abbreviation same_dialogs b b' :=
  (Bot.userState b' = Bot.userState b /\
   Bot.onboardingState b' = Bot.onboardingState b /\
   Bot.outbox b' = Bot.outbox b).

(** X19. The confirmation buttons of "end conference" and "delete
    conference" carry [yes:<code>]: the handler hands the service exactly
    [<code>], colons included, for the account of the sender. What the
    service returns decides the answer: the conference is reported ended by
    its title (deleted by the code that was sent), and a thrown error is
    logged and reported as a failure; the dialogs are not touched. *)
Theorem confirmed_action_gets_the_code from code (s : Menu.State W) :
  let '(account, w1) := ensureUserFromTelegram from (Bot.world (Menu.bot s)) in
  (exists s', end_conf from ("yes:" +:+ code) s = (Ok tt, s') /\
     same_dialogs (Menu.bot s) (Menu.bot s') /\
     match endConference code account w1 with
     | (Ok conference, w2) =>
         Bot.world (Menu.bot s') = w2 /\
         Bot.console (Menu.bot s') = Bot.console (Menu.bot s) /\
         Menu.shown s' = Menu.shown s ++
           [Menu.Answered;
            Menu.Edited (Menu.TxtConferenceEnded (Conference.title conference))
                        Menu.KbConferenceAdmin]
     | (Throw e, w2) =>
         Bot.world (Menu.bot s') = w2 /\
         Bot.console (Menu.bot s') =
           Bot.console (Menu.bot s) ++ [("Error in admin:end_conf", e)] /\
         Menu.shown s' = Menu.shown s ++
           [Menu.Answered; Menu.Edited Menu.TxtEndFailed Menu.KbConferenceAdmin]
     end) /\
  (exists s', delete_conf from ("yes:" +:+ code) s = (Ok tt, s') /\
     same_dialogs (Menu.bot s) (Menu.bot s') /\
     match deleteConference code account w1 with
     | (Ok _, w2) =>
         Bot.world (Menu.bot s') = w2 /\
         Bot.console (Menu.bot s') = Bot.console (Menu.bot s) /\
         Menu.shown s' = Menu.shown s ++
           [Menu.Answered;
            Menu.Edited (Menu.TxtConferenceDeleted code) Menu.KbConferenceAdmin]
     | (Throw e, w2) =>
         Bot.world (Menu.bot s') = w2 /\
         Bot.console (Menu.bot s') =
           Bot.console (Menu.bot s) ++ [("Error in admin:delete_conf_confirm", e)] /\
         Menu.shown s' = Menu.shown s ++
           [Menu.Answered; Menu.Edited Menu.TxtDeleteFailed Menu.KbConferenceAdmin]
     end).
Proof.
  destruct (ensureUserFromTelegram from (Bot.world (Menu.bot s))) as [account w1] eqn:Hu.
  assert (Hc : Menu.confirmation ("yes:" +:+ code) = (Some "yes", code)).
  { apply (confirmation_with_code "yes" code). simpl. intros H.
    repeat (apply elem_of_cons in H as [H|H]; [done|]). by apply elem_of_nil in H. }
  split.
  - unfold Menu.action_admin_end_conf. unfold bind at 1, Menu.show at 1, modify.
    rewrite Hc. rewrite bool_decide_true by done.
    unfold try_catch, bind, Menu.ensureUser, Menu.on_bot, Bot.ensureUser, Bot.on_world,
      Menu.show, Bot.console_error, modify. simpl. rewrite Hu. simpl.
    destruct (endConference code account w1) as [[c|e] w2]; simpl;
      (eexists; split; [reflexivity|]; simpl; repeat split; try done;
       by rewrite <- app_assoc).
  - unfold Menu.action_admin_delete_conf_confirm. unfold bind at 1, Menu.show at 1, modify.
    rewrite Hc. rewrite bool_decide_true by done.
    unfold try_catch, bind, Menu.ensureUser, Menu.on_bot, Bot.ensureUser, Bot.on_world,
      Menu.show, Bot.console_error, modify. simpl. rewrite Hu. simpl.
    destruct (deleteConference code account w1) as [[c|e] w2]; simpl;
      (eexists; split; [reflexivity|]; simpl; repeat split; try done;
       by rewrite <- app_assoc).
Qed.

(** X20. Anything but [yes] before the first colon is a refusal: neither
    service runs, no account is looked up, the world, the dialogs and the
    log are as before, and the user reads that nothing was done. *)
Theorem unconfirmed_action_does_nothing from fullMatch (s : Menu.State W) :
  fullMatch <> "yes" ->
  JsString.startsWith fullMatch "yes:" = false ->
  end_conf from fullMatch s =
    (Ok tt, Menu.mkState (Menu.bot s)
              (Menu.shown s ++
               [Menu.Answered; Menu.Edited Menu.TxtNotConfirmed Menu.KbConferenceAdmin])) /\
  delete_conf from fullMatch s =
    (Ok tt, Menu.mkState (Menu.bot s)
              (Menu.shown s ++
               [Menu.Answered; Menu.Edited Menu.TxtNotConfirmed Menu.KbConferenceAdmin])).
Proof.
  intros Hne Hsw.
  assert (Hno : fst (Menu.confirmation fullMatch) <> Some "yes").
  { intros H. apply confirmation_yes in H as [H|H]; congruence. }
  unfold Menu.action_admin_end_conf, Menu.action_admin_delete_conf_confirm.
  unfold bind, Menu.show, modify.
  destruct (Menu.confirmation fullMatch) as [action conferenceCode]. simpl in Hno.
  rewrite bool_decide_false by done. simpl. by rewrite <- !app_assoc.
Qed.

Local Abbreviation root_entries from :=
  [Menu.start ensureUserFromTelegram getUserRoles from;
   Menu.command_cancel from;
   Menu.action_menu_main from;
   Menu.action_menu_speaker from;
   Menu.action_menu_conference_admin from;
   Menu.action_menu_main_admin from].

(** X21. [/start], [/cancel] and the four root menus all end the dialog of
    the sender: afterwards they have neither a flow state nor an onboarding
    state, whatever they had; the dialogs of everyone else are kept, and
    only [/start] looks the account up. *)
Theorem root_entries_end_the_dialog from (h : M (Menu.State W) unit) (s : Menu.State W) :
  h ∈ root_entries from ->
  exists s', h s = (Ok tt, s') /\
    Bot.userState (Menu.bot s') = delete (from_id from) (Bot.userState (Menu.bot s)) /\
    Bot.onboardingState (Menu.bot s') =
      delete (from_id from) (Bot.onboardingState (Menu.bot s)) /\
    Bot.outbox (Menu.bot s') = Bot.outbox (Menu.bot s) /\
    Bot.console (Menu.bot s') = Bot.console (Menu.bot s) /\
    (h <> Menu.start ensureUserFromTelegram getUserRoles from ->
     Bot.world (Menu.bot s') = Bot.world (Menu.bot s)) /\
    length (Menu.shown s) < length (Menu.shown s').
Proof.
  intros Hh. repeat (apply elem_of_cons in Hh as [->|Hh]); [..|by apply elem_of_nil in Hh].
  - unfold Menu.start, Menu.ensureUser, Menu.on_bot, Bot.ensureUser, Bot.on_world,
      Bot.clearUserState, Bot.userState_delete, Bot.onboardingState_delete,
      Menu.show, bind, get, modify. simpl.
    destruct (ensureUserFromTelegram _ _) as [account w1]. simpl.
    eexists. split; [done|]. simpl. repeat split; try done.
    rewrite !length_app. simpl. lia.
  - eexists. split; [done|]. simpl. repeat split; try done. rewrite !length_app. simpl. lia.
  - eexists. split; [done|]. simpl. repeat split; try done. rewrite !length_app. simpl. lia.
  - eexists. split; [done|]. simpl. repeat split; try done. rewrite !length_app. simpl. lia.
  - eexists. split; [done|]. simpl. repeat split; try done. rewrite !length_app. simpl. lia.
  - eexists. split; [done|]. simpl. repeat split; try done. rewrite !length_app. simpl. lia.
Qed.

End MenuProperties.

Lemma unconfirmed_action_does_nothing_witness :
  Menu.action_admin_end_conf Sample.ensureUserFromTelegram
    (fun _ _ => throw (Err "CONFERENCE_NOT_FOUND")) Sample.x "no:abc123"
    (Menu.mkState Sample.editing []) =
  (Ok tt, Menu.mkState Sample.editing
            [Menu.Answered; Menu.Edited Menu.TxtNotConfirmed Menu.KbConferenceAdmin]).
Proof.
  apply (unconfirmed_action_does_nothing Sample.ensureUserFromTelegram
           (fun _ _ => throw (Err "CONFERENCE_NOT_FOUND"))
           (fun _ _ => throw (Err "CONFERENCE_NOT_FOUND"))
           Sample.x "no:abc123" (Menu.mkState Sample.editing [])); done.
Defined.

Lemma root_entries_end_the_dialog_witness :
  exists s',
    Menu.action_menu_main Sample.x (Menu.mkState Sample.editing []) = (Ok tt, s') /\
    Bot.userState (Menu.bot s') !! 42%Z = None /\
    Bot.onboardingState (Menu.bot s') !! 42%Z = None.
Proof.
  destruct (root_entries_end_the_dialog Sample.ensureUserFromTelegram
              (fun _ _ => mkRoles false false [] false) Sample.x
              (Menu.action_menu_main Sample.x) (Menu.mkState Sample.editing []))
    as (s' & H & Hu & Ho & _).
  { apply elem_of_cons; right. apply elem_of_cons; right. apply elem_of_cons; by left. }
  exists s'. split; [exact H|]. rewrite Hu, Ho. split; apply lookup_delete_eq.
Defined.
(** ** The dialogs over the services *)

Lemma pretty_N_go_nonempty x s : s <> "" -> pretty_N_go x s <> "".
Proof.
  revert s. induction (N.lt_wf_0 x) as [x _ IH]; intros s Hs.
  assert (x = 0 \/ 0 < x)%N as [->|Hx] by lia.
  - by rewrite pretty_N_go_0.
  - rewrite pretty_N_go_step by done. apply IH; [by apply N.div_lt|done].
Qed.

(** [String(n)] of a number is never the empty string. *)
Lemma pretty_Z_truthy (z : Z) : JsString.truthy (pretty z) = true.
Proof.
  assert (Hp : forall p : positive, JsString.truthy (pretty p) = true).
  { intros p. unfold pretty, pretty_positive, pretty, pretty_N.
    rewrite decide_False by done. rewrite pretty_N_go_step by lia.
    pose proof (pretty_N_go_nonempty (N.pos p `div` 10)
                  (String (pretty_N_char (N.pos p `mod` 10)) "")) as H.
    destruct (pretty_N_go _ _); [by destruct H|done]. }
  destruct z as [|p|p]; [done|apply Hp|done].
Qed.

Lemma by_code_with_slide code c u t :
  by_code code (Conference.with_slide c u t) = by_code code c.
Proof. done. Qed.

Section EndToEnd.

Context {engine : JsString.Engine}.
Variable validate_profile : ProfileData -> Result ProfileData.
Variable validate_slide : SlideInput -> Result SlideData.
Variable ensureUserFromTelegram : From -> World -> User.t * World.
Variable userIsMainAdmin : User.t -> bool.
Variable listConferencesForUser : User.t -> World -> list Conference.t.
Variable joinConference : From -> string -> M World (Conference.t * UserProfile.t).
Variable searchProfiles :
  option string -> option string -> option string -> option nat ->
  M World (Conference.t * list UserProfile.t).
Variable askQuestion : From -> option string -> string -> option string -> M World Conference.t.
Variable answerQuestion : User.t -> option string -> option string -> string -> M World Question.
Variable updateConference :
  option string -> User.t -> option string -> option string -> M World Conference.t.
Variable createPoll : User.t -> option string -> option string -> list string -> M World Poll.t.
Variable Poll_findById : option string -> World -> option Poll.t.
Variable Conference_findById : ObjectId -> World -> option Conference.t.
Variable updatePoll : User.t -> option string -> option string -> M World Poll.t.
Variable assignConferenceAdmin : User.t -> option string -> string -> M World unit.
Variable setSlide :
  User.t -> option string -> option string -> option string -> M World Conference.t.
Variable createConference : User.t -> string -> string -> M World Conference.t.

(** The text handler with the profile service behind it. *)
Local Abbreviation on_text :=
  (Bot.on_text validate_profile ensureUserFromTelegram userIsMainAdmin joinConference
     (ProfileService.upsertProfileForConference validate_profile)
     searchProfiles askQuestion answerQuestion updateConference
     createPoll Poll_findById Conference_findById updatePoll assignConferenceAdmin setSlide
     createConference).

(** A text message with the profile service behind it: the reply keyboard
    first, then the text handler. *)
Local Abbreviation on_message :=
  (Bot.on_message validate_profile ensureUserFromTelegram userIsMainAdmin
     listConferencesForUser joinConference
     (ProfileService.upsertProfileForConference validate_profile)
     searchProfiles askQuestion answerQuestion updateConference
     createPoll Poll_findById Conference_findById updatePoll assignConferenceAdmin setSlide
     createConference).

Lemma on_message_unlabelled from message_text :
  Bot.is_label message_text = false ->
  on_message from message_text = on_text from message_text.
Proof. apply on_message_text. Qed.

(** X22. The last step of onboarding, with the profile service behind it,
    for a text message that is neither a command, a cancel word nor a label
    of the reply keyboard. The trimmed text, which is not empty, is the code
    handed to [joinConference]. When that
    throws, or when the validation rejects the collected data, the
    onboarding stays where it was and the error is logged and answered; in
    the second case the conference is joined all the same. Otherwise the
    sender's profile for that conference is in the collection, marked as
    onboarded and carrying every field the validated data has, the
    conferences and the socket server are as [joinConference] left them, and
    both sessions are dropped. *)
Theorem onboarding_last_step from message_text (s : Bot.State World) ob :
  Bot.is_label message_text = false ->
  JsString.startsWith message_text "/" = false ->
  Bot.is_cancel (JsString.trim message_text) = false ->
  Bot.userState s !! from_id from = None ->
  Bot.onboardingState s !! from_id from = Some ob ->
  ob_step ob = 5%Z ->
  JsString.trim (JsString.trim message_text) <> "" ->
  let code := JsString.trim (JsString.trim message_text) in
  let failed w e :=
    (Ok tt, Bot.mkState w (Bot.userState s) (Bot.onboardingState s)
              (Bot.outbox s ++ [Reply (Bot.onboarding_error e) NoMarkup])
              (Bot.console s ++ [("Error in onboarding flow", e)])) in
  match joinConference from code (Bot.world s) with
  | (Throw e, w1) => on_message from message_text s = failed w1 e
  | (Ok joined, w1) =>
      match validate_profile (ob_data ob) with
      | Throw e => on_message from message_text s = failed w1 e
      | Ok v =>
          exists p w2,
            on_message from message_text s =
            (Ok tt, Bot.mkState w2 (delete (from_id from) (Bot.userState s))
                      (delete (from_id from) (Bot.onboardingState s))
                      (Bot.outbox s ++
                       [Reply (MsgProfileCompleted (Conference.title (fst joined)))
                              (MainMenu from)])
                      (Bot.console s)) /\
            conferences w2 = conferences w1 /\
            ioInstance w2 = ioInstance w1 /\
            p ∈ profiles w2 /\
            UserProfile.telegramId p = pretty (from_id from) /\
            UserProfile.conference p = Conference._id (fst joined) /\
            UserProfile.onboardingCompleted p = true /\
            (forall x, pd_firstName v = Some x -> UserProfile.firstName p = Some x) /\
            (forall x, pd_lastName v = Some x -> UserProfile.lastName p = Some x) /\
            (forall x, pd_interests v = Some x -> UserProfile.interests p = Some x) /\
            (forall x, pd_offerings v = Some x -> UserProfile.offerings p = Some x) /\
            (forall x, pd_lookingFor v = Some x -> UserProfile.lookingFor p = Some x)
      end
  end.
Proof.
  intros Hl. rewrite (on_message_unlabelled _ _ Hl).
  intros H1 H2 H3 H4 Hstep Hcode code failed.
  rewrite (on_text_onboarding _ _ _ _ _ _ _ _ _ _ _ _ _ _ _ _ _ _ _ _ H1 H2 H3 H4).
  set (upsert := ProfileService.upsertProfileForConference validate_profile).
  unfold Bot.onboarding_flow, Bot.onboarding_try, try_catch. rewrite Hstep.
  rewrite (bool_decide_false (5 = 1)%Z), (bool_decide_false (5 = 2)%Z),
    (bool_decide_false (5 = 3)%Z), (bool_decide_false (5 = 4)%Z),
    (bool_decide_true (5 = 5)%Z) by done.
  fold code.
  assert (Ht : JsString.truthy code = true) by (subst code; by destruct (JsString.trim (JsString.trim message_text))).
  rewrite Ht. cbn [negb].
  unfold bind, Bot.on_world, Bot.clearUserState, Bot.userState_delete,
    Bot.onboardingState_delete, Bot.reply, Bot.send, Bot.console_error, modify.
  cbn [Bot.world].
  destruct (joinConference from code (Bot.world s)) as [[joined|e] w1]; [|done].
  subst upsert. rewrite upsert_eq, pretty_Z_truthy. cbn [negb].
  destruct (validate_profile (ob_data ob)) as [v|e]; [|done].
  cbn [Bot.world].
  match goal with
  | |- context [findOne ?P (profiles w1)] =>
      destruct (findOne P (profiles w1)) as [[i p0]|] eqn:Hf
  end.
  - exists (ProfileService.complete (ProfileService.Object_assign p0 v)). eexists.
    split; [reflexivity|]. simpl.
    apply findOne_Some in Hf as [Hi Hk].
    unfold ProfileService.by_keys in Hk. apply andb_true_iff in Hk as [Hk1 Hk2].
    apply bool_decide_eq_true in Hk1, Hk2.
    repeat split; try done.
    + eapply list_elem_of_lookup_2. apply list_lookup_insert_eq. by eapply lookup_lt_Some.
    + by intros x ->.
    + by intros x ->.
    + by intros x ->.
    + by intros x ->.
    + by intros x ->.
  - exists (ProfileService.complete
              (ProfileService.Object_assign
                 (ProfileService.new_UserProfile
                    (ProfileService.newObjectId (profiles w1))
                    (pretty (from_id from)) (Conference._id (fst joined))) v)).
    eexists. split; [reflexivity|]. simpl.
    repeat split; try done.
    + apply elem_of_app. right. apply list_elem_of_singleton. reflexivity.
    + by intros x ->.
    + by intros x ->.
    + by intros x ->.
    + by intros x ->.
    + by intros x ->.
Qed.

(** The flows read the conference of the session, which a session may
    lack; with one, the slide and the matching service are what runs. *)
Hypothesis setSlide_is :
  forall u c url title,
    setSlide u (Some c) url title =
    SlideService.setSlide userIsMainAdmin validate_slide u c url title.
Hypothesis searchProfiles_is :
  forall c role text lim,
    searchProfiles (Some c) role text lim = MatchingService.searchProfiles c role text lim.

(** X23. The slide dialog, with the slide service behind it, for a text
    message that is neither a command, a cancel word nor a label of the
    reply keyboard. The first word of the trimmed text is the url and the other words, joined by one space,
    the title. Whatever makes [setSlide] throw (the validation, an unknown
    code, a sender who may not moderate) gives the same answer, is logged,
    keeps the session for another try and leaves the conferences and the
    socket server alone. When it succeeds the conference carries the
    validated slide, the event went to the socket server, and both sessions
    are dropped. *)
Theorem set_slide_dialog from message_text (s : Bot.State World) state code :
  Bot.is_label message_text = false ->
  JsString.startsWith message_text "/" = false ->
  Bot.is_cancel (JsString.trim message_text) = false ->
  Bot.userState s !! from_id from = Some state ->
  flow state = "set_slide" ->
  step state = Some "enter_url" ->
  conferenceCode state = Some code ->
  let parts := Bot.words (JsString.trim message_text) in
  let input := mkSlideInput (head parts) (JsString.join " " (tail parts)) code in
  let '(account, w1) := ensureUserFromTelegram from (Bot.world s) in
  let failed e :=
    (Ok tt, Bot.mkState w1 (Bot.userState s) (Bot.onboardingState s)
              (Bot.outbox s ++ [Reply MsgSlideFailed NoMarkup])
              (Bot.console s ++ [("Error in set_slide flow", e)])) in
  match validate_slide input with
  | Throw e => on_message from message_text s = failed e
  | Ok v =>
      match findOne (by_code (sd_conferenceCode v)) (conferences w1) with
      | None => on_message from message_text s = failed (Err "CONFERENCE_NOT_FOUND")
      | Some (slot, conference) =>
          if may_moderate userIsMainAdmin account conference w1 then
            exists w2 k,
              on_message from message_text s =
              (Ok tt, Bot.mkState w2 (delete (from_id from) (Bot.userState s))
                        (delete (from_id from) (Bot.onboardingState s))
                        (Bot.outbox s ++ [Reply MsgSlideUpdated k]) (Bot.console s)) /\
              conferences w2 !! slot =
                Some (Conference.with_slide conference (Some (sd_url v))
                                            (Some (sd_title v))) /\
              profiles w2 = profiles w1 /\
              published w1 w2 =
                match ioInstance w1 with
                | Some _ => [slide_updated (Conference._id conference)
                                           (JString (sd_url v)) (JString (sd_title v))]
                | None => []
                end
          else on_message from message_text s = failed (Err "ACCESS_DENIED")
      end
  end.
Proof.
  intros Hl. rewrite (on_message_unlabelled _ _ Hl).
  intros H1 H2 H3 Hf Hs Hc parts input.
  destruct (ensureUserFromTelegram from (Bot.world s)) as [account w1] eqn:Hu.
  intros failed.
  rewrite (on_text_state _ _ _ _ _ _ _ _ _ _ _ _ _ _ _ _ _ _ _ _ H1 H2 H3).
  assert (Hd : forall t,
            Bot.state_flow ensureUserFromTelegram userIsMainAdmin joinConference
              searchProfiles askQuestion answerQuestion updateConference createPoll
              Poll_findById Conference_findById updatePoll assignConferenceAdmin setSlide
              createConference from t state =
            Bot.set_slide_flow ensureUserFromTelegram setSlide from t state).
  { intros t. unfold Bot.state_flow, Bot.is_step. rewrite Hf, Hs. reflexivity. }
  rewrite Hd. unfold Bot.set_slide_flow, try_catch. rewrite Hc.
  fold parts.
  unfold bind, Bot.ensureUser, Bot.on_world, Bot.clearUserState, Bot.userState_delete,
    Bot.onboardingState_delete, Bot.reply, Bot.send, Bot.console_error, modify.
  rewrite Hu. cbn [Bot.world]. rewrite setSlide_is, setSlide_eq. cbn [or_empty]. fold input.
  destruct (validate_slide input) as [v|e]; [|done].
  destruct (findOne _ (conferences w1)) as [[slot conference]|] eqn:Hfind; [|done].
  destruct (may_moderate userIsMainAdmin account conference w1); [|done].
  cbn [Bot.world Bot.userState Bot.onboardingState Bot.outbox Bot.console].
  eexists _, _. split; [reflexivity|].
  apply findOne_Some in Hfind as [Hslot _].
  split; [|split]; cbn [Bot.world].
  - rewrite conferences_broadcast. unfold persisted. simpl.
    apply list_lookup_insert_eq. by eapply lookup_lt_Some.
  - unfold broadcast, persisted. simpl. by destruct (ioInstance w1).
  - unfold published, broadcast, persisted. simpl.
    destruct (ioInstance w1) as [sent|] eqn:Hio; simpl; rewrite ?Hio; [|done].
    by rewrite drop_app_length.
Qed.

(** X24. The participant search of the dialog, with the matching service
    behind it. A search never changes the world. With no conference for the
    code of the session the sender is told the search failed and the
    session is kept. Otherwise both sessions are dropped and the answer
    lists at most twenty profiles, each a stored, active and onboarded
    profile of that conference, or says that nobody was found. *)
Theorem find_participants_dialog from message_text (s : Bot.State World) state code :
  JsString.startsWith message_text "/" = false ->
  Bot.is_cancel (JsString.trim message_text) = false ->
  Bot.userState s !! from_id from = Some state ->
  flow state = "find_participants" ->
  step state = Some "enter_query" ->
  conferenceCode state = Some code ->
  Bot.world (snd (on_text from message_text s)) = Bot.world s /\
  match findOne (by_code code) (conferences (Bot.world s)) with
  | None =>
      on_text from message_text s =
      (Ok tt, Bot.mkState (Bot.world s) (Bot.userState s) (Bot.onboardingState s)
                (Bot.outbox s ++ [Reply MsgSearchError (MainMenu from)])
                (Bot.console s ++
                 [("Error in find_participants flow", Err "CONFERENCE_NOT_FOUND")]))
  | Some (_, conference) =>
      exists m,
        on_text from message_text s =
        (Ok tt, Bot.mkState (Bot.world s) (delete (from_id from) (Bot.userState s))
                  (delete (from_id from) (Bot.onboardingState s))
                  (Bot.outbox s ++ [Reply m (MainMenu from)]) (Bot.console s)) /\
        (m = MsgNoParticipants \/
         exists found,
           m = MsgFound found /\ 0 < length found <= 20 /\
           forall p, p ∈ found ->
             p ∈ profiles (Bot.world s) /\
             UserProfile.conference p = Conference._id conference /\
             UserProfile.isActive p = true /\
             UserProfile.onboardingCompleted p = true)
  end.
Proof.
  intros H1 H2 H3 Hf Hs Hc.
  rewrite (on_text_state _ _ _ _ _ _ _ _ _ _ _ _ _ _ _ _ _ _ _ _ H1 H2 H3).
  rewrite (state_flow_find_participants _ _ _ _ _ _ _ _ _ _ _ _ _ _ _ _ _ Hf Hs).
  unfold Bot.find_participants_flow, try_catch.
  destruct (match Bot.words (JsString.trim message_text) with
            | [] => (None, None)
            | first :: rest =>
                if bool_decide (JsString.toLowerCase first ∈ Bot.known_roles)
                then (Some (JsString.toLowerCase first), Some (JsString.join " " rest))
                else (None, Some (JsString.trim message_text))
            end) as [role searchText].
  rewrite Hc, searchProfiles_is.
  unfold bind, Bot.on_world, Bot.clearUserState, Bot.userState_delete,
    Bot.onboardingState_delete, Bot.reply, Bot.send, Bot.console_error, modify.
  rewrite searchProfiles_eq.
  destruct (findOne _ (conferences (Bot.world s))) as [[slot conference]|]; [|done].
  set (capped := limit (default 20 (Some 20))
                   (List.filter (MatchingService.query conference role)
                                (profiles (Bot.world s)))).
  assert (Hcap : length capped <= 20) by (apply limit_length; simpl; lia).
  assert (Hin : forall p, p ∈ capped ->
            p ∈ profiles (Bot.world s) /\
            UserProfile.conference p = Conference._id conference /\
            UserProfile.isActive p = true /\
            UserProfile.onboardingCompleted p = true).
  { intros p Hp. apply limit_subset in Hp.
    apply list_elem_of_In, filter_In in Hp as [Hp Hq]. apply list_elem_of_In in Hp.
    unfold MatchingService.query in Hq.
    apply andb_true_iff in Hq as [Hq _]. apply andb_true_iff in Hq as [Hq Ho].
    apply andb_true_iff in Hq as [Hq Ha]. apply bool_decide_eq_true in Hq. done. }
  assert (Hgen : forall found : list UserProfile.t,
            length found <= 20 -> (forall p, p ∈ found -> p ∈ capped) ->
            exists m,
              (if length found =? 0 then MsgNoParticipants else MsgFound found) = m /\
              (m = MsgNoParticipants \/
               exists found0, m = MsgFound found0 /\ 0 < length found0 <= 20 /\
                 forall p, p ∈ found0 ->
                   p ∈ profiles (Bot.world s) /\
                   UserProfile.conference p = Conference._id conference /\
                   UserProfile.isActive p = true /\
                   UserProfile.onboardingCompleted p = true)).
  { intros found Hl Hsub. eexists. split; [reflexivity|].
    destruct (length found =? 0) eqn:Hz; [by left|]. right.
    apply Nat.eqb_neq in Hz. exists found. split; [done|]. split; [lia|].
    intros p Hp. apply Hin, Hsub, Hp. }
  destruct (MatchingService.text_given searchText) as [t|]; simpl.
  - destruct (Hgen (List.filter (MatchingService.text_matches t) capped)) as (m & Hm & Hprop).
    { etrans; [|exact Hcap]. apply sublist_length, filter_sublist_bool. }
    { intros p Hp. by apply list_elem_of_In, filter_In in Hp as [Hp%list_elem_of_In _]. }
    split.
    + by destruct (length _ =? 0).
    + exists m. split; [|done]. rewrite <- Hm. by destruct (length _ =? 0).
  - destruct (Hgen capped Hcap (fun p Hp => Hp)) as (m & Hm & Hprop).
    split.
    + by destruct (length _ =? 0).
    + exists m. split; [|done]. rewrite <- Hm. by destruct (length _ =? 0).
Qed.

End EndToEnd.

Section SlideButton.

Variable ensureUserFromTelegram : From -> World -> User.t * World.
Variable userIsMainAdmin : User.t -> bool.

(** X25. The button that clears the slide, with the slide service behind
    it. For a sender who may moderate the conference of the button, the
    stored conference has no slide afterwards and the next lookup by the
    code reads it so; the button that is shown leads back to the slides of
    that code. A sender who may not, or a code no conference carries, is
    told of an error, the reason is logged, and nothing else changes. The
    dialogs are never touched. *)
Theorem clear_slide_button from code (s : Menu.State World) :
  let '(account, w1) := ensureUserFromTelegram from (Bot.world (Menu.bot s)) in
  exists s',
    Menu.action_admin_clear_slide ensureUserFromTelegram
      (SlideService.clearSlide userIsMainAdmin) from code s = (Ok tt, s') /\
    Bot.userState (Menu.bot s') = Bot.userState (Menu.bot s) /\
    Bot.onboardingState (Menu.bot s') = Bot.onboardingState (Menu.bot s) /\
    Bot.outbox (Menu.bot s') = Bot.outbox (Menu.bot s) /\
    let refused e :=
      Bot.world (Menu.bot s') = w1 /\
      Bot.console (Menu.bot s') =
        Bot.console (Menu.bot s) ++ [("Error in admin:clear_slide", e)] /\
      Menu.shown s' = Menu.shown s ++
        [Menu.Answered; Menu.Edited Menu.TxtError Menu.KbConferenceAdmin] in
    match findOne (by_code code) (conferences w1) with
    | None => refused (Err "CONFERENCE_NOT_FOUND")
    | Some (slot, conference) =>
        if may_moderate userIsMainAdmin account conference w1 then
          findOne (by_code code) (conferences (Bot.world (Menu.bot s'))) =
            Some (slot, Conference.with_slide conference None None) /\
          profiles (Bot.world (Menu.bot s')) = profiles w1 /\
          Bot.console (Menu.bot s') = Bot.console (Menu.bot s) /\
          Menu.shown s' = Menu.shown s ++
            [Menu.Answered;
             Menu.Edited Menu.TxtSlideCleared (Menu.KbBack ("admin:slides:" +:+ code))]
        else refused (Err "ACCESS_DENIED")
    end.
Proof.
  destruct (ensureUserFromTelegram from (Bot.world (Menu.bot s))) as [account w1] eqn:Hu.
  unfold Menu.action_admin_clear_slide, try_catch, bind, Menu.ensureUser, Menu.on_bot,
    Bot.ensureUser, Bot.on_world, Menu.show, Bot.console_error, modify.
  cbn [Menu.bot Bot.world Menu.shown]. rewrite Hu. cbn [Menu.bot Bot.world Menu.shown].
  rewrite clearSlide_eq.
  destruct (findOne (by_code code) (conferences w1)) as [[slot conference]|] eqn:Hfind.
  - destruct (may_moderate userIsMainAdmin account conference w1).
    + eexists. split; [reflexivity|]. cbn. repeat split; try done.
      * rewrite conferences_broadcast. unfold persisted. simpl.
        apply (findOne_insert _ _ _ conference); [done|].
        apply findOne_Some in Hfind as [_ Hc]. done.
      * unfold broadcast, persisted. simpl. by destruct (ioInstance w1).
      * by rewrite <- app_assoc.
    + eexists. split; [reflexivity|]. cbn. repeat split; try done.
      by rewrite <- app_assoc.
  - eexists. split; [reflexivity|]. cbn. repeat split; try done.
    by rewrite <- app_assoc.
Qed.

End SlideButton.

(** ** The dialogs over the services, on examples *)

Section EndToEndExamples.

#[local] Existing Instance Sample.engine.

Local Abbreviation over_sample thm :=
  (thm sample_ensure Sample.userIsMainAdmin sample_join sample_search
       (fun _ _ _ _ => throw (Err "CONFERENCE_NOT_FOUND"))
       (fun _ _ _ _ => throw (Err "NOT_SPEAKER"))
       (fun _ _ _ _ => throw (Err "CONFERENCE_NOT_FOUND"))
       (fun _ _ _ _ => throw (Err "CONFERENCE_NOT_FOUND"))
       (fun _ _ => None)
       (fun _ _ => None)
       (fun _ _ _ => throw (Err "POLL_NOT_FOUND"))
       (fun _ _ _ => throw (Err "ACCESS_DENIED"))
       sample_slides
       (fun _ _ _ => throw (Err "ACCESS_DENIED"))).

Local Abbreviation over_sample_message thm :=
  (thm sample_ensure Sample.userIsMainAdmin sample_listing sample_join sample_search
       (fun _ _ _ _ => throw (Err "CONFERENCE_NOT_FOUND"))
       (fun _ _ _ _ => throw (Err "NOT_SPEAKER"))
       (fun _ _ _ _ => throw (Err "CONFERENCE_NOT_FOUND"))
       (fun _ _ _ _ => throw (Err "CONFERENCE_NOT_FOUND"))
       (fun _ _ => None)
       (fun _ _ => None)
       (fun _ _ _ => throw (Err "POLL_NOT_FOUND"))
       (fun _ _ _ => throw (Err "ACCESS_DENIED"))
       sample_slides
       (fun _ _ _ => throw (Err "ACCESS_DENIED"))).

(** The code of DevCon between a no-break space and a space. *)
Local Abbreviation padded_code := (JsString.of_bytes [194; 160]%N +:+ "abc123 ").

Lemma onboarding_last_step_witness :
  exists p,
    p ∈ profiles (Bot.world (snd (sample_message Sample.x padded_code
                                    (sample_last_step ivan)))) /\
    UserProfile.telegramId p = "42" /\
    UserProfile.conference p = 1%N /\
    UserProfile.onboardingCompleted p = true /\
    UserProfile.firstName p = Some "Ivan" /\
    UserProfile.interests p = Some ["AI"].
Proof.
  pose proof (over_sample_message (onboarding_last_step Sample.validate_profile)
                Sample.x padded_code (sample_last_step ivan) (mkOnboarding 5 ivan)
                eq_refl eq_refl eq_refl eq_refl eq_refl eq_refl ltac:(done)) as H.
  cbv zeta in H.
  change (sample_join Sample.x (JsString.trim (JsString.trim padded_code))
            (Bot.world (sample_last_step ivan)))
    with (Ok (Sample.devcon, Sample.profile 11%N "100" ["AI"]) : Result _,
          Sample.world (Some [])) in H.
  change (Sample.validate_profile (ob_data (mkOnboarding 5 ivan))) with (Ok ivan) in H.
  cbv beta iota in H.
  destruct H as (p & w2 & Hrun & _ & _ & Hin & Ht & Hc & Hdone & Hfirst & _ & Hint & _).
  exists p. unfold sample_message. rewrite Hrun.
  split; [exact Hin|]. split; [exact Ht|]. split; [exact Hc|]. split; [exact Hdone|].
  split; [exact (Hfirst "Ivan" eq_refl)|exact (Hint ["AI"] eq_refl)].
Defined.

Lemma set_slide_dialog_witness :
  conferences
    (Bot.world (snd (sample_message Sample.x "https://example.com/slide.png Intro"
                       (sample_session (flow_state "set_slide" (Some "enter_url")
                                                   (Some "abc123")))))) !! 0
    = Some devcon_with_slide /\
  Bot.userState (snd (sample_message Sample.x "https://example.com/slide.png Intro"
                        (sample_session (flow_state "set_slide" (Some "enter_url")
                                                    (Some "abc123"))))) !! 42%Z
    = None.
Proof.
  pose proof (over_sample_message (set_slide_dialog Sample.validate_profile Sample.validate_slide)
                (fun _ _ _ _ => eq_refl)
                Sample.x "https://example.com/slide.png Intro"
                (sample_session (flow_state "set_slide" (Some "enter_url") (Some "abc123")))
                (flow_state "set_slide" (Some "enter_url") (Some "abc123")) "abc123"
                eq_refl eq_refl eq_refl eq_refl eq_refl eq_refl eq_refl) as H.
  cbv zeta in H.
  change (sample_ensure Sample.x (Bot.world (sample_session
            (flow_state "set_slide" (Some "enter_url") (Some "abc123")))))
    with (Sample.root, Sample.world (Some [])) in H.
  cbv beta iota in H.
  change (Sample.validate_slide _)
    with (Ok (mkSlideData "https://example.com/slide.png" "Intro" "abc123")) in H.
  cbv beta iota in H.
  change (findOne _ (conferences (Sample.world (Some []))))
    with (Some (0, Sample.devcon)) in H.
  cbv beta iota in H.
  change (may_moderate Sample.userIsMainAdmin Sample.root Sample.devcon
                       (Sample.world (Some []))) with true in H.
  cbv beta iota in H.
  destruct H as (w2 & k & Hrun & Hslot & _).
  unfold sample_message. rewrite Hrun. split; [exact Hslot|]. apply lookup_delete_eq.
Defined.

Lemma find_participants_dialog_witness :
  Bot.world (snd (sample_dialog Sample.x "AI"
                    (sample_session (flow_state "find_participants" (Some "enter_query")
                                                (Some "abc123")))))
  = Sample.world (Some []).
Proof.
  exact (proj1 (over_sample (find_participants_dialog Sample.validate_profile)
                  (fun _ _ _ _ => eq_refl) Sample.x "AI"
                  (sample_session (flow_state "find_participants" (Some "enter_query")
                                              (Some "abc123")))
                  (flow_state "find_participants" (Some "enter_query") (Some "abc123"))
                  "abc123" eq_refl eq_refl eq_refl eq_refl eq_refl eq_refl)).
Defined.

End EndToEndExamples.

(** ** Lists typed by the user *)

Lemma trimStart_go_skip k s :
  JsString.trimStart_go k s = JsString.trimStart (JsString.skip k s).
Proof.
  revert k. induction s as [|c s IH]; intros k; [by destruct k|].
  destruct k as [|k]; [done|]. cbn [JsString.trimStart_go JsString.skip]. apply IH.
Qed.

(** [trimStart] removes one white space character after the other. *)
Lemma trimStart_unfold s :
  JsString.trimStart s =
  match JsString.ws_len s with
  | O => s
  | S k => JsString.trimStart (JsString.skip (S k) s)
  end.
Proof.
  destruct s as [|c s]; [done|].
  unfold JsString.trimStart at 1. cbn [JsString.trimStart_go].
  destruct (JsString.ws_len (String c s)) as [|k]; [done|].
  cbn [JsString.skip]. apply trimStart_go_skip.
Qed.

Lemma trimStart_go_head k s :
  JsString.trimStart_go k s = "" \/ JsString.ws_len (JsString.trimStart_go k s) = 0.
Proof.
  revert k. induction s as [|c s IH]; intros k; [by left|].
  destruct k as [|k]; cbn [JsString.trimStart_go]; [|apply IH].
  destruct (JsString.ws_len (String c s)) as [|k'] eqn:Hw; [by right|apply IH].
Qed.

(** What [trimStart] returns begins with no white space. *)
Lemma trimStart_head s :
  JsString.trimStart s = "" \/ JsString.ws_len (JsString.trimStart s) = 0.
Proof. apply trimStart_go_head. Qed.

Lemma trimStart_fixed s : JsString.ws_len s = 0 -> JsString.trimStart s = s.
Proof. intros H. by rewrite trimStart_unfold, H. Qed.

Lemma ws_len_length s : JsString.ws_len s <= String.length s.
Proof.
  unfold JsString.ws_len.
  destruct s as [|a [|b [|c s]]]; simpl; repeat case_match; lia.
Qed.

(** The white space character a string begins with is still there when
    something is appended. *)
Lemma ws_len_app p r k :
  JsString.ws_len p = S k -> JsString.ws_len (p +:+ r) = S k.
Proof.
  unfold JsString.ws_len.
  destruct p as [|a [|b [|c p]]]; simpl; repeat case_match; done.
Qed.

Lemma skip_app k p r :
  k <= String.length p -> JsString.skip k (p +:+ r) = JsString.skip k p +:+ r.
Proof.
  revert p. induction k as [|k IH]; intros p Hk; [by destruct p|].
  destruct p as [|c p]; simpl in *; [lia|]. apply IH. lia.
Qed.

Lemma skip_length k s : String.length (JsString.skip k s) <= String.length s.
Proof.
  revert s. induction k as [|k IH]; intros s; [by destruct s|].
  destruct s as [|c s]; simpl; [lia|]. specialize (IH s). lia.
Qed.

Lemma blank_iff s : JsString.blank s = true <-> JsString.trimStart s = "".
Proof. unfold JsString.blank. apply bool_decide_eq_true. Qed.

(** White space followed by white space is white space. *)
Lemma blank_app q r :
  JsString.blank q = true -> JsString.blank r = true -> JsString.blank (q +:+ r) = true.
Proof.
  remember (String.length q) as n eqn:Hn. revert q Hn.
  induction (lt_wf n) as [n _ IH]. intros q -> Hq Hr.
  destruct q as [|c q]; [done|].
  apply blank_iff in Hq. rewrite trimStart_unfold in Hq.
  destruct (JsString.ws_len (String c q)) as [|k] eqn:Hw; [done|].
  apply blank_iff. rewrite trimStart_unfold, (ws_len_app _ r _ Hw).
  pose proof (ws_len_length (String c q)) as Hl. rewrite Hw in Hl.
  rewrite skip_app by done. apply blank_iff.
  eapply IH; [|reflexivity|by apply blank_iff|done].
  cbn [JsString.skip]. pose proof (skip_length k q). simpl. lia.
Qed.

Lemma trimEnd_cons c s :
  JsString.trimEnd (String c s) =
  if JsString.blank (String c s) then "" else String c (JsString.trimEnd s).
Proof. done. Qed.

(** [trimEnd] cuts white space off, and nothing else. *)
Lemma trimEnd_cut s :
  exists r, s = JsString.trimEnd s +:+ r /\ JsString.blank r = true.
Proof.
  induction s as [|c s (r & IH & Hr)]; [by exists ""|].
  rewrite trimEnd_cons. destruct (JsString.blank (String c s)) eqn:Hb.
  - by exists (String c s).
  - exists r. split; [|done].
    change (String c s = String c (JsString.trimEnd s +:+ r)). congruence.
Qed.

Lemma trimEnd_idem s : JsString.trimEnd (JsString.trimEnd s) = JsString.trimEnd s.
Proof.
  induction s as [|c s IH]; [done|].
  rewrite trimEnd_cons. destruct (JsString.blank (String c s)) eqn:Hb; [done|].
  rewrite trimEnd_cons, IH.
  destruct (JsString.blank (String c (JsString.trimEnd s))) eqn:Hb'; [|done].
  destruct (trimEnd_cut s) as (r & Hs & Hr).
  pose proof (blank_app _ _ Hb' Hr) as H.
  change (JsString.blank (String c (JsString.trimEnd s +:+ r)) = true) in H.
  rewrite <- Hs in H. congruence.
Qed.

(** [trim] has nothing left to remove from what it returns. *)
Lemma trim_idem s : JsString.trim (JsString.trim s) = JsString.trim s.
Proof.
  unfold JsString.trim.
  destruct (trimStart_head s) as [->|Hw]; [done|].
  destruct (trimEnd_cut (JsString.trimStart s)) as (r & Hs & Hr).
  rewrite trimStart_fixed; [apply trimEnd_idem|].
  destruct (JsString.ws_len (JsString.trimEnd (JsString.trimStart s))) as [|k] eqn:Hk;
    [done|].
  apply (ws_len_app _ r) in Hk. rewrite <- Hs in Hk. congruence.
Qed.

(** What [trim] returns neither begins nor ends with white space: it
    begins with no white space character, and nothing but white space is
    never all that follows one of its bytes. *)
Lemma trim_ends s :
  JsString.ws_len (JsString.trim s) = 0 /\
  forall p c r, JsString.trim s = p +:+ String c r -> JsString.blank (String c r) = false.
Proof.
  split.
  - unfold JsString.trim.
    destruct (trimStart_head s) as [->|Hw]; [done|].
    destruct (trimEnd_cut (JsString.trimStart s)) as (r & Hs & Hr).
    destruct (JsString.ws_len (JsString.trimEnd (JsString.trimStart s))) as [|k] eqn:Hk;
      [done|].
    apply (ws_len_app _ r) in Hk. rewrite <- Hs in Hk. congruence.
  - unfold JsString.trim. generalize (JsString.trimStart s). clear s.
    intros s p. revert s. induction p as [|d p IH]; intros s c r H.
    + destruct s as [|c' s]; [done|]. rewrite trimEnd_cons in H.
      destruct (JsString.blank (String c' s)) eqn:Hb; [done|].
      change (String c' (JsString.trimEnd s) = String c r) in H. rewrite <- H.
      destruct (JsString.blank (String c' (JsString.trimEnd s))) eqn:Hb'; [|done].
      destruct (trimEnd_cut s) as (r' & Hs & Hr).
      pose proof (blank_app _ _ Hb' Hr) as H'.
      change (JsString.blank (String c' (JsString.trimEnd s +:+ r')) = true) in H'.
      rewrite <- Hs in H'. congruence.
    + destruct s as [|c' s]; [done|]. rewrite trimEnd_cons in H.
      destruct (JsString.blank (String c' s)); [done|].
      change (String c' (JsString.trimEnd s) = String d (p +:+ String c r)) in H.
      injection H as _ H. by eapply IH.
Qed.

Lemma trimStart_go_chars k s x :
  x ∈ list_ascii_of_string (JsString.trimStart_go k s) -> x ∈ list_ascii_of_string s.
Proof.
  revert k. induction s as [|c s IH]; intros k; [done|].
  destruct k as [|k]; cbn [JsString.trimStart_go list_ascii_of_string].
  - destruct (JsString.ws_len (String c s)) as [|k']; [done|].
    intros H. apply elem_of_cons. right. by eapply IH.
  - intros H. apply elem_of_cons. right. by eapply IH.
Qed.

Lemma trimStart_chars s x :
  x ∈ list_ascii_of_string (JsString.trimStart s) -> x ∈ list_ascii_of_string s.
Proof. apply trimStart_go_chars. Qed.

Lemma trimEnd_chars s x :
  x ∈ list_ascii_of_string (JsString.trimEnd s) -> x ∈ list_ascii_of_string s.
Proof.
  induction s as [|c s IH]; [done|]. rewrite trimEnd_cons.
  destruct (JsString.blank (String c s)); [by intros ?%elem_of_nil|].
  simpl. intros [->|H]%elem_of_cons; apply elem_of_cons; [by left|right; by apply IH].
Qed.

Lemma split_pieces sep s w :
  w ∈ JsString.split sep s -> sep ∉ list_ascii_of_string w.
Proof.
  revert w. induction s as [|c s IH]; intros w; simpl.
  - intros ->%list_elem_of_singleton. apply not_elem_of_nil.
  - destruct (decide (c = sep)) as [->|Hc].
    + intros [->|H]%elem_of_cons; [apply not_elem_of_nil|by apply IH].
    + pose proof (split_nonempty sep s) as Hne.
      destruct (JsString.split sep s) as [|w0 ws]; [done|].
      intros [->|H]%elem_of_cons.
      * simpl. apply not_elem_of_cons. split; [done|]. apply IH, elem_of_cons. by left.
      * apply IH, elem_of_cons. by right.
Qed.

(** X26. What the user types as a list (the options of a poll, the
    interests, offerings and wishes of a profile) is cut at the commas into
    items that are never empty, have no white space left at either end
    (they begin with no white space character, and what follows any of
    their bytes is never white space only) and contain no comma; so no
    blank option or interest reaches a service. *)
Theorem comma_list_items text x :
  x ∈ Bot.comma_list text ->
  x <> "" /\ JsString.trim x = x /\
  JsString.ws_len x = 0 /\
  (forall p c r, x = p +:+ String c r -> JsString.blank (String c r) = false) /\
  ","%char ∉ list_ascii_of_string x.
Proof.
  unfold Bot.comma_list. intros H.
  apply list_elem_of_In, filter_In in H as [H Hx].
  apply in_map_iff in H as (w & <- & Hw). apply list_elem_of_In in Hw.
  split; [by destruct (JsString.trim w)|]. split; [apply trim_idem|].
  split; [apply trim_ends|]. split; [apply trim_ends|].
  intros Hc. apply (split_pieces _ _ _ Hw).
  by apply trimStart_chars, trimEnd_chars.
Qed.

Lemma comma_list_items_witness :
  let text := " Tea" +:+ JsString.of_bytes [194; 160]%N +:+ ", ,Coffee" in
  Bot.comma_list text = ["Tea"; "Coffee"] /\
  JsString.trim "Tea" = "Tea" /\ ","%char ∉ list_ascii_of_string "Tea".
Proof.
  cbv zeta. split; [reflexivity|].
  destruct (comma_list_items (" Tea" +:+ JsString.of_bytes [194; 160]%N +:+ ", ,Coffee")
              "Tea") as (_ & Ht & _ & _ & Hc).
  { apply elem_of_cons. by left. }
  split; [exact Ht|exact Hc].
Defined.

(** ** From the buttons to the steps *)

Lemma splitWs_go_nonempty in_run k s : JsString.splitWs_go in_run k s <> [].
Proof.
  revert in_run k. induction s as [|c s IH]; intros in_run k; [done|].
  destruct k as [|k]; cbn [JsString.splitWs_go]; [|apply IH].
  destruct (JsString.ws_len (String c s)) as [|k'].
  - by destruct (JsString.splitWs_go false 0 s).
  - destruct in_run; [apply IH|done].
Qed.

Lemma splitWs_nonempty s : JsString.splitWs s <> [].
Proof. apply splitWs_go_nonempty. Qed.

Lemma unless_dash_trim t :
  Bot.unless_dash (JsString.trim t) =
  if bool_decide (JsString.trim t = "-") then None else Some (JsString.trim t).
Proof. unfold Bot.unless_dash. rewrite trim_idem. by destruct (bool_decide _). Qed.

Section BotSteps.

Context {W : Type}.
Context {engine : JsString.Engine}.
Variable validate_profile : ProfileData -> Result ProfileData.
Variable ensureUserFromTelegram : From -> W -> User.t * W.
Variable userIsMainAdmin : User.t -> bool.
Variable listConferencesForUser : User.t -> W -> list Conference.t.
Variable joinConference : From -> string -> M W (Conference.t * UserProfile.t).
Variable upsertProfileForConference :
  string -> option ObjectId -> ProfileData -> M W UserProfile.t.
Variable searchProfiles :
  option string -> option string -> option string -> option nat ->
  M W (Conference.t * list UserProfile.t).
Variable askQuestion : From -> option string -> string -> option string -> M W Conference.t.
Variable answerQuestion : User.t -> option string -> option string -> string -> M W Question.
Variable updateConference :
  option string -> User.t -> option string -> option string -> M W Conference.t.
Variable createPoll : User.t -> option string -> option string -> list string -> M W Poll.t.
Variable Poll_findById : option string -> W -> option Poll.t.
Variable Conference_findById : ObjectId -> W -> option Conference.t.
Variable updatePoll : User.t -> option string -> option string -> M W Poll.t.
Variable assignConferenceAdmin : User.t -> option string -> string -> M W unit.
Variable setSlide : User.t -> option string -> option string -> option string -> M W Conference.t.
Variable createConference : User.t -> string -> string -> M W Conference.t.

Local Abbreviation on_text :=
  (Bot.on_text validate_profile ensureUserFromTelegram userIsMainAdmin joinConference
     upsertProfileForConference searchProfiles askQuestion answerQuestion updateConference
     createPoll Poll_findById Conference_findById updatePoll assignConferenceAdmin setSlide
     createConference).

Local Abbreviation state_flow :=
  (Bot.state_flow ensureUserFromTelegram userIsMainAdmin joinConference searchProfiles
     askQuestion answerQuestion updateConference createPoll Poll_findById
     Conference_findById updatePoll assignConferenceAdmin setSlide createConference).

Local Abbreviation on_message :=
  (Bot.on_message validate_profile ensureUserFromTelegram userIsMainAdmin
     listConferencesForUser joinConference upsertProfileForConference searchProfiles
     askQuestion answerQuestion updateConference createPoll Poll_findById
     Conference_findById updatePoll assignConferenceAdmin setSlide createConference).

Lemma on_message_plain from message_text :
  Bot.is_label message_text = false ->
  on_message from message_text = on_text from message_text.
Proof. apply on_message_text. Qed.

Lemma on_text_in_state from message_text (s : Bot.State W) state :
  JsString.startsWith message_text "/" = false ->
  Bot.is_cancel (JsString.trim message_text) = false ->
  Bot.userState s !! from_id from = Some state ->
  on_text from message_text s = state_flow from (JsString.trim message_text) state s.
Proof. apply on_text_state. Qed.

Ltac hand_over :=
  intros s;
  cbv [Bot.action_admin_set_slide Bot.action_admin_assign_admin Bot.action_admin_edit_conf
       Bot.action_admin_create_poll Bot.action_speaker_create_poll Bot.action_create_poll
       Bot.action_speaker_answer Bot.action_ask_speaker
       Bot.action_menu_admin_create_conference Bot.action_menu_join_conference
       Bot.hears_join Bot.action_poll_edit
       bind Bot.send Bot.clearUserState Bot.userState_delete Bot.onboardingState_delete
       Bot.userState_set Bot.reply Bot.editMessageText modify ret];
  eexists; split; [reflexivity|]; cbn;
  split; [apply lookup_insert_eq|];
  split; [apply lookup_delete_eq|];
  split; [reflexivity|];
  intros t Ht0 Ht1 Ht2;
  rewrite (on_message_plain _ _ Ht0);
  rewrite (on_text_in_state _ _ _ _ Ht1 Ht2 (lookup_insert_eq _ _ _));
  reflexivity.

(** X27. Every button that asks for a text hands over to the step that
    reads it. After the button for a slide, a new admin, a new title, a new
    poll (of an admin or of a speaker), an answer, a question to a speaker
    or to all, a new conference, a join (from either menu) or a poll to
    edit, the sender holds exactly the session of that step, with the
    conference, poll, question and speaker the button carried, and no
    onboarding; no service was called; and the next text message that is
    neither a label of the reply keyboard, a command nor a cancel word goes
    to that step and to no other. *)
Theorem buttons_reach_their_step from code poll questionId target :
  hands_over on_message from (Bot.action_admin_set_slide from code)
    (flow_state "set_slide" (Some "enter_url") (Some code))
    (Bot.set_slide_flow ensureUserFromTelegram setSlide) /\
  hands_over on_message from (Bot.action_admin_assign_admin from code)
    (flow_state "assign_admin" (Some "enter_telegram_id") (Some code))
    (Bot.assign_admin_flow ensureUserFromTelegram userIsMainAdmin assignConferenceAdmin) /\
  hands_over on_message from (Bot.action_admin_edit_conf from code)
    (flow_state "edit_conference" (Some "enter_title") (Some code))
    Bot.edit_conference_title_flow /\
  hands_over on_message from (Bot.action_admin_create_poll from code)
    (flow_state "create_poll" (Some "enter_question") (Some code))
    Bot.create_poll_question_flow /\
  hands_over on_message from (Bot.action_speaker_create_poll from code)
    (flow_state "create_poll" (Some "enter_question") (Some code))
    Bot.create_poll_question_flow /\
  hands_over on_message from (Bot.action_speaker_answer from code questionId)
    (mkFlowState "answer_question" (Some "enter_answer") (Some code) None None None
                 (Some questionId) None)
    (Bot.answer_question_flow ensureUserFromTelegram answerQuestion) /\
  hands_over on_message from (Bot.action_ask_speaker from code target)
    (mkFlowState "ask_question" (Some "enter_question") (Some code) None None None None
                 (if bool_decide (target = "all") then None else Some target))
    (Bot.ask_question_flow askQuestion) /\
  hands_over on_message from (Bot.action_menu_admin_create_conference from)
    (flow_state "create_conference" (Some "enter_title") None)
    (fun from text _ => Bot.create_conference_flow ensureUserFromTelegram createConference
                          from text) /\
  hands_over on_message from (Bot.action_menu_join_conference from)
    (flow_state "join_conference" None None)
    (fun from text _ => Bot.join_conference_flow joinConference from text) /\
  hands_over on_message from (Bot.hears_join from)
    (flow_state "join_conference" None None)
    (fun from text _ => Bot.join_conference_flow joinConference from text) /\
  hands_over on_message from (Bot.action_poll_edit from poll)
    (mkFlowState "edit_poll" (Some "enter_question") None None None (Some poll) None None)
    (Bot.edit_poll_flow ensureUserFromTelegram Poll_findById Conference_findById updatePoll).
Proof.
  repeat split; hand_over.
Qed.

(** X28. The conference editor of two steps, for two text messages that
    are neither labels of the reply keyboard, commands nor cancel words. The
    title step calls no
    service: it stores the text as the new title, or nothing for a dash, and
    asks for the description. The description step then hands
    [updateConference] the conference of the session, the stored title
    unless it is absent or empty, and the text as the description unless it
    is a dash, so a dash leaves a field as it is. When the service succeeds
    both sessions are dropped; when it throws the session stays and the
    error is logged. *)
Theorem edit_conference_two_steps from t d (s : Bot.State W) state :
  Bot.is_label t = false ->
  Bot.is_label d = false ->
  JsString.startsWith t "/" = false ->
  Bot.is_cancel (JsString.trim t) = false ->
  JsString.startsWith d "/" = false ->
  Bot.is_cancel (JsString.trim d) = false ->
  Bot.userState s !! from_id from = Some state ->
  flow state = "edit_conference" ->
  step state = Some "enter_title" ->
  let new_title :=
    if bool_decide (JsString.trim t = "-") || bool_decide (JsString.trim t = "")
    then None else Some (JsString.trim t) in
  let new_description :=
    if bool_decide (JsString.trim d = "-") then None else Some (JsString.trim d) in
  let s1 := snd (on_message from t s) in
  let '(account, w1) := ensureUserFromTelegram from (Bot.world s) in
  Bot.world s1 = Bot.world s /\
  Bot.userState s1 =
    <[from_id from := Bot.with_title state (Bot.unless_dash (JsString.trim t))]>
      (Bot.userState s) /\
  Bot.onboardingState s1 = Bot.onboardingState s /\
  on_message from d s1 =
  match updateConference (conferenceCode state) account new_title new_description w1 with
  | (Ok conference, w2) =>
      (Ok tt, Bot.mkState w2 (delete (from_id from) (Bot.userState s1))
                (delete (from_id from) (Bot.onboardingState s1))
                (Bot.outbox s1 ++
                 [Reply (MsgConferenceUpdated (Conference.title conference))
                        (MainMenu from)])
                (Bot.console s1))
  | (Throw e, w2) =>
      (Ok tt, Bot.mkState w2 (Bot.userState s1) (Bot.onboardingState s1)
                (Bot.outbox s1 ++ [Reply MsgConferenceUpdateFailed NoMarkup])
                (Bot.console s1 ++ [("Error in edit_conference flow", e)]))
  end.
Proof.
  intros Hlt Hld. rewrite !(on_message_plain _ _ Hlt).
  intros Ht1 Ht2 Hd1 Hd2 Hst Hf Hs new_title new_description s1.
  destruct (ensureUserFromTelegram from (Bot.world s)) as [account w1] eqn:Hu.
  set (state1 := Bot.with_title state (Bot.unless_dash (JsString.trim t))).
  assert (Hs1 : s1 = Bot.mkState (Bot.world s) (<[from_id from := state1]> (Bot.userState s))
                       (Bot.onboardingState s)
                       (Bot.outbox s ++
                          [Reply MsgEnterDescription
                             (InlineButton "◀️ Отмена"
                                ("admin:conf:" +:+ Bot.interpolate (conferenceCode state)))])
                       (Bot.console s)).
  { subst s1. rewrite (on_text_in_state _ _ _ _ Ht1 Ht2 Hst).
    unfold Bot.state_flow, Bot.is_step. rewrite Hf, Hs. reflexivity. }
  assert (Hst1 : Bot.userState s1 !! from_id from = Some state1).
  { rewrite Hs1. simpl. apply lookup_insert_eq. }
  split; [by rewrite Hs1|]. split; [by rewrite Hs1|]. split; [by rewrite Hs1|].
  rewrite (on_message_plain _ _ Hld), (on_text_in_state _ _ _ _ Hd1 Hd2 Hst1).
  assert (Hflow : state_flow from (JsString.trim d) state1 =
                  Bot.edit_conference_description_flow ensureUserFromTelegram
                    updateConference from (JsString.trim d) state1).
  { unfold Bot.state_flow, Bot.is_step. subst state1. cbn [flow step Bot.with_title].
    rewrite Hf. reflexivity. }
  rewrite Hflow.
  unfold Bot.edit_conference_description_flow, try_catch, bind, Bot.ensureUser, Bot.on_world,
    Bot.clearUserState, Bot.userState_delete, Bot.onboardingState_delete, Bot.reply,
    Bot.send, Bot.console_error, modify.
  assert (Hw : Bot.world s1 = Bot.world s) by (by rewrite Hs1).
  clearbody s1. rewrite Hw, Hu. cbn [Bot.world].
  assert (Htitle : Bot.or_null (title state1) = new_title).
  { subst state1 new_title. cbn [title Bot.with_title]. rewrite unless_dash_trim.
    destruct (bool_decide (JsString.trim t = "-")); [done|]. simpl.
    destruct (JsString.trim t); done. }
  rewrite Htitle, unless_dash_trim. fold new_description.
  subst state1. cbn [conferenceCode Bot.with_title].
  destruct (updateConference _ _ _ _ _) as [[c|e] w2]; reflexivity.
Qed.

(** X29. The choice of a conference continues the flow. Whatever session
    the sender had, after [find:conf] (and [ask:conf]) they hold exactly the
    session of the search (of the question) in the chosen conference, no
    service was called, and the next text message that is neither a label
    of the reply keyboard, a command nor a cancel word is the query (the
    question) for that conference. An onboarding underneath is dropped unless the sender
    was already in that flow. *)
Theorem conference_choice_continues_flow from code (s : Bot.State W) :
  let chosen f st := flow_state f (Some st) (Some code) in
  let kept f :=
    match Bot.userState s !! from_id from with
    | Some cur => if bool_decide (flow cur = f)
                  then Bot.onboardingState s !! from_id from else None
    | None => None
    end in
  (exists s1,
     Bot.action_find_conf from code s = (Ok tt, s1) /\
     Bot.userState s1 !! from_id from = Some (chosen "find_participants" "enter_query") /\
     Bot.onboardingState s1 !! from_id from = kept "find_participants" /\
     Bot.world s1 = Bot.world s /\
     forall t,
       Bot.is_label t = false ->
       JsString.startsWith t "/" = false ->
       Bot.is_cancel (JsString.trim t) = false ->
       on_message from t s1 =
       Bot.find_participants_flow searchProfiles from (JsString.trim t)
         (chosen "find_participants" "enter_query") s1) /\
  (exists s1,
     Bot.action_ask_conf from code s = (Ok tt, s1) /\
     Bot.userState s1 !! from_id from = Some (chosen "ask_question" "enter_question") /\
     Bot.onboardingState s1 !! from_id from = kept "ask_question" /\
     Bot.world s1 = Bot.world s /\
     forall t,
       Bot.is_label t = false ->
       JsString.startsWith t "/" = false ->
       Bot.is_cancel (JsString.trim t) = false ->
       on_message from t s1 =
       Bot.ask_question_flow askQuestion from (JsString.trim t)
         (chosen "ask_question" "enter_question") s1).
Proof.
  intros chosen kept. subst chosen kept. cbv beta.
  split.
  - cbv [Bot.action_find_conf Bot.continue_with_conference bind get Bot.send
         Bot.clearUserState Bot.userState_delete Bot.onboardingState_delete
         Bot.userState_set Bot.reply modify ret]. cbn [Bot.userState].
    destruct (Bot.userState s !! from_id from) as [cur|];
      [destruct (bool_decide (flow cur = "find_participants"))|];
      (eexists; split; [reflexivity|]; cbn;
       split; [apply lookup_insert_eq|];
       split; [first [reflexivity|apply lookup_delete_eq]|];
       split; [reflexivity|];
       intros t Ht0 Ht1 Ht2;
       rewrite (on_message_plain _ _ Ht0);
       rewrite (on_text_in_state _ _ _ _ Ht1 Ht2 (lookup_insert_eq _ _ _));
       reflexivity).
  - cbv [Bot.action_ask_conf Bot.continue_with_conference bind get Bot.send
         Bot.clearUserState Bot.userState_delete Bot.onboardingState_delete
         Bot.userState_set Bot.reply modify ret]. cbn [Bot.userState].
    destruct (Bot.userState s !! from_id from) as [cur|];
      [destruct (bool_decide (flow cur = "ask_question"))|];
      (eexists; split; [reflexivity|]; cbn;
       split; [apply lookup_insert_eq|];
       split; [first [reflexivity|apply lookup_delete_eq]|];
       split; [reflexivity|];
       intros t Ht0 Ht1 Ht2;
       rewrite (on_message_plain _ _ Ht0);
       rewrite (on_text_in_state _ _ _ _ Ht1 Ht2 (lookup_insert_eq _ _ _));
       reflexivity).
Qed.

(** X30. The first step of onboarding reads a name, from a text message
    that is neither a label of the reply keyboard, a command nor a cancel
    word. The first word of the trimmed text, cut at runs of white space, is
    the first name and the other words, joined by single spaces, the
    last name; the reply that asks for at least a name is never sent, since
    a text always has a first piece. With one word only the first name is
    validated and the last name is stored empty. When the validation passes
    the names are stored over the data collected so far and the step moves
    on; when it throws, step and data are as before and the error is logged
    and answered. *)
Theorem onboarding_name_step from message_text (s : Bot.State W) ob :
  Bot.is_label message_text = false ->
  JsString.startsWith message_text "/" = false ->
  Bot.is_cancel (JsString.trim message_text) = false ->
  Bot.userState s !! from_id from = None ->
  Bot.onboardingState s !! from_id from = Some ob ->
  ob_step ob = 1%Z ->
  exists firstName rest,
    JsString.splitWs (JsString.trim message_text) = firstName :: rest /\
    let lastName := JsString.join " " rest in
    match validate_profile
            (mkProfileData (Some firstName)
                           (if JsString.truthy lastName then Some lastName else None)
                           None None None None) with
    | Ok _ =>
        on_message from message_text s =
        (Ok tt, Bot.mkState (Bot.world s) (Bot.userState s)
                  (<[from_id from :=
                       mkOnboarding 2 (Bot.with_names (ob_data ob) firstName lastName)]>
                     (Bot.onboardingState s))
                  (Bot.outbox s ++ [Reply (MsgOnboardingStep 2) NoMarkup])
                  (Bot.console s))
    | Throw e =>
        on_message from message_text s =
        (Ok tt, Bot.mkState (Bot.world s) (Bot.userState s) (Bot.onboardingState s)
                  (Bot.outbox s ++ [Reply (Bot.onboarding_error e) NoMarkup])
                  (Bot.console s ++ [("Error in onboarding flow", e)]))
    end.
Proof.
  intros Hl. rewrite (on_message_plain _ _ Hl).
  intros H1 H2 H3 H4 Hstep.
  rewrite (on_text_onboarding _ _ _ _ _ _ _ _ _ _ _ _ _ _ _ _ _ _ _ _ H1 H2 H3 H4).
  unfold Bot.onboarding_flow, Bot.onboarding_try, try_catch. rewrite Hstep.
  rewrite (bool_decide_true (1 = 1)%Z) by done. rewrite trim_idem.
  pose proof (splitWs_nonempty (JsString.trim message_text)) as Hne.
  destruct (JsString.splitWs (JsString.trim message_text)) as [|firstName rest]; [done|].
  exists firstName, rest. split; [done|]. cbv zeta.
  unfold bind at 1.
  destruct (JsString.truthy (JsString.join " " rest)); unfold lift;
    destruct (validate_profile _); reflexivity.
Qed.

End BotSteps.

(** ** From the buttons to the steps, on examples *)

Section BotStepsExamples.

#[local] Existing Instance Sample.engine.

Local Abbreviation at_sample_message thm :=
  (thm (list Conference.t) Sample.engine Sample.validate_profile
       Sample.ensureUserFromTelegram Sample.userIsMainAdmin Sample.listConferencesForUser
       (fun _ _ => throw (Err "CONFERENCE_NOT_FOUND"))
       (fun _ _ _ => throw (Err "MISSING_KEYS"))
       (fun _ _ _ _ => throw (Err "CONFERENCE_NOT_FOUND"))
       (fun _ _ _ _ => throw (Err "CONFERENCE_NOT_FOUND"))
       (fun _ _ _ _ => throw (Err "NOT_SPEAKER"))
       (fun _ _ _ _ => throw (Err "CONFERENCE_NOT_FOUND"))
       (fun _ _ _ _ => throw (Err "CONFERENCE_NOT_FOUND"))
       (fun _ _ => None)
       (fun _ _ => None)
       (fun _ _ _ => throw (Err "POLL_NOT_FOUND"))
       (fun _ _ _ => throw (Err "ACCESS_DENIED"))
       (fun _ _ _ _ => throw (Err "CONFERENCE_NOT_FOUND"))
       (fun _ _ _ => throw (Err "ACCESS_DENIED"))).

Local Abbreviation nbsp := (JsString.of_bytes [194; 160]%N).

Lemma edit_conference_two_steps_witness :
  Bot.userState
    (snd (Sample.on_message Sample.x (nbsp +:+ "DevCon 2026" +:+ nbsp)
            (sample_in_flow (flow_state "edit_conference" (Some "enter_title")
                                        (Some "abc123"))))) !! 42%Z
  = Some (mkFlowState "edit_conference" (Some "enter_description") (Some "abc123")
                      None (Some "DevCon 2026") None None None).
Proof.
  destruct (at_sample_message (@edit_conference_two_steps) Sample.x
              (nbsp +:+ "DevCon 2026" +:+ nbsp) "-"
              (sample_in_flow (flow_state "edit_conference" (Some "enter_title")
                                          (Some "abc123")))
              (flow_state "edit_conference" (Some "enter_title") (Some "abc123"))
              eq_refl eq_refl eq_refl eq_refl eq_refl eq_refl eq_refl eq_refl eq_refl)
    as (_ & Hu & _).
  unfold Sample.on_message. rewrite Hu. apply lookup_insert_eq.
Defined.

Lemma onboarding_name_step_witness :
  Sample.on_message Sample.x ("Ivan" +:+ nbsp +:+ " Ivanov") (sample_onboarding 1 empty_data) =
  (Ok tt, Bot.mkState [Sample.devcon] ∅
            (<[42%Z := mkOnboarding 2 (mkProfileData (Some "Ivan") (Some "Ivanov")
                                                      None None None None)]>
               (Bot.onboardingState (sample_onboarding 1 empty_data)))
            [Reply (MsgOnboardingStep 2) NoMarkup] []).
Proof.
  destruct (at_sample_message (@onboarding_name_step) Sample.x ("Ivan" +:+ nbsp +:+ " Ivanov")
              (sample_onboarding 1 empty_data) (mkOnboarding 1 empty_data)
              eq_refl eq_refl eq_refl eq_refl eq_refl eq_refl)
    as (firstName & rest & Hsplit & H).
  vm_compute in Hsplit. injection Hsplit as <- <-. exact H.
Defined.

End BotStepsExamples.
